(** * Shopify Insights: sync pipeline and derived analytics

    A shallow embedding of the tenant data synchronisation code
    (services/shopifyService.ts, services/scheduler.ts, routes/webhooks.ts,
    routes/shopify.ts) and of the analytics derivations (routes/insights.ts:
    RFM segmentation and revenue forecasting), with the properties of the
    specification stated and settled against it.

    Conventions of the embedding.
    - A JavaScript number that holds money or a statistic is an IEEE 754
      binary64 value: Rocq's primitive [float], whose operations round to
      nearest-even exactly as JavaScript's do.
    - A JavaScript number that holds an identifier, a count, a list length
      or a millisecond timestamp is an integer: [Z].
    - A date of a response is a day number, the days since the epoch in
      UTC; what the code computes in the local time of the process goes
      through [Calendar].
    - A payload of type [any] is a [jsval]; [undefined] is one of its values.
    - An error that is thrown is carried by its [message].
    - The relational store is a record of tables; unique compound keys
      ([tenantId_shopifyId]) index a [gmap], tables without one are lists.
      The schema validation of the storage engine is not part of the
      model: a row holds what the code writes.
    - Awaited Prisma calls run in sequence on the store; an exception leaves
      the writes made before it in place.
    - A route is its handler: the middleware that [index.ts] mounts in
      front of the routers (CORS, body parsers, authentication) and the
      error handler behind them are not part of the model.

    Contents: JavaScript values and numbers; dates; the revenue forecast;
    the store; the pull path; the webhook path; the manual trigger; the
    RFM segmentation; connecting a store and the sync status; the
    scheduler; the stores the service gets to; concrete inputs; then the
    properties: numbers, forecast, RFM, orchestration, webhooks, the two
    order paths, line items, tenant isolation and the two store
    invariants behind it, the routes, the shape of the forecast and of the
    segments, reconciliation, the sync run and its log rows, and what
    holds of every store the service gets to. *)

From Stdlib Require Import ZArith Floats.
From stdpp Require Import gmap strings list pretty sorting.

Set Warnings "-register-all,-inexact-float".
Open Scope Z_scope.

(* ===================================================================== *)
(** ** JavaScript values *)
(* ===================================================================== *)

Inductive jsval : Type :=
| JUndefined
| JNull
| JBool (b : bool)
| JNum (n : Z)
| JStr (s : string)
| JArr (xs : list jsval)
| JObj (fields : list (string * jsval)).

(** Exceptions: [Throw] carries the message of the JavaScript error. *)
Inductive Result (A : Type) : Type :=
| Ok (a : A)
| Throw (message : string).
Arguments Ok {A} a.
Arguments Throw {A} message.

Module Js.

Definition nullish (v : jsval) : bool :=
  match v with JUndefined | JNull => true | _ => false end.

(** ToBoolean. *)
Definition truthy (v : jsval) : bool :=
  match v with
  | JUndefined | JNull => false
  | JBool b => b
  | JNum n => negb (n =? 0)
  | JStr s => negb (String.eqb s "")
  | JArr _ | JObj _ => true
  end.

(** [a || b]. *)
Definition or (a b : jsval) : jsval := if truthy a then a else b.

Fixpoint assoc (k : string) (fields : list (string * jsval)) : jsval :=
  match fields with
  | [] => JUndefined
  | (k', v) :: rest => if String.eqb k k' then v else assoc k rest
  end.

(** [v.k] for a [v] that is neither [null] nor [undefined]: the value of
    an object's own key, [undefined] for a missing key and for the keys
    read here on arrays and primitives. *)
Definition get (k : string) (v : jsval) : jsval :=
  match v with
  | JObj fields => assoc k fields
  | _ => JUndefined
  end.

(** [v?.k]. *)
Definition qget (k : string) (v : jsval) : jsval :=
  if nullish v then JUndefined else get k v.

(** [v?.[0]]. *)
Definition qfirst (v : jsval) : jsval :=
  match v with
  | JArr (x :: _) => x
  | JStr (String c _) => JStr (String c "")
  | JObj fields => assoc "0" fields
  | _ => JUndefined
  end.

(** [String(v)].  A [JNum] holds an integer that a Number represents
    exactly and prints in full, as the ids, counts and timestamps of the
    payloads are (below 2^53 in absolute value; [String] goes over to
    exponent notation only from 1e21). *)
Fixpoint String_ (v : jsval) : string :=
  match v with
  | JUndefined => "undefined"
  | JNull => "null"
  | JBool b => if b then "true" else "false"
  | JNum n => pretty n
  | JStr s => s
  | JArr xs =>
      String.concat ","
        (map (fun x => match x with
                       | JUndefined | JNull => ""
                       | _ => String_ x
                       end) xs)
  | JObj _ => "[object Object]"
  end.

(** [v?.toString()]. *)
Definition qtoString (v : jsval) : jsval :=
  if nullish v then JUndefined else JStr (String_ v).

(** The elements visited by [for (const x of v)]. *)
Fixpoint chars (s : string) : list jsval :=
  match s with
  | EmptyString => []
  | String c rest => JStr (String c "") :: chars rest
  end.

(** [for (const x of e)], [v] being the value of the expression written
    [e]: arrays and strings are iterated, anything else throws a TypeError
    whose [message] names the expression. *)
Definition iterate (expression : string) (v : jsval) : Result (list jsval) :=
  match v with
  | JArr xs => Ok xs
  | JStr s => Ok (chars s)
  | _ => Throw (expression +:+ " is not iterable")
  end.

(** [Array.prototype.slice(start, end)], negative indices counted from
    the end of the array. *)
Definition relative_index (len k : Z) : Z :=
  if k <? 0 then Z.max (len + k) 0 else Z.min k len.

Definition slice {A : Type} (l : list A) (start : Z) (end_ : option Z) : list A :=
  let len := Z.of_nat (length l) in
  let k := relative_index len start in
  let final := match end_ with
               | None => len
               | Some e => relative_index len e
               end in
  take (Z.to_nat (final - k)) (drop (Z.to_nat k) l).

(** [l.reduce(f, init)]. *)
Definition reduce {A S : Type} (f : S -> A -> S) (init : S) (l : list A) : S :=
  fold_left f l init.

End Js.

(* ===================================================================== *)
(** ** JavaScript numbers *)
(* ===================================================================== *)

Module Num.
Open Scope float_scope.

(** An integer as a Number (exact below 2^53 in magnitude). *)
Definition of_Z (z : Z) : float :=
  match z with
  | Z0 => 0
  | Zpos _ => PrimFloat.of_uint63 (Uint63.of_Z z)
  | Zneg p => - PrimFloat.of_uint63 (Uint63.of_Z (Zpos p))
  end.

Definition is_pzero (x : float) : bool :=
  match PrimFloat.classify x with PZero => true | _ => false end.

Definition is_nzero (x : float) : bool :=
  match PrimFloat.classify x with NZero => true | _ => false end.

Definition isFinite (x : float) : bool :=
  match PrimFloat.classify x with
  | PInf | NInf | NaN => false
  | _ => true
  end.

(** [Math.max]: the loop of the language definition over the arguments,
    started at -Infinity; any NaN argument gives NaN. *)
Definition max_step (highest number : float) : float :=
  if is_pzero number && is_nzero highest then 0
  else if highest <? number then number
  else highest.

Definition Math_max (a b : float) : float :=
  if PrimFloat.is_nan a || PrimFloat.is_nan b then nan
  else max_step (max_step neg_infinity a) b.

(** [Math.min], started at +Infinity. *)
Definition min_step (lowest number : float) : float :=
  if is_nzero number && is_pzero lowest then (-0)
  else if number <? lowest then number
  else lowest.

Definition Math_min (a b : float) : float :=
  if PrimFloat.is_nan a || PrimFloat.is_nan b then nan
  else min_step (min_step infinity a) b.

(** [Math.round]: the integer nearest to [x], ties towards +Infinity;
    [x] itself when it is NaN, infinite, a zero or already an integer;
    -0 for -0.5 <= x < 0.  Computed exactly on the mantissa and exponent
    of [x] = +-m * 2^e. *)
Definition Math_round (x : float) : float :=
  match Prim2SF x with
  | S754_finite s m e =>
      if (0 <=? e)%Z then x
      else
        let d := (2 ^ (- e))%Z in
        let num := if s then Zneg m else Zpos m in
        let r := ((2 * num + d) / (2 * d))%Z in
        if (r =? 0)%Z then (if s then (-0) else 0) else of_Z r
  | _ => x
  end.

Definition Math_sqrt (x : float) : float := PrimFloat.sqrt x.

End Num.

(* ===================================================================== *)
(** ** Dates *)
(* ===================================================================== *)

(** One day in milliseconds. *)
Definition msPerDay : Z := 1000 * 60 * 60 * 24.

(** The local time of the process.  [addLocalDays t i] is the time value
    of a [Date] of time value [t] after [d.setDate(d.getDate() + i)]: the
    same wall-clock time [i] calendar days later in the time zone of the
    process.  That is [t + i * msPerDay] as long as the offset of the
    zone from UTC is the same at both ends, and an hour more or less
    across a change of the offset. *)
Class Calendar : Type := {
  addLocalDays : Z -> Z -> Z
}.

(** [d.toISOString().split('T')[0]]: the UTC day of a time value, as a
    day number. *)
Definition utcDay (t : Z) : Z := t / msPerDay.

(* ===================================================================== *)
(** ** routes/insights.ts: revenue forecast *)
(* ===================================================================== *)

Module Forecast.
Import Num.
Open Scope float_scope.

(** One row of the daily aggregation query: [DATE(orderDate)] as a day
    number, [SUM(totalPrice)] (NULL-able Decimal, read as the Number it
    converts to) and [COUNT(id)]. *)
Record DailyRevenueRow : Type := {
  row_date : Z;
  row_revenue : option float;
  row_order_count : Z
}.

Record HistoricalPoint : Type := {
  date : Z;
  revenue : float;
  orders : Z
}.

Record ForecastPoint : Type := {
  fp_date : Z;
  predictedRevenue : float;
  fp_confidence : float
}.

(** The [data] object of the response; the keys absent from one of the
    two response shapes are [None]. *)
Record ForecastData : Type := {
  historical : list HistoricalPoint;
  forecast : list ForecastPoint;
  trend : string;
  confidence : option float;
  weeklyGrowth : option float;
  avgDailyRevenue : option float;
  predictedWeeklyRevenue : option float
}.

(** [Number(d.revenue || 0)]: a Decimal object is truthy whatever its
    value, only NULL falls back to 0. *)
Definition historicalData (dailyRevenue : list DailyRevenueRow) : list HistoricalPoint :=
  map (fun d => {| date := row_date d;
                   revenue := match row_revenue d with Some r => r | None => 0 end;
                   orders := row_order_count d |}) dailyRevenue.

Definition sumRevenue (l : list HistoricalPoint) : float :=
  Js.reduce (fun sum d => sum + revenue d) 0 l.

Definition xMean (n : Z) : float := (of_Z n - 1) / 2.

Definition yMean (hd : list HistoricalPoint) (n : Z) : float :=
  sumRevenue hd / of_Z n.

(** The [forEach] accumulating [numerator] and [denominator], [i] being
    the index of [d]. *)
Fixpoint accumulate (xm ym : float) (i : Z) (l : list HistoricalPoint)
    (acc : float * float) : float * float :=
  match l with
  | [] => acc
  | d :: rest =>
      accumulate xm ym (i + 1)%Z rest
        (fst acc + (of_Z i - xm) * (revenue d - ym),
         snd acc + (of_Z i - xm) * (of_Z i - xm))
  end.

Definition numerator (hd : list HistoricalPoint) (n : Z) : float :=
  fst (accumulate (xMean n) (yMean hd n) 0 hd (0, 0)).

Definition denominator (hd : list HistoricalPoint) (n : Z) : float :=
  snd (accumulate (xMean n) (yMean hd n) 0 hd (0, 0)).

(** [denominator !== 0 ? numerator / denominator : 0]. *)
Definition slope (hd : list HistoricalPoint) (n : Z) : float :=
  if negb (denominator hd n =? 0) then numerator hd n / denominator hd n else 0.

Definition intercept (hd : list HistoricalPoint) (n : Z) : float :=
  yMean hd n - slope hd n * xMean n.

Definition residuals (hd : list HistoricalPoint) (n : Z) : list float :=
  imap (fun i d => revenue d - (intercept hd n + slope hd n * of_Z (Z.of_nat i))) hd.

Definition variance (hd : list HistoricalPoint) (n : Z) : float :=
  Js.reduce (fun sum r => sum + r * r) 0 (residuals hd n) / of_Z n.

Definition stdDev (hd : list HistoricalPoint) (n : Z) : float :=
  Math_sqrt (variance hd n).

(** The date of the last bucket, [historicalData[n - 1].date]. *)
Definition lastDate (hd : list HistoricalPoint) : Z :=
  match last hd with Some d => date d | None => 0%Z end.

(** The body of the loop [for (let i = 1; i <= 7; i++)].  [lastDate] is
    built from the date string of the last bucket, hence midnight UTC of
    that day; the date of the point is moved on in local time and printed
    in UTC. *)
Definition forecastPoint `{Calendar} (hd : list HistoricalPoint) (n : Z) (i : Z)
    : ForecastPoint :=
  let predicted := intercept hd n + slope hd n * (of_Z n - 1 + of_Z i) in
  let confidence :=
    Math_max 0 (Math_min 100 (100 - (stdDev hd n / yMean hd n * 100 * 0.5))) in
  {| fp_date := utcDay (addLocalDays (lastDate hd * msPerDay)%Z i);
     predictedRevenue := Math_max 0 (Math_round (predicted * 100) / 100);
     fp_confidence := Math_round confidence |}.

Definition forecastPoints `{Calendar} (hd : list HistoricalPoint) (n : Z)
    : list ForecastPoint :=
  map (forecastPoint hd n) (seqZ 1 7).

Definition trendDirection (hd : list HistoricalPoint) (n : Z) : string :=
  if yMean hd n * 0.01 <? slope hd n then "growing"
  else if slope hd n <? - yMean hd n * 0.01 then "declining"
  else "stable".

(** [n > 7 ? (last 7 / slice(-14, -7) - 1) * 100 : 0]. *)
Definition weeklyGrowthOf (hd : list HistoricalPoint) (n : Z) : float :=
  if (7 <? n)%Z
  then (sumRevenue (Js.slice hd (-7) None)
        / sumRevenue (Js.slice hd (-14) (Some (-7)%Z)) - 1) * 100
  else 0.

(** GET /api/insights/revenue-forecast, from the rows of the daily
    aggregation (already restricted to the tenant and to the trailing 30
    days by the query) to the [data] of the response. *)
Definition revenueForecast `{Calendar} (dailyRevenue : list DailyRevenueRow)
    : ForecastData :=
  let hd := historicalData dailyRevenue in
  let n := Z.of_nat (length hd) in
  if (n <? 7)%Z then
    {| historical := hd;
       forecast := [];
       trend := "insufficient_data";
       confidence := Some 0;
       weeklyGrowth := None;
       avgDailyRevenue := None;
       predictedWeeklyRevenue := None |}
  else
    let fc := forecastPoints hd n in
    {| historical := hd;
       forecast := fc;
       trend := trendDirection hd n;
       confidence := None;
       weeklyGrowth := Some (Math_round (weeklyGrowthOf hd n * 100) / 100);
       avgDailyRevenue := Some (Math_round (yMean hd n * 100) / 100);
       predictedWeeklyRevenue :=
         Some (Math_round
                 (Js.reduce (fun sum f => sum + predictedRevenue f) 0 fc * 100) / 100) |}.

End Forecast.

(* ===================================================================== *)
(** ** Built-ins and collaborators outside the repository *)
(* ===================================================================== *)

(** The functions of the JavaScript runtime that the code calls and that
    are not re-implemented here. *)
Class Builtins : Type := {
  (** [parseFloat(s)] *)
  parseFloat : string -> float;
  (** [new Date(v).getTime()], in milliseconds *)
  newDate : jsval -> Z;
  (** [crypto.createHmac('sha256', secret).update(body).digest('base64')] *)
  hmac_sha256_base64 : string -> string -> string;
  (** the member [timingSafeEquals] of the [crypto] module, on the two
      buffers built from the given strings *)
  crypto_timingSafeEquals : string -> string -> Result bool
}.

(* ===================================================================== *)
(** ** The tenant record store (Prisma models as the code uses them) *)
(* ===================================================================== *)

Module Db.

Inductive SyncType : Type := customers_t | orders_t | products_t.

Record Tenant : Type := {
  tenant_id : string;
  tenant_name : string;
  shopifyDomain : string;
  accessToken : option string;
  isActive : bool;
  lastSyncAt : option Z
}.

(** A column that the code fills with a value of the payload holds that
    value ([null] for SQL NULL); a column it fills through [String],
    [parseFloat] or [new Date] holds the converted value.  [createdAt],
    which the code reads on customers and products but never writes, is
    filled at insertion with the time of the call and kept from then on. *)
Record Customer : Type := {
  c_id : N;
  c_tenantId : string;
  c_shopifyId : string;
  c_email : jsval;
  c_firstName : jsval;
  c_lastName : jsval;
  c_phone : jsval;
  c_tags : jsval;
  c_totalSpent : float;
  c_ordersCount : jsval;
  c_shopifyCreatedAt : option Z;
  c_createdAt : Z;
  c_updatedAt : Z
}.

Record Order : Type := {
  o_id : N;
  o_tenantId : string;
  o_shopifyId : string;
  o_orderNumber : jsval;
  o_name : jsval;
  o_totalPrice : float;
  o_subtotalPrice : option float;
  o_totalTax : option float;
  o_totalDiscounts : option float;
  o_currency : jsval;
  o_financialStatus : jsval;
  o_fulfillmentStatus : jsval;
  o_customerId : option N;
  o_orderDate : Z;
  o_updatedAt : Z
}.

Record OrderLineItem : Type := {
  li_id : N;
  li_shopifyId : string;
  li_orderId : N;
  li_productId : jsval;
  li_title : jsval;
  li_quantity : jsval;
  li_price : float;
  li_sku : jsval;
  li_variantId : jsval
}.

Record Product : Type := {
  p_id : N;
  p_tenantId : string;
  p_shopifyId : string;
  p_title : jsval;
  p_handle : jsval;
  p_vendor : jsval;
  p_productType : jsval;
  p_status : jsval;
  p_tags : jsval;
  p_price : float;
  p_compareAtPrice : option float;
  p_inventory : jsval;
  p_imageUrl : jsval;
  p_shopifyCreatedAt : option Z;
  p_createdAt : Z;
  p_updatedAt : Z
}.

Record Event : Type := {
  e_id : N;
  e_tenantId : string;
  e_type : string;
  e_source : string;
  e_customerId : jsval;
  e_sessionId : jsval;
  e_payload : jsval
}.

Record SyncLog : Type := {
  l_id : N;
  l_tenantId : string;
  l_type : SyncType;
  l_status : string;
  l_itemCount : Z;
  l_error : option string;
  l_startedAt : Z;
  l_completedAt : option Z
}.

(** The natural key [tenantId_shopifyId]. *)
Abbreviation NaturalKey := (string * string)%type.

Record Store : Type := {
  tenants : gmap string Tenant;
  customers : gmap NaturalKey Customer;
  orders : gmap NaturalKey Order;
  orderLineItems : list OrderLineItem;
  products : gmap NaturalKey Product;
  events : list Event;
  syncLogs : list SyncLog;
  (** source of the generated row identifiers *)
  nextId : N
}.

Definition empty : Store :=
  {| tenants := ∅; customers := ∅; orders := ∅; orderLineItems := [];
     products := ∅; events := []; syncLogs := []; nextId := 1%N |}.

Definition with_tenants (f : gmap string Tenant -> gmap string Tenant) (s : Store) : Store :=
  {| tenants := f (tenants s); customers := customers s; orders := orders s;
     orderLineItems := orderLineItems s; products := products s;
     events := events s; syncLogs := syncLogs s; nextId := nextId s |}.

Definition with_customers (m : gmap NaturalKey Customer) (s : Store) : Store :=
  {| tenants := tenants s; customers := m; orders := orders s;
     orderLineItems := orderLineItems s; products := products s;
     events := events s; syncLogs := syncLogs s; nextId := nextId s |}.

Definition with_orders (m : gmap NaturalKey Order) (s : Store) : Store :=
  {| tenants := tenants s; customers := customers s; orders := m;
     orderLineItems := orderLineItems s; products := products s;
     events := events s; syncLogs := syncLogs s; nextId := nextId s |}.

Definition with_orderLineItems (l : list OrderLineItem) (s : Store) : Store :=
  {| tenants := tenants s; customers := customers s; orders := orders s;
     orderLineItems := l; products := products s;
     events := events s; syncLogs := syncLogs s; nextId := nextId s |}.

Definition with_products (m : gmap NaturalKey Product) (s : Store) : Store :=
  {| tenants := tenants s; customers := customers s; orders := orders s;
     orderLineItems := orderLineItems s; products := m;
     events := events s; syncLogs := syncLogs s; nextId := nextId s |}.

Definition with_events (l : list Event) (s : Store) : Store :=
  {| tenants := tenants s; customers := customers s; orders := orders s;
     orderLineItems := orderLineItems s; products := products s;
     events := l; syncLogs := syncLogs s; nextId := nextId s |}.

Definition with_syncLogs (l : list SyncLog) (s : Store) : Store :=
  {| tenants := tenants s; customers := customers s; orders := orders s;
     orderLineItems := orderLineItems s; products := products s;
     events := events s; syncLogs := l; nextId := nextId s |}.

Definition bump (s : Store) : Store :=
  {| tenants := tenants s; customers := customers s; orders := orders s;
     orderLineItems := orderLineItems s; products := products s;
     events := events s; syncLogs := syncLogs s; nextId := (nextId s + 1)%N |}.

(** *** Awaited calls: state passing with exceptions *)

Definition M (A : Type) : Type := Store -> Store * Result A.

Definition ret {A : Type} (a : A) : M A := fun s => (s, Ok a).

Definition throw {A : Type} (message : string) : M A := fun s => (s, Throw message).

Definition bind {A B : Type} (m : M A) (k : A -> M B) : M B :=
  fun s =>
    match m s with
    | (s', Ok a) => k a s'
    | (s', Throw e) => (s', Throw e)
    end.

(** [try { m } catch (error) { handler(error.message) }] *)
Definition try_catch {A : Type} (m : M A) (handler : string -> M A) : M A :=
  fun s =>
    match m s with
    | (s', Ok a) => (s', Ok a)
    | (s', Throw e) => handler e s'
    end.

Definition lift {A : Type} (r : Result A) : M A := fun s => (s, r).

Definition read {A : Type} (f : Store -> A) : M A := fun s => (s, Ok (f s)).

Definition write (f : Store -> Store) : M unit := fun s => (f s, Ok tt).

(** *** Writing a payload value into a column *)

(** In [create] data an [undefined] field is left out and the column is
    NULL. *)
Definition created (v : jsval) : jsval :=
  match v with JUndefined => JNull | _ => v end.

(** In [update] data an [undefined] field leaves the column as it is. *)
Definition updated (old v : jsval) : jsval :=
  match v with JUndefined => old | _ => v end.

(** *** The Prisma calls of the code *)

(** An [update] of a row that does not exist throws the engine's error
    P2025; its long message is stood for by a short one, which no row
    ever holds. *)

Definition tenant_findUnique (id : string) : M (option Tenant) :=
  read (fun s => tenants s !! id).

Definition tenant_update_lastSyncAt (id : string) (now : Z) : M unit :=
  fun s =>
    match tenants s !! id with
    | Some t =>
        (with_tenants
           (insert id {| tenant_id := tenant_id t; tenant_name := tenant_name t;
                         shopifyDomain := shopifyDomain t;
                         accessToken := accessToken t; isActive := isActive t;
                         lastSyncAt := Some now |}) s, Ok tt)
    | None => (s, Throw "PrismaClientKnownRequestError: record to update not found")
    end.

(** [findMany({ where: { isActive: true, accessToken: { not: null } } })] *)
Definition tenant_findMany_active (s : Store) : list Tenant :=
  filter (fun t => isActive t = true ∧ accessToken t ≠ None)
         (snd <$> map_to_list (tenants s)).

(** [upsert({ where: { tenantId_shopifyId }, update, create })]: the row
    under the natural key is changed by [update], or [create] builds a
    new one with a generated id; the row written is returned. *)
Definition customer_upsert (key : NaturalKey)
    (update : Customer -> Customer) (create : N -> Customer) : M Customer :=
  fun s =>
    match customers s !! key with
    | Some row =>
        let row' := update row in
        (with_customers (<[key := row']> (customers s)) s, Ok row')
    | None =>
        let row := create (nextId s) in
        (bump (with_customers (<[key := row]> (customers s)) s), Ok row)
    end.

Definition customer_findUnique (key : NaturalKey) : M (option Customer) :=
  read (fun s => customers s !! key).

Definition order_upsert (key : NaturalKey)
    (update : Order -> Order) (create : N -> Order) : M Order :=
  fun s =>
    match orders s !! key with
    | Some row =>
        let row' := update row in
        (with_orders (<[key := row']> (orders s)) s, Ok row')
    | None =>
        let row := create (nextId s) in
        (bump (with_orders (<[key := row]> (orders s)) s), Ok row)
    end.

Definition product_upsert (key : NaturalKey)
    (update : Product -> Product) (create : N -> Product) : M Product :=
  fun s =>
    match products s !! key with
    | Some row =>
        let row' := update row in
        (with_products (<[key := row']> (products s)) s, Ok row')
    | None =>
        let row := create (nextId s) in
        (bump (with_products (<[key := row]> (products s)) s), Ok row)
    end.

(** [orderLineItem.deleteMany({ where: { orderId } })] *)
Definition orderLineItem_deleteMany (orderId : N) : M unit :=
  write (fun s =>
           with_orderLineItems
             (filter (fun li => li_orderId li ≠ orderId) (orderLineItems s)) s).

Definition orderLineItem_create (data : N -> OrderLineItem) : M OrderLineItem :=
  fun s =>
    let row := data (nextId s) in
    (bump (with_orderLineItems (orderLineItems s ++ [row]) s), Ok row).

Definition event_create (data : N -> Event) : M Event :=
  fun s =>
    let row := data (nextId s) in
    (bump (with_events (events s ++ [row]) s), Ok row).

Definition syncLog_create (data : N -> SyncLog) : M SyncLog :=
  fun s =>
    let row := data (nextId s) in
    (bump (with_syncLogs (syncLogs s ++ [row]) s), Ok row).

(** [syncLog.update({ where: { id }, data })] *)
Definition syncLog_update (id : N) (data : SyncLog -> SyncLog) : M unit :=
  fun s =>
    if existsb (fun l => N.eqb (l_id l) id) (syncLogs s)
    then (with_syncLogs
            (map (fun l => if N.eqb (l_id l) id then data l else l) (syncLogs s)) s,
          Ok tt)
    else (s, Throw "PrismaClientKnownRequestError: record to update not found").

(** *** Read queries scoped by [where: { tenantId }] *)

Definition customer_findMany (tenantId : string) (s : Store) : list Customer :=
  filter (fun c => c_tenantId c = tenantId) (snd <$> map_to_list (customers s)).

Definition order_findMany (tenantId : string) (s : Store) : list Order :=
  filter (fun o => o_tenantId o = tenantId) (snd <$> map_to_list (orders s)).

Definition product_findMany (tenantId : string) (s : Store) : list Product :=
  filter (fun p => p_tenantId p = tenantId) (snd <$> map_to_list (products s)).

(** The relation [customer.orders]: the orders whose [customerId] is the
    customer's id. *)
Definition customer_orders (c : Customer) (s : Store) : list Order :=
  filter (fun o => o_customerId o = Some (c_id c)) (snd <$> map_to_list (orders s)).

(** *** Natural keys *)

(** Every customer row is stored under its own natural key. *)
Definition customers_keyed (s : Store) : Prop :=
  forall key c, customers s !! key = Some c -> key = (c_tenantId c, c_shopifyId c).

Definition orders_keyed (s : Store) : Prop :=
  forall key o, orders s !! key = Some o -> key = (o_tenantId o, o_shopifyId o).

Definition products_keyed (s : Store) : Prop :=
  forall key p, products s !! key = Some p -> key = (p_tenantId p, p_shopifyId p).

(** The three tables with a natural key hold each row under its key: one
    row per (tenant, external id). *)
Definition keyed (s : Store) : Prop :=
  customers_keyed s /\ orders_keyed s /\ products_keyed s.

(** An awaited call keeps a property of the store, whether it returns or
    throws. *)
Definition preserves {A : Type} (I : Store -> Prop) (m : M A) : Prop :=
  forall s, I s -> I (fst (m s)).

(** *** References from orders to customers *)

(** [customerId] names a customer row of the tenant, or is NULL. *)
Definition customer_ref (tenantId : string) (customerId : option N) (s : Store) : Prop :=
  match customerId with
  | None => True
  | Some id =>
      exists shopifyId c, customers s !! (tenantId, shopifyId) = Some c /\ c_id c = id
  end.

(** The store is keyed, generated customer ids are below [nextId] and
    pairwise distinct, and the [customerId] of every order names a customer
    row of the order's own tenant. *)
Definition linked (s : Store) : Prop :=
  keyed s
  /\ (forall key c, customers s !! key = Some c -> (c_id c < nextId s)%N)
  /\ (forall key1 key2 c1 c2,
        customers s !! key1 = Some c1 -> customers s !! key2 = Some c2 ->
        c_id c1 = c_id c2 -> key1 = key2)
  /\ (forall key o, orders s !! key = Some o -> customer_ref (o_tenantId o) (o_customerId o) s).

(** From a store with [P] the call either returns [a] in a store with
    [Q a], or throws in a store that is still [linked]. *)
Definition triple {A : Type} (P : Store -> Prop) (m : M A) (Q : A -> Store -> Prop) : Prop :=
  forall s, P s ->
    match m s with
    | (s', Ok a) => Q a s'
    | (s', Throw _) => linked s'
    end.

(** The line items of an order, in insertion order. *)
Definition order_lineItems (orderId : N) (s : Store) : list OrderLineItem :=
  filter (fun li => li_orderId li = orderId) (orderLineItems s).

End Db.

Notation "'await' x <- c ; k" := (Db.bind c (fun x => k))
  (at level 10, x name, c at level 100, k at level 200,
   format "'[v' 'await'  x  <-  c ; '/' k ']'").
Notation "'await_' c ; k" := (Db.bind c (fun _ => k))
  (at level 10, c at level 100, k at level 200,
   format "'[v' 'await_'  c ; '/' k ']'").

(* ===================================================================== *)
(** ** services/shopifyService.ts: the scheduled pull path *)
(* ===================================================================== *)

Module ShopifyService.
Import Db.

Record ShopifyConfig : Type := {
  domain : string;
  config_accessToken : string
}.

(** [shopifyRequest(config, endpoint, params)]: the decoded JSON of the
    response, or the error thrown for a status that is not OK.  The
    external API is the environment of the model. *)
Definition ShopifyApi : Type :=
  ShopifyConfig -> string -> list (string * string) -> Result jsval.

Definition shopifyRequest (api : ShopifyApi) (config : ShopifyConfig)
    (endpoint : string) (params : list (string * string)) : M jsval :=
  lift (api config endpoint params).

(** [v.property] for a [v] that may be [null] or [undefined]: the read
    throws a TypeError, whose [message] is the one of V8. *)
Definition deref (property : string) (v : jsval) : M unit :=
  if Js.nullish v
  then throw ("Cannot read properties of " +:+ Js.String_ v
              +:+ " (reading '" +:+ property +:+ "')")
  else ret tt.

(** [for (const x of xs) { body(x); count++ }] *)
Fixpoint for_of (body : jsval -> M unit) (xs : list jsval) (count : Z) : M Z :=
  match xs with
  | [] => ret count
  | x :: rest =>
      await_ body x;
      for_of body rest (count + 1)
  end.

(** [parseFloat(v)], the argument converted to a string first. *)
Definition parseFloat_ `{Builtins} (v : jsval) : float := parseFloat (Js.String_ v).

(** [v ? parseFloat(v) : null] *)
Definition parseFloat_or_null `{Builtins} (v : jsval) : option float :=
  if Js.truthy v then Some (parseFloat_ v) else None.

(** [v ? new Date(v) : null] *)
Definition newDate_or_null `{Builtins} (v : jsval) : option Z :=
  if Js.truthy v then Some (newDate v) else None.

Section Customers.
Context `{Builtins}.
Variables (tenantId : string) (now : Z).

Definition customer_update_data (customer : jsval) (row : Customer) : Customer :=
  {| c_id := c_id row;
     c_tenantId := c_tenantId row;
     c_shopifyId := c_shopifyId row;
     c_email := updated (c_email row) (Js.get "email" customer);
     c_firstName := updated (c_firstName row) (Js.get "first_name" customer);
     c_lastName := updated (c_lastName row) (Js.get "last_name" customer);
     c_phone := updated (c_phone row) (Js.get "phone" customer);
     c_tags := updated (c_tags row) (Js.get "tags" customer);
     c_totalSpent := parseFloat_ (Js.or (Js.get "total_spent" customer) (JStr "0"));
     c_ordersCount :=
       updated (c_ordersCount row) (Js.or (Js.get "orders_count" customer) (JNum 0));
     c_shopifyCreatedAt := c_shopifyCreatedAt row;
     c_createdAt := c_createdAt row;
     c_updatedAt := now |}.

Definition customer_create_data (customer : jsval) (id : N) : Customer :=
  {| c_id := id;
     c_tenantId := tenantId;
     c_shopifyId := Js.String_ (Js.get "id" customer);
     c_email := created (Js.get "email" customer);
     c_firstName := created (Js.get "first_name" customer);
     c_lastName := created (Js.get "last_name" customer);
     c_phone := created (Js.get "phone" customer);
     c_tags := created (Js.get "tags" customer);
     c_totalSpent := parseFloat_ (Js.or (Js.get "total_spent" customer) (JStr "0"));
     c_ordersCount := created (Js.or (Js.get "orders_count" customer) (JNum 0));
     c_shopifyCreatedAt := newDate_or_null (Js.get "created_at" customer);
     c_createdAt := now;
     c_updatedAt := now |}.

(** The body of the loop of [syncCustomers]. *)
Definition syncCustomer (customer : jsval) : M unit :=
  await_ deref "id" customer;
  await_ customer_upsert (tenantId, Js.String_ (Js.get "id" customer))
           (customer_update_data customer) (customer_create_data customer);
  ret tt.

(** [syncCustomers]: one page of 250, the loop over pages ends after
    its first round since [pageInfo] is reset to [undefined]. *)
Definition syncCustomers (api : ShopifyApi) (config : ShopifyConfig) : M Z :=
  await response <- shopifyRequest api config "customers" [("limit", "250")];
  await_ deref "customers" response;
  await customers <-
    lift (Js.iterate "customers" (Js.or (Js.get "customers" response) (JArr [])));
  for_of syncCustomer customers 0.

End Customers.

Section Orders.
Context `{Builtins}.
Variables (tenantId : string) (now : Z).

(** The customer embedded in an order: [update] leaves a column alone
    when the payload has no truthy value for it. *)
Definition embedded_customer_update_data (customerData : jsval) (row : Customer)
    : Customer :=
  {| c_id := c_id row;
     c_tenantId := c_tenantId row;
     c_shopifyId := c_shopifyId row;
     c_email := updated (c_email row) (Js.or (Js.get "email" customerData) JUndefined);
     c_firstName :=
       updated (c_firstName row)
         (Js.or (Js.or (Js.get "first_name" customerData)
                       (Js.qget "first_name" (Js.get "default_address" customerData)))
                JUndefined);
     c_lastName :=
       updated (c_lastName row)
         (Js.or (Js.or (Js.get "last_name" customerData)
                       (Js.qget "last_name" (Js.get "default_address" customerData)))
                JUndefined);
     c_phone :=
       updated (c_phone row)
         (Js.or (Js.or (Js.get "phone" customerData)
                       (Js.qget "phone" (Js.get "default_address" customerData)))
                JUndefined);
     c_tags := c_tags row;
     c_totalSpent := c_totalSpent row;
     c_ordersCount := c_ordersCount row;
     c_shopifyCreatedAt := c_shopifyCreatedAt row;
     c_createdAt := c_createdAt row;
     c_updatedAt := now |}.

Definition embedded_customer_create_data (customerData : jsval) (id : N) : Customer :=
  {| c_id := id;
     c_tenantId := tenantId;
     c_shopifyId := Js.String_ (Js.get "id" customerData);
     c_email := created (Js.get "email" customerData);
     c_firstName :=
       created (Js.or (Js.get "first_name" customerData)
                      (Js.qget "first_name" (Js.get "default_address" customerData)));
     c_lastName :=
       created (Js.or (Js.get "last_name" customerData)
                      (Js.qget "last_name" (Js.get "default_address" customerData)));
     c_phone :=
       created (Js.or (Js.get "phone" customerData)
                      (Js.qget "phone" (Js.get "default_address" customerData)));
     c_tags := JNull;
     c_totalSpent := 0%float;
     c_ordersCount := JNum 0;
     c_shopifyCreatedAt := None;
     c_createdAt := now;
     c_updatedAt := now |}.

Definition order_update_data (order : jsval) (customerId : option N) (row : Order)
    : Order :=
  {| o_id := o_id row;
     o_tenantId := o_tenantId row;
     o_shopifyId := o_shopifyId row;
     o_orderNumber := o_orderNumber row;
     o_name := o_name row;
     o_totalPrice := parseFloat_ (Js.or (Js.get "total_price" order) (JStr "0"));
     o_subtotalPrice := parseFloat_or_null (Js.get "subtotal_price" order);
     o_totalTax := parseFloat_or_null (Js.get "total_tax" order);
     o_totalDiscounts := parseFloat_or_null (Js.get "total_discounts" order);
     o_currency := o_currency row;
     o_financialStatus :=
       updated (o_financialStatus row) (Js.get "financial_status" order);
     o_fulfillmentStatus :=
       updated (o_fulfillmentStatus row) (Js.get "fulfillment_status" order);
     o_customerId := customerId;
     o_orderDate := o_orderDate row;
     o_updatedAt := now |}.

Definition order_create_data (order : jsval) (customerId : option N) (id : N) : Order :=
  {| o_id := id;
     o_tenantId := tenantId;
     o_shopifyId := Js.String_ (Js.get "id" order);
     o_orderNumber :=
       created (Js.or (Js.qtoString (Js.get "order_number" order)) (Js.get "name" order));
     o_name := created (Js.get "name" order);
     o_totalPrice := parseFloat_ (Js.or (Js.get "total_price" order) (JStr "0"));
     o_subtotalPrice := parseFloat_or_null (Js.get "subtotal_price" order);
     o_totalTax := parseFloat_or_null (Js.get "total_tax" order);
     o_totalDiscounts := parseFloat_or_null (Js.get "total_discounts" order);
     o_currency := created (Js.or (Js.get "currency" order) (JStr "USD"));
     o_financialStatus := created (Js.get "financial_status" order);
     o_fulfillmentStatus := created (Js.get "fulfillment_status" order);
     o_customerId := customerId;
     o_orderDate := newDate (Js.get "created_at" order);
     o_updatedAt := now |}.

Definition lineItem_data (orderId : N) (item : jsval) (id : N) : OrderLineItem :=
  {| li_id := id;
     li_shopifyId := Js.String_ (Js.get "id" item);
     li_orderId := orderId;
     li_productId := created (Js.qtoString (Js.get "product_id" item));
     li_title := created (Js.get "title" item);
     li_quantity := created (Js.get "quantity" item);
     li_price := parseFloat_ (Js.or (Js.get "price" item) (JStr "0"));
     li_sku := created (Js.get "sku" item);
     li_variantId := created (Js.qtoString (Js.get "variant_id" item)) |}.

Definition createLineItem (orderId : N) (item : jsval) : M unit :=
  await_ deref "id" item;
  await_ orderLineItem_create (lineItem_data orderId item);
  ret tt.

(** The body of the loop of [syncOrders]: the embedded customer, the
    order row, then its line items. *)
Definition syncOrder (order : jsval) : M unit :=
  await_ deref "customer" order;
  await customerId <-
    (if Js.truthy (Js.qget "id" (Js.get "customer" order)) then
       let customerData := Js.get "customer" order in
       await upsertedCustomer <-
         customer_upsert (tenantId, Js.String_ (Js.get "id" customerData))
           (embedded_customer_update_data customerData)
           (embedded_customer_create_data customerData);
       ret (Some (c_id upsertedCustomer))
     else ret None);
  await savedOrder <-
    order_upsert (tenantId, Js.String_ (Js.get "id" order))
      (order_update_data order customerId) (order_create_data order customerId);
  if Js.truthy (Js.get "line_items" order) then
    await_ orderLineItem_deleteMany (o_id savedOrder);
    await items <- lift (Js.iterate "order.line_items" (Js.get "line_items" order));
    await_ for_of (createLineItem (o_id savedOrder)) items 0;
    ret tt
  else ret tt.

Definition syncOrders (api : ShopifyApi) (config : ShopifyConfig) : M Z :=
  await response <-
    shopifyRequest api config "orders" [("limit", "250"); ("status", "any")];
  await_ deref "orders" response;
  await orders <-
    lift (Js.iterate "orders" (Js.or (Js.get "orders" response) (JArr [])));
  for_of syncOrder orders 0.

End Orders.

Section Products.
Context `{Builtins}.
Variables (tenantId : string) (now : Z).

Definition product_price (firstVariant : jsval) : float :=
  if Js.truthy firstVariant
  then parseFloat_ (Js.or (Js.get "price" firstVariant) (JStr "0"))
  else 0%float.

Definition product_imageUrl (product : jsval) : jsval :=
  Js.or (Js.qget "src" (Js.get "image" product))
        (Js.qget "src" (Js.qfirst (Js.get "images" product))).

Definition product_update_data (product : jsval) (row : Product) : Product :=
  let firstVariant := Js.qfirst (Js.get "variants" product) in
  {| p_id := p_id row;
     p_tenantId := p_tenantId row;
     p_shopifyId := p_shopifyId row;
     p_title := updated (p_title row) (Js.get "title" product);
     p_handle := updated (p_handle row) (Js.get "handle" product);
     p_vendor := updated (p_vendor row) (Js.get "vendor" product);
     p_productType := updated (p_productType row) (Js.get "product_type" product);
     p_status := updated (p_status row) (Js.or (Js.get "status" product) (JStr "active"));
     p_tags := updated (p_tags row) (Js.get "tags" product);
     p_price := product_price firstVariant;
     p_compareAtPrice := parseFloat_or_null (Js.qget "compare_at_price" firstVariant);
     p_inventory :=
       updated (p_inventory row)
         (Js.or (Js.qget "inventory_quantity" firstVariant) (JNum 0));
     p_imageUrl := updated (p_imageUrl row) (product_imageUrl product);
     p_shopifyCreatedAt := p_shopifyCreatedAt row;
     p_createdAt := p_createdAt row;
     p_updatedAt := now |}.

Definition product_create_data (product : jsval) (id : N) : Product :=
  let firstVariant := Js.qfirst (Js.get "variants" product) in
  {| p_id := id;
     p_tenantId := tenantId;
     p_shopifyId := Js.String_ (Js.get "id" product);
     p_title := created (Js.get "title" product);
     p_handle := created (Js.get "handle" product);
     p_vendor := created (Js.get "vendor" product);
     p_productType := created (Js.get "product_type" product);
     p_status := created (Js.or (Js.get "status" product) (JStr "active"));
     p_tags := created (Js.get "tags" product);
     p_price := product_price firstVariant;
     p_compareAtPrice := parseFloat_or_null (Js.qget "compare_at_price" firstVariant);
     p_inventory := created (Js.or (Js.qget "inventory_quantity" firstVariant) (JNum 0));
     p_imageUrl := created (product_imageUrl product);
     p_shopifyCreatedAt := newDate_or_null (Js.get "created_at" product);
     p_createdAt := now;
     p_updatedAt := now |}.

Definition syncProduct (product : jsval) : M unit :=
  await_ deref "variants" product;
  await_ product_upsert (tenantId, Js.String_ (Js.get "id" product))
           (product_update_data product) (product_create_data product);
  ret tt.

Definition syncProducts (api : ShopifyApi) (config : ShopifyConfig) : M Z :=
  await response <- shopifyRequest api config "products" [("limit", "250")];
  await_ deref "products" response;
  await products <-
    lift (Js.iterate "products" (Js.or (Js.get "products" response) (JArr [])));
  for_of syncProduct products 0.

End Products.

(** [!tenant.accessToken] is false: the credential is a non-empty string. *)
Definition connected (t : Tenant) : option string :=
  match accessToken t with
  | Some token => if String.eqb token "" then None else Some token
  | None => None
  end.

Definition log_completed (count now : Z) (l : SyncLog) : SyncLog :=
  {| l_id := l_id l; l_tenantId := l_tenantId l; l_type := l_type l;
     l_status := "completed"; l_itemCount := count; l_error := l_error l;
     l_startedAt := l_startedAt l; l_completedAt := Some now |}.

Definition log_failed (message : string) (now : Z) (l : SyncLog) : SyncLog :=
  {| l_id := l_id l; l_tenantId := l_tenantId l; l_type := l_type l;
     l_status := "failed"; l_itemCount := l_itemCount l; l_error := Some message;
     l_startedAt := l_startedAt l; l_completedAt := Some now |}.

Section Orchestrator.
Context `{Builtins}.
Variables (api : ShopifyApi) (now : Z).

(** One round of the loop over [types]: the log row, the sync of the
    type, and the terminal transition of the log row. *)
Definition syncType (tenantId : string) (config : ShopifyConfig) (type : SyncType)
    : M unit :=
  await syncLog <-
    syncLog_create (fun id =>
      {| l_id := id; l_tenantId := tenantId; l_type := type;
         l_status := "running"; l_itemCount := 0; l_error := None;
         l_startedAt := now; l_completedAt := None |});
  try_catch
    (await count <-
       match type with
       | customers_t => syncCustomers tenantId now api config
       | orders_t => syncOrders tenantId now api config
       | products_t => syncProducts tenantId now api config
       end;
     syncLog_update (l_id syncLog) (log_completed count now))
    (fun message => syncLog_update (l_id syncLog) (log_failed message now)).

Fixpoint syncTypes (tenantId : string) (config : ShopifyConfig)
    (types : list SyncType) : M unit :=
  match types with
  | [] => ret tt
  | type :: rest =>
      await_ syncType tenantId config type;
      syncTypes tenantId config rest
  end.

(** [syncTenantData(tenantId, types)] *)
Definition syncTenantData (tenantId : string) (types : list SyncType) : M unit :=
  await tenant <- tenant_findUnique tenantId;
  match tenant with
  | None => throw "Tenant not found or Shopify not connected"
  | Some t =>
      match connected t with
      | None => throw "Tenant not found or Shopify not connected"
      | Some token =>
          let config := {| domain := shopifyDomain t; config_accessToken := token |} in
          await_ syncTypes tenantId config types;
          tenant_update_lastSyncAt tenantId now
      end
  end.

(** [syncAllTenants]: an error of one tenant is logged and the sweep
    goes on. *)
Fixpoint sweep (ts : list Tenant) : M unit :=
  match ts with
  | [] => ret tt
  | t :: rest =>
      await_ try_catch
               (syncTenantData (tenant_id t) [customers_t; orders_t; products_t])
               (fun _ => ret tt);
      sweep rest
  end.

Definition syncAllTenants : M unit :=
  await ts <- read tenant_findMany_active;
  sweep ts.

End Orchestrator.

End ShopifyService.

(* ===================================================================== *)
(** ** routes/webhooks.ts: the webhook push path *)
(* ===================================================================== *)

Module Webhooks.
Import Db.
Import ShopifyService.

(** [verifyWebhookSignature(body, signature, secret)] *)
Definition verifyWebhookSignature `{Builtins} (body signature secret : string)
    : Result bool :=
  let calculatedSignature := "sha256=" +:+ hmac_sha256_base64 secret body in
  crypto_timingSafeEquals signature calculatedSignature.

(** An inbound request: the route parameter, the two headers read by
    the handler (a missing topic header behaves as a topic without a
    case), the raw body and the outcome of
    [JSON.parse(body.toString())]. *)
Record Request : Type := {
  req_tenantId : string;
  req_topic : string;
  req_signature : string;
  req_body : string;
  req_payload : Result jsval
}.

Record Response : Type := {
  status : Z;
  json : jsval
}.

Section Handlers.
Context `{Builtins}.
Variables (tenantId : string) (now : Z).

Definition handleCustomerWebhook (payload : jsval) : M unit :=
  await_ deref "id" payload;
  await_ customer_upsert (tenantId, Js.String_ (Js.get "id" payload))
    (fun row =>
       {| c_id := c_id row;
          c_tenantId := c_tenantId row;
          c_shopifyId := c_shopifyId row;
          c_email := updated (c_email row) (Js.get "email" payload);
          c_firstName := updated (c_firstName row) (Js.get "first_name" payload);
          c_lastName := updated (c_lastName row) (Js.get "last_name" payload);
          c_phone := updated (c_phone row) (Js.get "phone" payload);
          c_tags := updated (c_tags row) (Js.get "tags" payload);
          c_totalSpent :=
            parseFloat_ (Js.or (Js.get "total_spent" payload) (JStr "0"));
          c_ordersCount :=
            updated (c_ordersCount row)
              (Js.or (Js.get "orders_count" payload) (JNum 0));
          c_shopifyCreatedAt := c_shopifyCreatedAt row;
          c_createdAt := c_createdAt row;
          c_updatedAt := now |})
    (fun id =>
       {| c_id := id;
          c_tenantId := tenantId;
          c_shopifyId := Js.String_ (Js.get "id" payload);
          c_email := created (Js.get "email" payload);
          c_firstName := created (Js.get "first_name" payload);
          c_lastName := created (Js.get "last_name" payload);
          c_phone := created (Js.get "phone" payload);
          c_tags := created (Js.get "tags" payload);
          c_totalSpent :=
            parseFloat_ (Js.or (Js.get "total_spent" payload) (JStr "0"));
          c_ordersCount := created (Js.or (Js.get "orders_count" payload) (JNum 0));
          c_shopifyCreatedAt := newDate_or_null (Js.get "created_at" payload);
          c_createdAt := now;
          c_updatedAt := now |});
  ret tt.

(** [handleOrderWebhook]: the customer is looked up, not written; the
    [update] data carry no [customerId]; line items are not touched. *)
Definition handleOrderWebhook (payload : jsval) : M unit :=
  await_ deref "customer" payload;
  await customerId <-
    (if Js.truthy (Js.qget "id" (Js.get "customer" payload)) then
       await customer <-
         customer_findUnique
           (tenantId, Js.String_ (Js.get "id" (Js.get "customer" payload)));
       ret (match customer with
            | Some c => Some (c_id c)
            | None => None
            end)
     else ret None);
  await_ order_upsert (tenantId, Js.String_ (Js.get "id" payload))
    (fun row =>
       {| o_id := o_id row;
          o_tenantId := o_tenantId row;
          o_shopifyId := o_shopifyId row;
          o_orderNumber := o_orderNumber row;
          o_name := o_name row;
          o_totalPrice :=
            parseFloat_ (Js.or (Js.get "total_price" payload) (JStr "0"));
          o_subtotalPrice := parseFloat_or_null (Js.get "subtotal_price" payload);
          o_totalTax := parseFloat_or_null (Js.get "total_tax" payload);
          o_totalDiscounts := parseFloat_or_null (Js.get "total_discounts" payload);
          o_currency := o_currency row;
          o_financialStatus :=
            updated (o_financialStatus row) (Js.get "financial_status" payload);
          o_fulfillmentStatus :=
            updated (o_fulfillmentStatus row) (Js.get "fulfillment_status" payload);
          o_customerId := o_customerId row;
          o_orderDate := o_orderDate row;
          o_updatedAt := now |})
    (fun id =>
       {| o_id := id;
          o_tenantId := tenantId;
          o_shopifyId := Js.String_ (Js.get "id" payload);
          o_orderNumber :=
            created (Js.or (Js.qtoString (Js.get "order_number" payload))
                           (Js.get "name" payload));
          o_name := created (Js.get "name" payload);
          o_totalPrice :=
            parseFloat_ (Js.or (Js.get "total_price" payload) (JStr "0"));
          o_subtotalPrice := parseFloat_or_null (Js.get "subtotal_price" payload);
          o_totalTax := parseFloat_or_null (Js.get "total_tax" payload);
          o_totalDiscounts := parseFloat_or_null (Js.get "total_discounts" payload);
          o_currency := created (Js.or (Js.get "currency" payload) (JStr "USD"));
          o_financialStatus := created (Js.get "financial_status" payload);
          o_fulfillmentStatus := created (Js.get "fulfillment_status" payload);
          o_customerId := customerId;
          o_orderDate := newDate (Js.get "created_at" payload);
          o_updatedAt := now |});
  ret tt.

Definition handleProductWebhook (payload : jsval) : M unit :=
  await_ deref "variants" payload;
  let firstVariant := Js.qfirst (Js.get "variants" payload) in
  let price :=
    if Js.truthy firstVariant
    then parseFloat_ (Js.or (Js.get "price" firstVariant) (JStr "0"))
    else 0%float in
  let compareAtPrice := parseFloat_or_null (Js.qget "compare_at_price" firstVariant) in
  let inventory := Js.or (Js.qget "inventory_quantity" firstVariant) (JNum 0) in
  let imageUrl :=
    Js.or (Js.qget "src" (Js.get "image" payload))
          (Js.qget "src" (Js.qfirst (Js.get "images" payload))) in
  await_ product_upsert (tenantId, Js.String_ (Js.get "id" payload))
    (fun row =>
       {| p_id := p_id row;
          p_tenantId := p_tenantId row;
          p_shopifyId := p_shopifyId row;
          p_title := updated (p_title row) (Js.get "title" payload);
          p_handle := updated (p_handle row) (Js.get "handle" payload);
          p_vendor := updated (p_vendor row) (Js.get "vendor" payload);
          p_productType := updated (p_productType row) (Js.get "product_type" payload);
          p_status :=
            updated (p_status row) (Js.or (Js.get "status" payload) (JStr "active"));
          p_tags := updated (p_tags row) (Js.get "tags" payload);
          p_price := price;
          p_compareAtPrice := compareAtPrice;
          p_inventory := updated (p_inventory row) inventory;
          p_imageUrl := updated (p_imageUrl row) imageUrl;
          p_shopifyCreatedAt := p_shopifyCreatedAt row;
          p_createdAt := p_createdAt row;
          p_updatedAt := now |})
    (fun id =>
       {| p_id := id;
          p_tenantId := tenantId;
          p_shopifyId := Js.String_ (Js.get "id" payload);
          p_title := created (Js.get "title" payload);
          p_handle := created (Js.get "handle" payload);
          p_vendor := created (Js.get "vendor" payload);
          p_productType := created (Js.get "product_type" payload);
          p_status := created (Js.or (Js.get "status" payload) (JStr "active"));
          p_tags := created (Js.get "tags" payload);
          p_price := price;
          p_compareAtPrice := compareAtPrice;
          p_inventory := created inventory;
          p_imageUrl := created imageUrl;
          p_shopifyCreatedAt := newDate_or_null (Js.get "created_at" payload);
          p_createdAt := now;
          p_updatedAt := now |});
  ret tt.

Definition handleCartEvent (eventType : string) (payload : jsval) : M unit :=
  await_ deref "customer" payload;
  await_ event_create (fun id =>
    {| e_id := id;
       e_tenantId := tenantId;
       e_type := eventType;
       e_source := "webhook";
       e_customerId :=
         created (Js.qtoString (Js.qget "id" (Js.get "customer" payload)));
       e_sessionId := created (Js.get "token" payload);
       e_payload := payload |});
  ret tt.

(** The [switch (topic)] of the route. *)
Definition dispatch (topic : string) (payload : jsval) : M unit :=
  if String.eqb topic "customers/create" || String.eqb topic "customers/update"
  then handleCustomerWebhook payload
  else if String.eqb topic "orders/create" || String.eqb topic "orders/updated"
  then handleOrderWebhook payload
  else if String.eqb topic "products/create" || String.eqb topic "products/update"
  then handleProductWebhook payload
  else if String.eqb topic "carts/create" || String.eqb topic "carts/update"
  then handleCartEvent "cart_updated" payload
  else if String.eqb topic "checkouts/create"
  then handleCartEvent "checkout_started" payload
  else if String.eqb topic "checkouts/delete"
  then handleCartEvent "cart_abandoned" payload
  else ret tt.

End Handlers.

(** The [try] block of the route: the tenant is looked up, the body is
    parsed and dispatched on the topic.  The header [signature] is read
    into a constant that the block does not use. *)
Definition receive `{Builtins} (now : Z) (req : Request) : M Response :=
  let tenantId := req_tenantId req in
  let topic := req_topic req in
  let signature := req_signature req in
  await tenant <- tenant_findUnique tenantId;
  match tenant with
  | None =>
      ret {| status := 404; json := JObj [("error", JStr "Tenant not found")] |}
  | Some _ =>
      await payload <- lift (req_payload req);
      await_ dispatch tenantId now topic payload;
      ret {| status := 200; json := JObj [("received", JBool true)] |}
  end.

(** POST /api/webhooks/shopify/:tenantId, the handler of the route:
    whatever is thrown inside the [try] block is answered with status 200.
    A request gets to the handler through the middleware that [index.ts]
    mounts in front of the router ([cors], then [express.raw], which turns
    away a body over its size limit); that part of the server is not
    modelled. *)
Definition post_shopify `{Builtins} (now : Z) (req : Request) (s : Store)
    : Store * Response :=
  match receive now req s with
  | (s', Ok response) => (s', response)
  | (s', Throw _) =>
      (s', {| status := 200;
              json := JObj [("received", JBool true);
                            ("error", JStr "Processing error")] |})
  end.

End Webhooks.

(* ===================================================================== *)
(** ** routes/shopify.ts: the manual sync trigger *)
(* ===================================================================== *)

Module ShopifyRoutes.
Import Db.
Import ShopifyService.

(** What the route hands back: a JSON response, or an error built by
    [createError(message, statusCode, code)] and passed to [next]. *)
Inductive Outcome : Type :=
  | Responded (body : jsval)
  | NextError (message : string) (statusCode : Z) (code : string).

Definition type_name (t : SyncType) : string :=
  match t with
  | customers_t => "customers"
  | orders_t => "orders"
  | products_t => "products"
  end.

(** POST /api/shopify/sync; [type = None] is the default ['all'].  The
    run is started without being awaited and what it throws goes to
    [console.error]: the store returned is the one the detached run
    leaves. *)
Definition post_sync `{Builtins} (api : ShopifyApi) (now : Z)
    (tenantId : string) (type : option SyncType) (s : Store) : Store * Outcome :=
  match tenants s !! tenantId with
  | None => (s, NextError "Tenant not found" 404 "NOT_FOUND")
  | Some tenant =>
      match connected tenant with
      | None =>
          (s, NextError "Shopify not connected. Please provide access token."
                        400 "SHOPIFY_NOT_CONNECTED")
      | Some _ =>
          let syncTypes :=
            match type with
            | None => [customers_t; orders_t; products_t]
            | Some t => [t]
            end in
          let s' := fst (syncTenantData api now tenantId syncTypes s) in
          (s', Responded
                 (JObj [("success", JBool true);
                        ("message",
                         JStr ("Sync started for: "
                               +:+ String.concat ", " (map type_name syncTypes)))]))
      end
  end.

End ShopifyRoutes.

(* ===================================================================== *)
(** ** routes/insights.ts: RFM customer segmentation *)
(* ===================================================================== *)

Module Rfm.
Import Db.
Open Scope float_scope.

Record TopCustomer : Type := {
  tc_name : jsval;
  tc_email : jsval;
  tc_totalSpent : float;
  tc_ordersCount : jsval;
  tc_daysSinceLastOrder : Z;
  rfmScore : Z
}.

Record SegmentAcc : Type := {
  count : Z;
  totalValue : float;
  acc_customers : list TopCustomer
}.

Record SegmentRow : Type := {
  segment : string;
  seg_count : Z;
  seg_totalValue : float;
  avgValue : float;
  topCustomers : list TopCustomer
}.

Record RfmData : Type := {
  segments : list SegmentRow;
  totalCustomers : Z
}.

(** [customer.orders[0]?.orderDate] under
    [orders: { orderBy: { orderDate: 'desc' }, take: 1 }]: the latest
    order date of the customer, if there is an order. *)
Definition lastOrderDate (c : Customer) (s : Store) : option Z :=
  foldr (fun o acc => match acc with
                      | None => Some (o_orderDate o)
                      | Some d => Some (Z.max (o_orderDate o) d)
                      end) None (customer_orders c s).

(** [Math.floor((now - lastOrderDate) / (1000 * 60 * 60 * 24))] on
    millisecond timestamps, 999 without an order. *)
Definition daysSinceLastOrder (now : Z) (last : option Z) : Z :=
  match last with
  | Some t => ((now - t) / (1000 * 60 * 60 * 24))%Z
  | None => 999%Z
  end.

(** [v >= k] on the number held by the Int column. *)
Definition int_ge (v : jsval) (k : Z) : bool :=
  match v with
  | JNum n => (k <=? n)%Z
  | _ => false
  end.

Definition recencyScore (days : Z) : Z :=
  (if days <=? 7 then 5 else if days <=? 30 then 4 else if days <=? 90 then 3
   else if days <=? 180 then 2 else 1)%Z.

Definition frequencyScore (orders : jsval) : Z :=
  (if int_ge orders 10 then 5 else if int_ge orders 5 then 4
   else if int_ge orders 3 then 3 else if int_ge orders 2 then 2 else 1)%Z.

Definition monetaryScore (monetary : float) : Z :=
  if 1000 <=? monetary then 5%Z else if 500 <=? monetary then 4%Z
  else if 200 <=? monetary then 3%Z else if 50 <=? monetary then 2%Z else 1%Z.

(** The decision list, first match first. *)
Definition segmentOf (r f m : Z) : string :=
  (if (4 <=? r) && (4 <=? f) && (4 <=? m) then "Champions"
   else if (4 <=? f) && (3 <=? m) then "Loyal Customers"
   else if (4 <=? r) && (2 <=? f) then "Potential Loyalists"
   else if (4 <=? r) && (f =? 1) then "Recent Customers"
   else if (3 <=? r) && (2 <=? m) then "Promising"
   else if (r <=? 2) && (3 <=? f) then "Need Attention"
   else if (r <=? 2) && (2 <=? f) then "At Risk"
   else "Hibernating")%Z.

Definition initialSegments : list (string * SegmentAcc) :=
  map (fun name => (name, {| count := 0; totalValue := 0; acc_customers := [] |}))
    ["Champions"; "Loyal Customers"; "Potential Loyalists"; "Recent Customers";
     "Promising"; "Need Attention"; "At Risk"; "Hibernating"].

(** [[firstName, lastName].filter(Boolean).join(' ') || email || 'Unknown'] *)
Definition displayName (c : Customer) : jsval :=
  let parts := filter (fun v => Js.truthy v = true) [c_firstName c; c_lastName c] in
  Js.or (Js.or (JStr (String.concat " " (map Js.String_ parts))) (c_email c))
        (JStr "Unknown").

(** The scores and the segment of one customer. *)
Record Scored : Type := {
  days : Z;
  recency : Z;
  frequency : Z;
  monetary : Z;
  seg : string
}.

Definition score (now : Z) (s : Store) (c : Customer) : Scored :=
  let d := daysSinceLastOrder now (lastOrderDate c s) in
  let r := recencyScore d in
  let f := frequencyScore (c_ordersCount c) in
  let m := monetaryScore (c_totalSpent c) in
  {| days := d; recency := r; frequency := f; monetary := m;
     seg := segmentOf r f m |}.

(** The body of the loop over the customers. *)
Definition tally (now : Z) (s : Store) (segs : list (string * SegmentAcc))
    (c : Customer) : list (string * SegmentAcc) :=
  let sc := score now s c in
  let spent := c_totalSpent c in
  map (fun '(name, a) =>
         if String.eqb name (seg sc) then
           (name,
            {| count := (count a + 1)%Z;
               totalValue := totalValue a + spent;
               acc_customers :=
                 if (Z.of_nat (length (acc_customers a)) <? 3)%Z
                 then acc_customers a ++
                      [{| tc_name := displayName c;
                          tc_email := c_email c;
                          tc_totalSpent := spent;
                          tc_ordersCount := c_ordersCount c;
                          tc_daysSinceLastOrder := days sc;
                          rfmScore := (recency sc + frequency sc + monetary sc)%Z |}]
                 else acc_customers a |})
         else (name, a)) segs.

(** GET /api/insights/rfm-segments for the tenant of the request. *)
Definition rfmSegments (tenantId : string) (now : Z) (s : Store) : RfmData :=
  let customers := customer_findMany tenantId s in
  let segs := fold_left (tally now s) customers initialSegments in
  let segmentData :=
    map (fun '(name, data) =>
           {| segment := name;
              seg_count := count data;
              seg_totalValue := Num.Math_round (totalValue data * 100) / 100;
              avgValue :=
                if (0 <? count data)%Z
                then Num.Math_round (totalValue data / Num.of_Z (count data) * 100) / 100
                else 0;
              topCustomers := acc_customers data |}) segs in
  {| segments := filter (fun row => (0 < seg_count row)%Z) segmentData;
     totalCustomers := Z.of_nat (length customers) |}.

End Rfm.

(* ===================================================================== *)
(** ** routes/shopify.ts: sync status and connect *)
(* ===================================================================== *)

Module ShopifyAdmin.
Import Db.
Import ShopifyService.

(** [orderBy: { startedAt: 'desc' }]: [a] may come before [b]. *)
Definition newer_first (a b : SyncLog) : Prop := l_startedAt b <= l_startedAt a.

#[export] Instance newer_first_dec (a b : SyncLog) : Decision (newer_first a b) :=
  Z_le_dec (l_startedAt b) (l_startedAt a).

(** [syncLog.findMany({ where: { tenantId }, orderBy: { startedAt: 'desc' },
    take: 10 })]; the order among logs started at the same instant is the
    engine's choice, here the one of the sort. *)
Definition recentLogs (tenantId : string) (s : Store) : list SyncLog :=
  take 10 (merge_sort newer_first
             (filter (fun l => l_tenantId l = tenantId) (syncLogs s))).

Record SyncStatus : Type := {
  status_lastSyncAt : option Z;
  status_recentLogs : list SyncLog
}.

(** GET /api/shopify/sync-status; [tenant?.lastSyncAt] of a missing tenant
    and of a tenant never synced are both [None]. *)
Definition get_sync_status (tenantId : string) (s : Store) : SyncStatus :=
  {| status_lastSyncAt :=
       match tenants s !! tenantId with
       | Some t => lastSyncAt t
       | None => None
       end;
     status_recentLogs := recentLogs tenantId s |}.

(** The [select] of the connect route. *)
Definition tenant_summary (t : Tenant) : jsval :=
  JObj [("id", JStr (tenant_id t)); ("name", JStr (tenant_name t));
        ("shopifyDomain", JStr (shopifyDomain t)); ("isActive", JBool (isActive t))].

(** POST /api/shopify/connect with the [accessToken] of the body, a string
    when present.  [Ok] carries what the route answers or hands to [next]
    through [createError]; [Throw] is the error of [tenant.update] handed
    to [next]. *)
Definition post_connect (tenantId : string) (accessToken : option string) (s : Store)
    : Store * Result ShopifyRoutes.Outcome :=
  match accessToken with
  | None => (s, Ok (ShopifyRoutes.NextError "Access token is required" 400 "VALIDATION_ERROR"))
  | Some token =>
      if String.eqb token ""
      then (s, Ok (ShopifyRoutes.NextError "Access token is required" 400 "VALIDATION_ERROR"))
      else
        match tenants s !! tenantId with
        | None => (s, Throw "PrismaClientKnownRequestError: record to update not found")
        | Some t =>
            let t' := {| tenant_id := tenant_id t; tenant_name := tenant_name t;
                         shopifyDomain := shopifyDomain t;
                         accessToken := Some token; isActive := isActive t;
                         lastSyncAt := lastSyncAt t |} in
            (with_tenants (insert tenantId t') s,
             Ok (ShopifyRoutes.Responded
                   (JObj [("success", JBool true);
                          ("data", tenant_summary t');
                          ("message",
                           JStr "Shopify connected successfully. You can now sync data.")])))
        end
  end.

End ShopifyAdmin.

(* ===================================================================== *)
(** ** services/scheduler.ts *)
(* ===================================================================== *)

Module Scheduler.
Import Db.
Import ShopifyService.

Inductive Job : Type := ScheduledSync | DailyCleanup.

(** The module state: the flag [schedulerStarted] and the jobs registered
    with [cron.schedule], each under its cron expression. *)
Record State : Type := {
  schedulerStarted : bool;
  scheduled : list (string * Job)
}.

Definition initial : State := {| schedulerStarted := false; scheduled := [] |}.

Definition startScheduler (st : State) : State :=
  if schedulerStarted st then st
  else {| schedulerStarted := true;
          scheduled := scheduled st ++ [("*/15 * * * *", ScheduledSync);
                                        ("0 0 * * *", DailyCleanup)] |}.

(** [sevenDaysAgo]: the date of [now] set back by 7 days, on a clock
    without a change of offset in between. *)
Definition sevenDaysAgo (now : Z) : Z := now - 7 * (1000 * 60 * 60 * 24).

(** [syncLog.deleteMany({ where: { startedAt: { lt: sevenDaysAgo } } })],
    with the [count] of the result. *)
Definition syncLog_deleteMany_before (cutoff : Z) : M Z :=
  fun s =>
    (with_syncLogs (filter (fun l => ~ (l_startedAt l < cutoff)) (syncLogs s)) s,
     Ok (Z.of_nat (length (filter (fun l => l_startedAt l < cutoff) (syncLogs s))))).

(** The body of a job; what it throws is caught and logged. *)
Definition run `{Builtins} (api : ShopifyApi) (now : Z) (job : Job) (s : Store) : Store :=
  match job with
  | ScheduledSync =>
      fst (try_catch (syncAllTenants api now) (fun _ => ret tt) s)
  | DailyCleanup =>
      fst (try_catch
             (await_ syncLog_deleteMany_before (sevenDaysAgo now);
              ret tt)
             (fun _ => ret tt) s)
  end.

End Scheduler.

(* ===================================================================== *)
(** ** Relations between the store before and after a call *)
(* ===================================================================== *)

(** Every call relates the store it starts from to the store it leaves,
    whether it returns or throws. *)
Definition keeps {A : Type} (R : Db.Store -> Db.Store -> Prop) (m : Db.M A) : Prop :=
  forall s, R s (fst (m s)).

(** The record tables are as they were. *)
Definition same_records (s s' : Db.Store) : Prop :=
  Db.customers s' = Db.customers s
  /\ Db.orders s' = Db.orders s
  /\ Db.orderLineItems s' = Db.orderLineItems s
  /\ Db.products s' = Db.products s
  /\ Db.events s' = Db.events s.

(** Tenants and sync logs are as they were and no generated id is reused. *)
Definition same_audit (s s' : Db.Store) : Prop :=
  Db.tenants s' = Db.tenants s
  /\ Db.syncLogs s' = Db.syncLogs s
  /\ (Db.nextId s <= Db.nextId s')%N.

(** The ids of the sync logs were generated from [nextId]. *)
Definition logs_fresh (s : Db.Store) : Prop :=
  Forall (fun l => (Db.l_id l < Db.nextId s)%N) (Db.syncLogs s).

(** A log row in one of its two terminal states, stamped at [now]. *)
Definition terminal (now : Z) (l : Db.SyncLog) : Prop :=
  (Db.l_status l = "completed" \/ Db.l_status l = "failed")
  /\ Db.l_completedAt l = Some now.

(** The customers counted so far by the segment accumulators, and the
    bound on the customers an accumulator lists. *)
Definition counted (segs : list (string * Rfm.SegmentAcc)) : Z :=
  foldr Z.add 0 (map (fun p => Rfm.count (snd p)) segs).

Definition capped (a : Rfm.SegmentAcc) : Prop :=
  0 <= Rfm.count a /\ Z.of_nat (length (Rfm.acc_customers a)) = Z.min (Rfm.count a) 3.

(** A tenant row that differs at most in [lastSyncAt], which is then the
    time of the run; and a store whose tenants are those of another up to
    that. *)
Definition synced_since (now : Z) (a b : Db.Tenant) : Prop :=
  Db.tenant_id b = Db.tenant_id a
  /\ Db.tenant_name b = Db.tenant_name a
  /\ Db.shopifyDomain b = Db.shopifyDomain a
  /\ Db.accessToken b = Db.accessToken a
  /\ Db.isActive b = Db.isActive a
  /\ (Db.lastSyncAt b = Db.lastSyncAt a \/ Db.lastSyncAt b = Some now).

Definition tenants_advance (now : Z) (s s' : Db.Store) : Prop :=
  forall id,
    match Db.tenants s !! id, Db.tenants s' !! id with
    | Some a, Some b => synced_since now a b
    | None, None => True
    | _, _ => False
    end.

(** The stores the running service gets to.  It starts with the tenants
    that registered and no other row; from then on the scheduler runs its
    two jobs, users trigger a sync or connect a store, and webhooks are
    delivered, in any order and with any answers of the external API. *)
Inductive reachable `{Builtins} : Db.Store -> Prop :=
| reach_initial (registered : gmap string Db.Tenant) :
    reachable (Db.with_tenants (fun _ => registered) Db.empty)
| reach_job (api : ShopifyService.ShopifyApi) (now : Z) (job : Scheduler.Job)
    (s : Db.Store) :
    reachable s -> reachable (Scheduler.run api now job s)
| reach_sync (api : ShopifyService.ShopifyApi) (now : Z) (tenantId : string)
    (type : option Db.SyncType) (s : Db.Store) :
    reachable s -> reachable (fst (ShopifyRoutes.post_sync api now tenantId type s))
| reach_connect (tenantId : string) (accessToken : option string) (s : Db.Store) :
    reachable s -> reachable (fst (ShopifyAdmin.post_connect tenantId accessToken s))
| reach_webhook (now : Z) (req : Webhooks.Request) (s : Db.Store) :
    reachable s -> reachable (fst (Webhooks.post_shopify now req s)).

(** A row after a write that changes no column but [updatedAt]. *)
Definition customer_touched (now : Z) (row : Db.Customer) : Db.Customer :=
  {| Db.c_id := Db.c_id row;
     Db.c_tenantId := Db.c_tenantId row;
     Db.c_shopifyId := Db.c_shopifyId row;
     Db.c_email := Db.c_email row;
     Db.c_firstName := Db.c_firstName row;
     Db.c_lastName := Db.c_lastName row;
     Db.c_phone := Db.c_phone row;
     Db.c_tags := Db.c_tags row;
     Db.c_totalSpent := Db.c_totalSpent row;
     Db.c_ordersCount := Db.c_ordersCount row;
     Db.c_shopifyCreatedAt := Db.c_shopifyCreatedAt row;
     Db.c_createdAt := Db.c_createdAt row;
     Db.c_updatedAt := now |}.

Definition order_touched (now : Z) (row : Db.Order) : Db.Order :=
  {| Db.o_id := Db.o_id row;
     Db.o_tenantId := Db.o_tenantId row;
     Db.o_shopifyId := Db.o_shopifyId row;
     Db.o_orderNumber := Db.o_orderNumber row;
     Db.o_name := Db.o_name row;
     Db.o_totalPrice := Db.o_totalPrice row;
     Db.o_subtotalPrice := Db.o_subtotalPrice row;
     Db.o_totalTax := Db.o_totalTax row;
     Db.o_totalDiscounts := Db.o_totalDiscounts row;
     Db.o_currency := Db.o_currency row;
     Db.o_financialStatus := Db.o_financialStatus row;
     Db.o_fulfillmentStatus := Db.o_fulfillmentStatus row;
     Db.o_customerId := Db.o_customerId row;
     Db.o_orderDate := Db.o_orderDate row;
     Db.o_updatedAt := now |}.

Definition product_touched (now : Z) (row : Db.Product) : Db.Product :=
  {| Db.p_id := Db.p_id row;
     Db.p_tenantId := Db.p_tenantId row;
     Db.p_shopifyId := Db.p_shopifyId row;
     Db.p_title := Db.p_title row;
     Db.p_handle := Db.p_handle row;
     Db.p_vendor := Db.p_vendor row;
     Db.p_productType := Db.p_productType row;
     Db.p_status := Db.p_status row;
     Db.p_tags := Db.p_tags row;
     Db.p_price := Db.p_price row;
     Db.p_compareAtPrice := Db.p_compareAtPrice row;
     Db.p_inventory := Db.p_inventory row;
     Db.p_imageUrl := Db.p_imageUrl row;
     Db.p_shopifyCreatedAt := Db.p_shopifyCreatedAt row;
     Db.p_createdAt := Db.p_createdAt row;
     Db.p_updatedAt := now |}.

(* ===================================================================== *)
(** * Concrete inputs *)
(* ===================================================================== *)

Module Examples.
Import Db.
Open Scope float_scope.

(** The synthetic series of the specification: day [i] has revenue
    [100 + 10 i], for 10 days. *)
Definition linearSeries : list Forecast.DailyRevenueRow :=
  map (fun i => {| Forecast.row_date := i;
                   Forecast.row_revenue := Some (100 + 10 * Num.of_Z i);
                   Forecast.row_order_count := 1 |}) (seqZ 0 10).

(** Daily buckets on consecutive days with the given revenues. *)
Definition seriesOf (revenues : list float) : list Forecast.DailyRevenueRow :=
  imap (fun i r => {| Forecast.row_date := Z.of_nat i;
                      Forecast.row_revenue := Some r;
                      Forecast.row_order_count := 1 |}) revenues.

(** A week of buckets that ends on 9 March 2024, day 19791 of the epoch. *)
Definition marchSeries : list Forecast.DailyRevenueRow :=
  map (fun i => {| Forecast.row_date := i;
                   Forecast.row_revenue := Some 100;
                   Forecast.row_order_count := 1 |}) (seqZ 19785 7).

(** Eight daily buckets, the first one with orders of total price 0. *)
Definition zeroFirstSeries : list Forecast.DailyRevenueRow :=
  seriesOf [0; 100; 100; 100; 100; 100; 100; 100].

(** A steeply declining series of eight buckets. *)
Definition decliningSeries : list Forecast.DailyRevenueRow :=
  seriesOf [1000; 800; 600; 400; 200; 100; 50; 0].

(** One day in milliseconds. *)
Definition day : Z := 1000 * 60 * 60 * 24.

(** A process whose time zone is UTC. *)
Definition utc : Calendar := {| addLocalDays := fun t i => (t + i * msPerDay)%Z |}.

(** A process on New York time, for dates around 10 March 2024, when the
    clocks went forward at 07:00 UTC (time value 1710054000000): the
    offset from UTC is 5 hours before and 4 hours after. *)
Definition newYork2024 : Calendar :=
  {| addLocalDays := fun t i =>
       (let offset (u : Z) : Z := if u <? 1710054000000 then 5 else 4 in
        let wall := t - offset t * 3600000 + i * msPerDay in
        if wall + 5 * 3600000 <? 1710054000000
        then wall + 5 * 3600000
        else wall + 4 * 3600000)%Z |}.

Definition champion : Customer :=
  {| c_id := 1; c_tenantId := "tenant-a"; c_shopifyId := "501";
     c_email := JStr "ada@example.com"; c_firstName := JStr "Ada";
     c_lastName := JStr "Byron"; c_phone := JNull; c_tags := JNull;
     c_totalSpent := 1000; c_ordersCount := JNum 10;
     c_shopifyCreatedAt := None; c_createdAt := 0; c_updatedAt := 0 |}.

Definition newcomer : Customer :=
  {| c_id := 2; c_tenantId := "tenant-a"; c_shopifyId := "502";
     c_email := JStr "bob@example.com"; c_firstName := JNull;
     c_lastName := JNull; c_phone := JNull; c_tags := JNull;
     c_totalSpent := 0; c_ordersCount := JNum 0;
     c_shopifyCreatedAt := None; c_createdAt := 0; c_updatedAt := 0 |}.

(** An order of [champion] placed at [orderDate]. *)
Definition championOrder (orderDate : Z) : Order :=
  {| o_id := 3; o_tenantId := "tenant-a"; o_shopifyId := "9001";
     o_orderNumber := JStr "1001"; o_name := JStr "#1001";
     o_totalPrice := 100; o_subtotalPrice := None; o_totalTax := None;
     o_totalDiscounts := None; o_currency := JStr "USD";
     o_financialStatus := JStr "paid"; o_fulfillmentStatus := JNull;
     o_customerId := Some 1%N; o_orderDate := orderDate; o_updatedAt := 0 |}.

Definition rfmStore (orderDate : Z) : Store :=
  with_orders {[ ("tenant-a", "9001") := championOrder orderDate ]}
    (with_customers
       (<[ ("tenant-a", "501") := champion ]>
          {[ ("tenant-a", "502") := newcomer ]}) empty).

End Examples.

Module Inputs.
Import Db.
Open Scope float_scope.

(** [parseFloat] on the decimal strings of the examples: an optional
    sign, digits, an optional fraction; the value is the quotient of two
    integers that are exact as Numbers, hence correctly rounded.  The
    character codes are taken relative to the digit 0: the point is -2
    and the minus sign -3. *)
Fixpoint scan (s : string) (mantissa decimals : Z) (dot seen : bool) : option (Z * Z) :=
  match s with
  | EmptyString => if seen then Some (mantissa, decimals) else None
  | String c rest =>
      let d := (Z.of_N (Ascii.N_of_ascii c) - 48)%Z in
      if ((0 <=? d) && (d <=? 9))%Z
      then scan rest (10 * mantissa + d)%Z (if dot then decimals + 1 else decimals)%Z dot true
      else if (d =? -2)%Z && negb dot
      then scan rest mantissa decimals true seen
      else if seen then Some (mantissa, decimals) else None
  end.

Definition parseDecimal (s : string) : float :=
  let '(negative, body) :=
    match s with
    | String c rest =>
        if (Z.of_N (Ascii.N_of_ascii c) - 48 =? -3)%Z then (true, rest) else (false, s)
    | EmptyString => (false, s)
    end in
  match scan body 0 0 false false with
  | Some (m, k) =>
      let v := Num.of_Z m / Num.of_Z (10 ^ k) in
      if negative then - v else v
  | None => nan
  end.

(** The runtime of the examples: decimal strings, dates given as
    millisecond numbers, a fixed digest; Node's [crypto] module has no
    member [timingSafeEquals], so calling it throws. *)
Definition node : Builtins :=
  {| parseFloat := parseDecimal;
     newDate := fun v => match v with JNum n => n | _ => 0%Z end;
     hmac_sha256_base64 := fun _ _ => "3q2+7w==";
     crypto_timingSafeEquals :=
       fun _ _ => Throw "crypto.timingSafeEquals is not a function" |}.

Definition tenantA : Tenant :=
  {| tenant_id := "tenant-a"; tenant_name := "Store A"; shopifyDomain := "store-a";
     accessToken := Some "shpat_a"; isActive := true; lastSyncAt := None |}.

(** A tenant that never connected a store. *)
Definition tenantB : Tenant :=
  {| tenant_id := "tenant-b"; tenant_name := "Store B"; shopifyDomain := "store-b";
     accessToken := None; isActive := true; lastSyncAt := None |}.

Definition store0 : Store :=
  with_tenants (fun _ => <[ "tenant-a" := tenantA ]> {[ "tenant-b" := tenantB ]}) empty.

(** [JSON.stringify] of a payload, for the raw body of a delivery. *)
Definition quote : string := String (Ascii.ascii_of_nat 34) "".

Fixpoint stringify (v : jsval) : string :=
  match v with
  | JUndefined | JNull => "null"
  | JBool b => if b then "true" else "false"
  | JNum n => pretty n
  | JStr s => quote +:+ s +:+ quote
  | JArr xs => "[" +:+ String.concat "," (map stringify xs) +:+ "]"
  | JObj fields =>
      "{" +:+ String.concat ","
                (map (fun kv => quote +:+ fst kv +:+ quote +:+ ":" +:+ stringify (snd kv))
                     fields) +:+ "}"
  end.

Definition customer123 : jsval :=
  JObj [("id", JNum 123); ("email", JStr "ada@example.com");
        ("first_name", JStr "Ada"); ("last_name", JStr "Byron");
        ("total_spent", JStr "120.50"); ("orders_count", JNum 3)].

(** A webhook delivery of [customer123] with an empty signature header. *)
Definition forgedRequest : Webhooks.Request :=
  {| Webhooks.req_tenantId := "tenant-a";
     Webhooks.req_topic := "customers/create";
     Webhooks.req_signature := "";
     Webhooks.req_body := stringify customer123;
     Webhooks.req_payload := Ok customer123 |}.

Definition itemA : jsval :=
  JObj [("id", JNum 1); ("title", JStr "A"); ("quantity", JNum 1); ("price", JStr "5.00")].
Definition itemB : jsval :=
  JObj [("id", JNum 2); ("title", JStr "B"); ("quantity", JNum 2); ("price", JStr "7.50")].
Definition itemC : jsval :=
  JObj [("id", JNum 3); ("title", JStr "C"); ("quantity", JNum 1); ("price", JStr "9.00")].

(** Order 9001 of customer 7 with the given line items. *)
Definition order9001 (items : list jsval) : jsval :=
  JObj [("id", JNum 9001); ("name", JStr "#1001"); ("order_number", JNum 1001);
        ("total_price", JStr "20.00"); ("financial_status", JStr "paid");
        ("created_at", JNum 1700000000000);
        ("customer", JObj [("id", JNum 7); ("email", JStr "eve@example.com")]);
        ("line_items", JArr items)].

End Inputs.

(** A pull of one page of orders, and the rows it stores. *)
Module Scenario.
Import Db.

Definition ordersApi : ShopifyService.ShopifyApi :=
  fun _ _ _ => Ok (JObj [("orders", JArr [Inputs.order9001 [Inputs.itemA]])]).

Definition afterOrderSync : Store :=
  fst (@ShopifyRoutes.post_sync Inputs.node ordersApi 0 "tenant-a" (Some orders_t)
         Inputs.store0).

(** The log row of the run took id 1, the customer id 2, the order id 3. *)
Definition eve : Customer :=
  ShopifyService.embedded_customer_create_data "tenant-a" 0
    (Js.get "customer" (Inputs.order9001 [Inputs.itemA])) 2.

Definition eveOrder : Order :=
  @ShopifyService.order_create_data Inputs.node "tenant-a" 0
    (Inputs.order9001 [Inputs.itemA]) (Some 2%N) 3.

(** Order 9001 delivered again by webhook, now with the line item [C]. *)
Definition orderUpdate : Webhooks.Request :=
  {| Webhooks.req_tenantId := "tenant-a";
     Webhooks.req_topic := "orders/updated";
     Webhooks.req_signature := "";
     Webhooks.req_body := Inputs.stringify (Inputs.order9001 [Inputs.itemC]);
     Webhooks.req_payload := Ok (Inputs.order9001 [Inputs.itemC]) |}.

(** The row of a line item of the examples: they carry an id, a title, a
    quantity and a price, and neither product, variant nor SKU. *)
Definition lineItemRow `{Builtins} (id : N) (shopifyId : string) (orderId : N)
    (title : string) (quantity : Z) (price : string) : OrderLineItem :=
  {| li_id := id;
     li_shopifyId := shopifyId;
     li_orderId := orderId;
     li_productId := JNull;
     li_title := JStr title;
     li_quantity := JNum quantity;
     li_price := parseFloat price;
     li_sku := JNull;
     li_variantId := JNull |}.

End Scenario.

(* ===================================================================== *)
(** * Properties *)
(* ===================================================================== *)

(** ** Numbers *)

Section NumberFacts.
Import Num.
Open Scope float_scope.

Lemma ltb_leb (x y : float) : (x <? y) = true -> (x <=? y) = true.
Proof.
  rewrite ltb_spec, leb_spec. unfold SFltb, SFleb.
  destruct (SFcompare (Prim2SF x) (Prim2SF y)) as [[ | | ]|]; congruence.
Qed.

Lemma ltb_zero_asym (y : float) : (0 <? y) = true -> (y <? 0) = false.
Proof.
  rewrite !ltb_spec.
  change (Prim2SF 0) with (S754_zero false).
  destruct (Prim2SF y) as [[ | ]|[ | ]| |[ | ] m e]; cbn; congruence.
Qed.

(** [Math.max(0, y)] is NaN for a NaN [y], [y] when [0 < y], and +0
    otherwise. *)
Lemma Math_max_0_cases (y : float) :
  (PrimFloat.is_nan y = true /\ Math_max 0 y = nan)
  \/ Math_max 0 y = 0
  \/ ((0 <? y) = true /\ Math_max 0 y = y).
Proof.
  unfold Math_max.
  change (PrimFloat.is_nan 0) with false.
  destruct (PrimFloat.is_nan y); cbn [orb]; [left; split; reflexivity|].
  change (max_step neg_infinity 0) with 0.
  unfold max_step.
  change (is_nzero 0) with false.
  rewrite andb_false_r.
  destruct (0 <? y) eqn:Hy; [right; right; split; reflexivity | right; left; reflexivity].
Qed.

Lemma Math_max_0_not_negative (y : float) : (Math_max 0 y <? 0) = false.
Proof.
  destruct (Math_max_0_cases y) as [[_ ->]|[->|[Hy ->]]];
    [reflexivity | reflexivity | by apply ltb_zero_asym].
Qed.

Lemma Math_max_0_nonneg (y : float) :
  PrimFloat.is_nan (Math_max 0 y) = false -> (0 <=? Math_max 0 y) = true.
Proof.
  destruct (Math_max_0_cases y) as [[_ ->]|[->|[Hy ->]]]; intros Hn.
  - discriminate Hn.
  - reflexivity.
  - by apply ltb_leb.
Qed.

End NumberFacts.

(** ** Revenue forecast *)

Section ForecastFacts.
Import Num Forecast.
Open Scope float_scope.
Context `{Calendar}.

Lemma historicalData_length (dailyRevenue : list DailyRevenueRow) :
  length (historicalData dailyRevenue) = length dailyRevenue.
Proof. unfold historicalData. by rewrite length_map. Qed.

(** From 7 buckets on, the forecast has its 7 points. *)
Lemma forecast_length (dailyRevenue : list DailyRevenueRow) :
  (7 <= length dailyRevenue)%nat ->
  length (forecast (revenueForecast dailyRevenue)) = 7%nat.
Proof.
  intros Hn. unfold revenueForecast.
  rewrite historicalData_length.
  destruct (Z.ltb_spec (Z.of_nat (length dailyRevenue)) 7) as [Hlt|_]; [lia|].
  reflexivity.
Qed.

(** Every forecast point is the clamped, rounded extrapolation of the
    fitted line. *)
Lemma forecast_lookup (dailyRevenue : list DailyRevenueRow) (k : nat) (p : ForecastPoint) :
  forecast (revenueForecast dailyRevenue) !! k = Some p ->
  let hd := historicalData dailyRevenue in
  let n := Z.of_nat (length hd) in
  exists i : Z,
    (1 <= i <= 7)%Z /\
    predictedRevenue p =
      Math_max 0 (Math_round ((intercept hd n + slope hd n * (of_Z n - 1 + of_Z i)) * 100)
                  / 100).
Proof.
  unfold revenueForecast. cbv zeta.
  destruct (Z.of_nat (length (historicalData dailyRevenue)) <? 7)%Z.
  - cbn. intros Hk. discriminate Hk.
  - cbn [forecast]. unfold forecastPoints.
    rewrite list_lookup_fmap.
    destruct (seqZ 1 7 !! k) as [i|] eqn:Hi; [|discriminate].
    cbn. intros [= <-].
    apply lookup_seqZ in Hi as [-> Hk].
    exists (1 + Z.of_nat k)%Z. split; [lia|reflexivity].
Qed.

End ForecastFacts.

(** From 14 buckets on, the two windows of the week-over-week growth are
    the last 7 buckets and the 7 buckets before them. *)
Lemma weeklyGrowth_windows {A : Type} (l : list A) :
  (14 <= length l)%nat ->
  Js.slice l (-7) None = drop (length l - 7) l
  /\ Js.slice l (-14) (Some (-7)) = take 7 (drop (length l - 14) l).
Proof.
  intros Hn. unfold Js.slice, Js.relative_index. cbn [Z.ltb Z.compare].
  rewrite !Z.max_l by lia. split.
  - replace (Z.to_nat (Z.of_nat (length l) + -7)) with (length l - 7)%nat by lia.
    apply take_ge. rewrite length_drop. lia.
  - f_equal; [lia|f_equal; lia].
Qed.

(** With 8 to 13 buckets the earlier window is shorter than 7: with 10
    buckets it holds the first 3. *)
Example weeklyGrowth_window_of_10 :
  Js.slice (seqZ 0 10) (-14) (Some (-7)) = [0; 1; 2].
Proof. reflexivity. Qed.

(** C3, at the failing input: with 8 buckets the window [slice(-14, -7)]
    is the first bucket alone; its revenue sum is 0 and the quotient is
    not guarded, so the week-over-week growth of the response is
    Infinity, which is not a finite number. *)
Theorem weeklyGrowth_zero_prior_sum_not_finite `{Calendar} :
  Forecast.sumRevenue
    (Js.slice (Forecast.historicalData Examples.zeroFirstSeries) (-14) (Some (-7))) = 0%float
  /\ Forecast.weeklyGrowth (Forecast.revenueForecast Examples.zeroFirstSeries) = Some infinity
  /\ Num.isFinite infinity = false.
Proof. vm_compute. repeat split; reflexivity. Qed.

(** C7: fewer than 7 daily buckets give the trend [insufficient_data] and
    an empty forecast, whatever the revenues in the buckets. *)
Theorem forecast_insufficient_data `{Calendar}
    (dailyRevenue : list Forecast.DailyRevenueRow) :
  (length dailyRevenue < 7)%nat ->
  Forecast.trend (Forecast.revenueForecast dailyRevenue) = "insufficient_data"
  /\ Forecast.forecast (Forecast.revenueForecast dailyRevenue) = [].
Proof.
  intros Hn. unfold Forecast.revenueForecast.
  rewrite historicalData_length.
  destruct (Z.ltb_spec (Z.of_nat (length dailyRevenue)) 7) as [_|Hge]; [|lia].
  split; reflexivity.
Qed.

Lemma forecast_insufficient_data_witness :
  (length (take 6 Examples.decliningSeries) < 7)%nat
  /\ Forecast.trend
       (@Forecast.revenueForecast Examples.utc (take 6 Examples.decliningSeries))
     = "insufficient_data"
  /\ Forecast.forecast
       (@Forecast.revenueForecast Examples.utc (take 6 Examples.decliningSeries)) = [].
Proof.
  split; [vm_compute; lia|].
  apply (@forecast_insufficient_data Examples.utc (take 6 Examples.decliningSeries)).
  vm_compute. lia.
Defined.

(** C8: on the 10-day series [100 + 10 i] the least-squares fit has slope
    10 and intercept 100, every residual is 0, so is the residual standard
    deviation, and each of the 7 forecast points has confidence 100 and
    lies on the line. *)
Theorem forecast_linear_series `{Calendar} :
  let hd := Forecast.historicalData Examples.linearSeries in
  Forecast.slope hd 10 = 10%float
  /\ Forecast.intercept hd 10 = 100%float
  /\ Forecast.residuals hd 10 = repeat 0%float 10
  /\ Forecast.stdDev hd 10 = 0%float
  /\ map Forecast.fp_confidence (Forecast.forecast (Forecast.revenueForecast Examples.linearSeries))
     = repeat 100%float 7
  /\ map Forecast.predictedRevenue (Forecast.forecast (Forecast.revenueForecast Examples.linearSeries))
     = [200; 210; 220; 230; 240; 250; 260]%float.
Proof. vm_compute. repeat split; reflexivity. Qed.

(** C10: no forecast point has a negative [predictedRevenue].  The value
    is [Math.max(0, .)] of the extrapolation [intercept + slope (n - 1 + i)]
    rounded to two decimals, hence never below zero, and at least zero
    whenever it is a number. *)
Theorem forecast_predictedRevenue_nonneg `{Calendar}
    (dailyRevenue : list Forecast.DailyRevenueRow) (k : nat) (p : Forecast.ForecastPoint) :
  Forecast.forecast (Forecast.revenueForecast dailyRevenue) !! k = Some p ->
  (Forecast.predictedRevenue p <? 0)%float = false
  /\ (PrimFloat.is_nan (Forecast.predictedRevenue p) = false ->
      (0 <=? Forecast.predictedRevenue p)%float = true)
  /\ (let hd := Forecast.historicalData dailyRevenue in
      let n := Z.of_nat (length hd) in
      exists i : Z,
        (1 <= i <= 7)
        /\ Forecast.predictedRevenue p
           = (Num.Math_max 0
                (Num.Math_round
                   ((Forecast.intercept hd n
                     + Forecast.slope hd n * (Num.of_Z n - 1 + Num.of_Z i)) * 100)
                 / 100))%float).
Proof.
  intros Hp. pose proof (forecast_lookup _ _ _ Hp) as Hshape.
  destruct Hshape as (i & Hi & Heq).
  split; [rewrite Heq; apply Math_max_0_not_negative|].
  split; [rewrite Heq; apply Math_max_0_nonneg|].
  exists i. split; [exact Hi | exact Heq].
Qed.

Lemma forecast_predictedRevenue_nonneg_witness :
  Forecast.forecast (@Forecast.revenueForecast Examples.utc Examples.decliningSeries)
    !! 6%nat
  = Some {| Forecast.fp_date := 14; Forecast.predictedRevenue := 0;
            Forecast.fp_confidence := 90 |}
  /\ (0 <? 0)%float = false
  /\ (PrimFloat.is_nan 0 = false -> (0 <=? 0)%float = true).
Proof.
  split; [vm_compute; reflexivity|].
  pose proof (@forecast_predictedRevenue_nonneg Examples.utc Examples.decliningSeries 6
                {| Forecast.fp_date := 14; Forecast.predictedRevenue := 0;
                   Forecast.fp_confidence := 90 |}) as Hnonneg.
  destruct Hnonneg as (Hlt & Hle & _); [vm_compute; reflexivity|].
  split; [exact Hlt | exact Hle].
Defined.

(** A steeply declining line: every projected revenue is clamped to 0. *)
Example forecast_declining_clamped `{Calendar} :
  map Forecast.predictedRevenue
    (Forecast.forecast (Forecast.revenueForecast Examples.decliningSeries))
  = repeat 0%float 7
  /\ Forecast.trend (Forecast.revenueForecast Examples.decliningSeries) = "declining".
Proof. vm_compute. split; reflexivity. Qed.

(** ** RFM segmentation *)



(** The two customers through the whole handler. *)
Example rfmSegments_two_customers :
  let data := Rfm.rfmSegments "tenant-a" (20 * Examples.day)
                (Examples.rfmStore (15 * Examples.day - 1)) in
  map (fun row => (Rfm.segment row, Rfm.seg_count row)) (Rfm.segments data)
  = [("Champions", 1); ("Hibernating", 1)]
  /\ Rfm.totalCustomers data = 2.
Proof. vm_compute. split; reflexivity. Qed.

(** ** Sync orchestration *)

(** C9: a sync run for a tenant without a credential throws the
    not-connected error and leaves the whole store, hence the SyncLog
    table, as it was; the manual trigger answers with the error
    [SHOPIFY_NOT_CONNECTED] and starts no run. *)
Theorem sync_without_credential `{Builtins}
    (api : ShopifyService.ShopifyApi) (now : Z) (tenantId : string)
    (tenant : Db.Tenant) (types : list Db.SyncType) (type : option Db.SyncType)
    (s : Db.Store) :
  Db.tenants s !! tenantId = Some tenant ->
  ShopifyService.connected tenant = None ->
  ShopifyService.syncTenantData api now tenantId types s
  = (s, Throw "Tenant not found or Shopify not connected")
  /\ Db.syncLogs (fst (ShopifyService.syncTenantData api now tenantId types s))
     = Db.syncLogs s
  /\ ShopifyRoutes.post_sync api now tenantId type s
     = (s, ShopifyRoutes.NextError
             "Shopify not connected. Please provide access token."
             400 "SHOPIFY_NOT_CONNECTED").
Proof.
  intros Htenant Hconn.
  assert (ShopifyService.syncTenantData api now tenantId types s
          = (s, Throw "Tenant not found or Shopify not connected")) as Hrun.
  { unfold ShopifyService.syncTenantData, Db.bind, Db.tenant_findUnique, Db.read.
    rewrite Htenant, Hconn. reflexivity. }
  split; [exact Hrun|]. split; [by rewrite Hrun|].
  unfold ShopifyRoutes.post_sync. rewrite Htenant, Hconn. reflexivity.
Qed.

Lemma sync_without_credential_witness :
  @ShopifyService.syncTenantData Inputs.node (fun _ _ _ => Ok (JObj [])) 0 "tenant-b"
     [Db.customers_t; Db.orders_t; Db.products_t] Inputs.store0
  = (Inputs.store0, Throw "Tenant not found or Shopify not connected")
  /\ Db.syncLogs
       (fst (@ShopifyService.syncTenantData Inputs.node (fun _ _ _ => Ok (JObj [])) 0
               "tenant-b" [Db.customers_t; Db.orders_t; Db.products_t] Inputs.store0))
     = Db.syncLogs Inputs.store0
  /\ @ShopifyRoutes.post_sync Inputs.node (fun _ _ _ => Ok (JObj [])) 0 "tenant-b" None
       Inputs.store0
     = (Inputs.store0,
        ShopifyRoutes.NextError "Shopify not connected. Please provide access token."
          400 "SHOPIFY_NOT_CONNECTED").
Proof.
  apply (@sync_without_credential Inputs.node (fun _ _ _ => Ok (JObj [])) 0 "tenant-b"
           Inputs.tenantB).
  - vm_compute. reflexivity.
  - reflexivity.
Defined.

(** The same holds when there is no such tenant at all. *)
Lemma sync_unknown_tenant `{Builtins}
    (api : ShopifyService.ShopifyApi) (now : Z) (tenantId : string)
    (types : list Db.SyncType) (s : Db.Store) :
  Db.tenants s !! tenantId = None ->
  ShopifyService.syncTenantData api now tenantId types s
  = (s, Throw "Tenant not found or Shopify not connected").
Proof.
  intros Htenant.
  unfold ShopifyService.syncTenantData, Db.bind, Db.tenant_findUnique, Db.read.
  by rewrite Htenant.
Qed.

(** With a credential the run writes one SyncLog row per requested type. *)
Example sync_with_credential_logs :
  map (fun l => (Db.l_type l, Db.l_status l, Db.l_itemCount l))
    (Db.syncLogs
       (fst (@ShopifyService.syncTenantData Inputs.node
               (fun _ endpoint _ =>
                  if String.eqb endpoint "customers"
                  then Ok (JObj [("customers", JArr [Inputs.customer123])])
                  else Throw "Shopify API error: 500 - down")
               0 "tenant-a" [Db.customers_t; Db.orders_t] Inputs.store0)))
  = [(Db.customers_t, "completed", 1); (Db.orders_t, "failed", 0)].
Proof. vm_compute. reflexivity. Qed.

(** ** Webhooks *)

(** The route never looks at the signature header: two deliveries that
    differ in it alone have the same effect and the same answer. *)
Lemma post_shopify_ignores_signature `{Builtins} (now : Z) (req : Webhooks.Request)
    (signature : string) (s : Db.Store) :
  Webhooks.post_shopify now
    {| Webhooks.req_tenantId := Webhooks.req_tenantId req;
       Webhooks.req_topic := Webhooks.req_topic req;
       Webhooks.req_signature := signature;
       Webhooks.req_body := Webhooks.req_body req;
       Webhooks.req_payload := Webhooks.req_payload req |} s
  = Webhooks.post_shopify now req s.
Proof. reflexivity. Qed.

(** C1, at the failing input: the empty signature is not the signature
    computed over the body under any secret, and the delivery is answered
    with 200, but the customer row 123 of the tenant, absent before, is
    stored. *)
Theorem webhook_bad_signature_is_applied `{Builtins} (secret : string) (now : Z) :
  Webhooks.req_signature Inputs.forgedRequest
  <> "sha256=" +:+ hmac_sha256_base64 secret (Webhooks.req_body Inputs.forgedRequest)
  /\ Db.customers Inputs.store0 !! ("tenant-a", "123") = None
  /\ Webhooks.status (snd (Webhooks.post_shopify now Inputs.forgedRequest Inputs.store0))
     = 200
  /\ Db.c_email
       <$> Db.customers (fst (Webhooks.post_shopify now Inputs.forgedRequest Inputs.store0))
           !! ("tenant-a", "123")
     = Some (JStr "ada@example.com").
Proof.
  split; [cbn; discriminate|].
  vm_compute. repeat split; reflexivity.
Qed.

(** ** Reconciliation on the two paths *)

(** For customers and for products the webhook handler and the body of the
    pull loop are the same reconciliation. *)
Lemma customer_paths_agree `{Builtins} (tenantId : string) (now : Z) (payload : jsval) :
  Webhooks.handleCustomerWebhook tenantId now payload
  = ShopifyService.syncCustomer tenantId now payload.
Proof. reflexivity. Qed.

Lemma product_paths_agree `{Builtins} (tenantId : string) (now : Z) (payload : jsval) :
  Webhooks.handleProductWebhook tenantId now payload
  = ShopifyService.syncProduct tenantId now payload.
Proof. reflexivity. Qed.


(** C2, at the failing input: the same order payload, reconciled into the
    same store by the pull path and by the push path, leaves different
    stores.  The pull path writes the embedded customer 7, links the order
    to it and stores the line item; the push path writes no customer,
    stores the order as a guest order and stores no line item. *)
Theorem order_push_pull_diverge `{Builtins} (now : Z) :
  let order := Inputs.order9001 [Inputs.itemA] in
  let pull := fst (ShopifyService.syncOrder "tenant-a" now order Inputs.store0) in
  let push := fst (Webhooks.handleOrderWebhook "tenant-a" now order Inputs.store0) in
  Db.c_id <$> Db.customers pull !! ("tenant-a", "7") = Some 1%N
  /\ Db.customers push !! ("tenant-a", "7") = None
  /\ Db.o_customerId <$> Db.orders pull !! ("tenant-a", "9001") = Some (Some 1%N)
  /\ Db.o_customerId <$> Db.orders push !! ("tenant-a", "9001") = Some None
  /\ map Db.li_title (Db.orderLineItems pull) = [JStr "A"]
  /\ Db.orderLineItems push = []
  /\ pull <> push.
Proof.
  cbv zeta.
  assert (Db.orderLineItems
            (fst (Webhooks.handleOrderWebhook "tenant-a" now
                    (Inputs.order9001 [Inputs.itemA]) Inputs.store0)) = []) as Hpush
    by (vm_compute; reflexivity).
  assert (map Db.li_title
            (Db.orderLineItems
               (fst (ShopifyService.syncOrder "tenant-a" now
                       (Inputs.order9001 [Inputs.itemA]) Inputs.store0))) = [JStr "A"])
    as Hpull by (vm_compute; reflexivity).
  repeat split; try (vm_compute; reflexivity); try assumption.
  intros Heq. rewrite Heq, Hpush in Hpull. discriminate Hpull.
Qed.

(** On a re-delivery the push path keeps the stale line items that the
    pull path replaces. *)
Lemma order_push_keeps_stale_line_items `{Builtins} (now : Z) :
  let first := Inputs.order9001 [Inputs.itemA; Inputs.itemB] in
  let second := Inputs.order9001 [Inputs.itemC] in
  let synced := fst (ShopifyService.syncOrder "tenant-a" now first Inputs.store0) in
  map Db.li_title
    (Db.orderLineItems (fst (Webhooks.handleOrderWebhook "tenant-a" now second synced)))
  = [JStr "A"; JStr "B"]
  /\ map Db.li_title
       (Db.orderLineItems (fst (ShopifyService.syncOrder "tenant-a" now second synced)))
     = [JStr "C"].
Proof. vm_compute. split; reflexivity. Qed.

(** ** Line items of an order (pull path) *)

Section LineItems.
Import Db ShopifyService.
Context `{Builtins}.

Lemma filter_out_then_in (orderId : N) (l : list OrderLineItem) :
  filter (fun li => li_orderId li = orderId)
         (filter (fun li => li_orderId li <> orderId) l) = [].
Proof.
  induction l as [|li l IH]; [reflexivity|].
  destruct (decide (li_orderId li = orderId)) as [Heq|Hne].
  - rewrite (filter_cons_False _ li l); [exact IH | by intros Hn].
  - rewrite (filter_cons_True _ li l) by exact Hne.
    rewrite filter_cons_False by exact Hne. exact IH.
Qed.

Lemma filter_all {A : Type} (P : A -> Prop) `{forall x, Decision (P x)} (l : list A) :
  Forall P l -> filter P l = l.
Proof.
  induction 1 as [|x l Hx _ IH]; [reflexivity|].
  rewrite filter_cons_True by exact Hx. by rewrite IH.
Qed.

(** The loop over the line items of the payload appends one row per
    item, in order, and touches no other table. *)
Lemma for_of_createLineItem (orderId : N) (items : list jsval) :
  Forall (fun item => Js.nullish item = false) items ->
  forall (count : Z) (s : Store),
  exists s' rows,
    for_of (createLineItem orderId) items count s
    = (s', Ok (count + Z.of_nat (length items)))
    /\ orders s' = orders s
    /\ orderLineItems s' = orderLineItems s ++ rows
    /\ Forall2 (fun row item => row = lineItem_data orderId item (li_id row)) rows items.
Proof.
  induction 1 as [|item items Hitem _ IH]; intros count s.
  - exists s, []. cbn. rewrite Z.add_0_r, app_nil_r. repeat split. constructor.
  - cbn [for_of]. unfold bind at 1. unfold createLineItem at 1.
    unfold bind at 1, deref at 1. rewrite Hitem.
    unfold ret at 1. unfold bind at 1, orderLineItem_create at 1. unfold ret at 1.
    destruct (IH (count + 1)
                (bump (with_orderLineItems
                         (orderLineItems s ++ [lineItem_data orderId item (nextId s)]) s)))
      as (s' & rows & Hrun & Horders & Hitems & Hrows).
    exists s', (lineItem_data orderId item (nextId s) :: rows).
    rewrite Hrun. split; [f_equal; f_equal; cbn [length]; lia|].
    split; [exact Horders|].
    split; [rewrite Hitems; cbn; by rewrite <- app_assoc|].
    constructor; [reflexivity | exact Hrows].
Qed.

(** The block that resolves the embedded customer writes neither orders
    nor line items. *)
Lemma embedded_customer_frame (tenantId : string) (now : Z) (order : jsval) (s : Store) :
  exists s1 customerId,
    (if Js.truthy (Js.qget "id" (Js.get "customer" order)) then
       await upsertedCustomer <-
         customer_upsert
           (tenantId, Js.String_ (Js.get "id" (Js.get "customer" order)))
           (embedded_customer_update_data now (Js.get "customer" order))
           (embedded_customer_create_data tenantId now (Js.get "customer" order));
       ret (Some (c_id upsertedCustomer))
     else ret None) s = (s1, Ok customerId)
    /\ orders s1 = orders s
    /\ orderLineItems s1 = orderLineItems s.
Proof.
  destruct (Js.truthy _).
  - unfold bind, customer_upsert, ret.
    destruct (customers s !! _); eexists _, _; (split; [reflexivity|split; reflexivity]).
  - eexists _, _; (split; [reflexivity|split; reflexivity]).
Qed.

(** One pull reconciliation of an order whose payload carries the line
    items [items]: afterwards the order row is stored under its natural
    key, keeps the id it had, and its stored line items are the rows
    built from [items], one per item and in order. *)
Lemma syncOrder_lineItems (tenantId : string) (now : Z) (order : jsval)
    (items : list jsval) (s : Store) :
  Js.nullish order = false ->
  Js.get "line_items" order = JArr items ->
  Forall (fun item => Js.nullish item = false) items ->
  exists s' row,
    syncOrder tenantId now order s = (s', Ok tt)
    /\ orders s' !! (tenantId, Js.String_ (Js.get "id" order)) = Some row
    /\ (forall old, orders s !! (tenantId, Js.String_ (Js.get "id" order)) = Some old ->
        o_id row = o_id old)
    /\ Forall2 (fun li item => li = lineItem_data (o_id row) item (li_id li))
               (order_lineItems (o_id row) s') items.
Proof.
  intros Horder Hitems Hnonnull.
  unfold syncOrder.
  unfold bind at 1, deref at 1. rewrite Horder. unfold ret at 1.
  unfold bind at 1.
  destruct (embedded_customer_frame tenantId now order s)
    as (s1 & customerId & -> & Horders1 & Hitems1).
  rewrite Hitems. cbn [Js.truthy Js.iterate].
  unfold bind at 1.
  set (key := (tenantId, Js.String_ (Js.get "id" order))).
  assert (exists s2 row,
            order_upsert key (order_update_data now order customerId)
              (order_create_data tenantId now order customerId) s1 = (s2, Ok row)
            /\ orders s2 = <[key := row]> (orders s1)
            /\ orderLineItems s2 = orderLineItems s1
            /\ (forall old, orders s1 !! key = Some old -> o_id row = o_id old))
    as (s2 & row & -> & Horders2 & Hitems2 & Hid).
  { unfold order_upsert. destruct (orders s1 !! key) as [old|] eqn:Hold.
    - eexists _, _. repeat split. by intros ? [= <-].
    - eexists _, _. repeat split. intros ? [=]. }
  unfold bind at 1, orderLineItem_deleteMany at 1, write at 1.
  unfold bind at 1, lift at 1.
  unfold bind at 1.
  set (s3 := with_orderLineItems _ s2).
  destruct (for_of_createLineItem (o_id row) items Hnonnull 0 s3)
    as (s4 & rows & -> & Horders4 & Hitems4 & Hrows).
  exists s4, row. split; [reflexivity|].
  split; [rewrite Horders4; subst s3; cbn; rewrite Horders2; apply lookup_insert_eq|].
  split; [intros old Hold; apply Hid; by rewrite Horders1|].
  unfold order_lineItems. rewrite Hitems4. subst s3.
  cbn [orderLineItems with_orderLineItems].
  rewrite filter_app, filter_out_then_in. cbn [app].
  rewrite filter_all; [exact Hrows|].
  clear -Hrows. induction Hrows as [|li item rows items Hli _ IH]; constructor.
  - rewrite Hli. reflexivity.
  - exact IH.
Qed.

End LineItems.

(** On the pull path an order reconciled with the line items [AB] and
    then reconciled again with the line items [C] has exactly the line
    items of [C]: both runs succeed, the order keeps its row, and the rows
    stored for it after the second run are one per item of [C], in order,
    each holding the id, title, quantity, price, SKU, product and variant
    of its item; none of the rows of [AB] is left. *)
Lemma lineItems_replaced_on_resync `{Builtins} (tenantId : string) (now1 now2 : Z)
    (first second : jsval) (AB C : list jsval) (s : Db.Store) :
  Js.nullish first = false ->
  Js.nullish second = false ->
  Js.String_ (Js.get "id" second) = Js.String_ (Js.get "id" first) ->
  Js.get "line_items" first = JArr AB ->
  Js.get "line_items" second = JArr C ->
  Forall (fun item => Js.nullish item = false) AB ->
  Forall (fun item => Js.nullish item = false) C ->
  exists s1 s2 row1 row2,
    ShopifyService.syncOrder tenantId now1 first s = (s1, Ok tt)
    /\ ShopifyService.syncOrder tenantId now2 second s1 = (s2, Ok tt)
    /\ Db.orders s1 !! (tenantId, Js.String_ (Js.get "id" first)) = Some row1
    /\ Db.orders s2 !! (tenantId, Js.String_ (Js.get "id" first)) = Some row2
    /\ Db.o_id row2 = Db.o_id row1
    /\ Forall2 (fun li item =>
                  Db.li_orderId li = Db.o_id row2
                  /\ Db.li_shopifyId li = Js.String_ (Js.get "id" item)
                  /\ Db.li_title li = Db.created (Js.get "title" item)
                  /\ Db.li_quantity li = Db.created (Js.get "quantity" item)
                  /\ Db.li_price li
                     = parseFloat (Js.String_ (Js.or (Js.get "price" item) (JStr "0")))
                  /\ Db.li_sku li = Db.created (Js.get "sku" item)
                  /\ Db.li_productId li
                     = Db.created (Js.qtoString (Js.get "product_id" item))
                  /\ Db.li_variantId li
                     = Db.created (Js.qtoString (Js.get "variant_id" item)))
               (Db.order_lineItems (Db.o_id row2) s2) C.
Proof.
  intros Hfirst Hsecond Hid HAB HC HnAB HnC.
  destruct (syncOrder_lineItems tenantId now1 first AB s Hfirst HAB HnAB)
    as (s1 & row1 & Hrun1 & Hrow1 & _ & Hitems1).
  destruct (syncOrder_lineItems tenantId now2 second C s1 Hsecond HC HnC)
    as (s2 & row2 & Hrun2 & Hrow2 & Hkeep & Hitems2).
  rewrite Hid in Hrow2, Hkeep.
  exists s1, s2, row1, row2. split_and!; try assumption; [by apply Hkeep|].
  eapply Forall2_impl; [exact Hitems2|]. intros li item ->. by split_and!.
Qed.

(** C4, at the failing input: order 9001 is pulled with the line items
    [A; B] and then reconciled again with the line item [C].  When the
    second reconciliation is a pull, the stored line items are exactly the
    row of [C].  When it is a webhook delivery of the same payload, the
    delivery is acknowledged and the stored line items are still the two
    rows of [A; B]: the stale line items survive and [C] is not stored. *)
Theorem lineItems_survive_webhook_resync `{Builtins} (now1 now2 : Z) :
  let synced :=
    fst (ShopifyService.syncOrder "tenant-a" now1
           (Inputs.order9001 [Inputs.itemA; Inputs.itemB]) Inputs.store0) in
  let pulled :=
    fst (ShopifyService.syncOrder "tenant-a" now2 (Inputs.order9001 [Inputs.itemC])
           synced) in
  let pushed := Webhooks.post_shopify now2 Scenario.orderUpdate synced in
  Db.orderLineItems synced
  = [Scenario.lineItemRow 3 "1" 2 "A" 1 "5.00"; Scenario.lineItemRow 4 "2" 2 "B" 2 "7.50"]
  /\ Db.orderLineItems pulled = [Scenario.lineItemRow 5 "3" 2 "C" 1 "9.00"]
  /\ Webhooks.status (snd pushed) = 200
  /\ Db.orderLineItems (fst pushed)
     = [Scenario.lineItemRow 3 "1" 2 "A" 1 "5.00"; Scenario.lineItemRow 4 "2" 2 "B" 2 "7.50"]
  /\ Db.orderLineItems (fst pushed) <> Db.orderLineItems pulled.
Proof.
  cbv zeta.
  assert (Db.orderLineItems
            (fst (Webhooks.post_shopify now2 Scenario.orderUpdate
                    (fst (ShopifyService.syncOrder "tenant-a" now1
                            (Inputs.order9001 [Inputs.itemA; Inputs.itemB])
                            Inputs.store0))))
          = [Scenario.lineItemRow 3 "1" 2 "A" 1 "5.00";
             Scenario.lineItemRow 4 "2" 2 "B" 2 "7.50"]) as Hpushed
    by (vm_compute; reflexivity).
  assert (Db.orderLineItems
            (fst (ShopifyService.syncOrder "tenant-a" now2
                    (Inputs.order9001 [Inputs.itemC])
                    (fst (ShopifyService.syncOrder "tenant-a" now1
                            (Inputs.order9001 [Inputs.itemA; Inputs.itemB])
                            Inputs.store0))))
          = [Scenario.lineItemRow 5 "3" 2 "C" 1 "9.00"]) as Hpulled
    by (vm_compute; reflexivity).
  split_and!; try (vm_compute; reflexivity); try assumption.
  rewrite Hpushed, Hpulled. discriminate.
Qed.

(** The instance of the specification, evaluated: after [A; B] then [C]
    the table holds the one row of [C]. *)
Example lineItems_AB_then_C :
  let s1 := fst (@ShopifyService.syncOrder Inputs.node "tenant-a" 10
                   (Inputs.order9001 [Inputs.itemA; Inputs.itemB]) Inputs.store0) in
  let s2 := fst (@ShopifyService.syncOrder Inputs.node "tenant-a" 20
                   (Inputs.order9001 [Inputs.itemC]) s1) in
  map (fun li => (Db.li_shopifyId li, Db.li_title li, Db.li_price li)) (Db.orderLineItems s1)
  = [("1", JStr "A", 5%float); ("2", JStr "B", 7.5%float)]
  /\ map (fun li => (Db.li_shopifyId li, Db.li_title li, Db.li_price li))
       (Db.orderLineItems s2)
     = [("3", JStr "C", 9%float)].
Proof. vm_compute. split; reflexivity. Qed.

(** ** Tenant isolation *)

Section Isolation.
Import Db ShopifyService.
Context `{Builtins}.

(** A query with [where: { tenantId }] returns exactly the stored rows
    of that tenant. *)
Lemma customer_findMany_spec (tenantId : string) (s : Store) (c : Customer) :
  c ∈ customer_findMany tenantId s
  <-> c_tenantId c = tenantId /\ exists key, customers s !! key = Some c.
Proof.
  unfold customer_findMany.
  rewrite list_elem_of_filter, list_elem_of_fmap.
  split.
  - intros [Ht [[key c'] [-> Hin]]]. apply elem_of_map_to_list in Hin. eauto.
  - intros [Ht [key Hkey]]. split; [exact Ht|].
    exists (key, c). split; [reflexivity|]. by apply elem_of_map_to_list.
Qed.

Lemma order_findMany_scoped (tenantId : string) (s : Store) (o : Order) :
  o ∈ order_findMany tenantId s -> o_tenantId o = tenantId.
Proof. unfold order_findMany. rewrite list_elem_of_filter. by intros [? _]. Qed.

Lemma product_findMany_scoped (tenantId : string) (s : Store) (p : Product) :
  p ∈ product_findMany tenantId s -> p_tenantId p = tenantId.
Proof. unfold product_findMany. rewrite list_elem_of_filter. by intros [? _]. Qed.

(** The RFM handler counts the customers of the tenant of the request
    and no others. *)
Lemma rfmSegments_totalCustomers (tenantId : string) (now : Z) (s : Store) :
  Rfm.totalCustomers (Rfm.rfmSegments tenantId now s)
  = Z.of_nat (length (customer_findMany tenantId s)).
Proof. reflexivity. Qed.

(** Reconciling one customer writes the row under the natural key
    (tenant, external id), leaves every other key alone and keeps the
    table keyed. *)
Lemma syncCustomer_row (tenantId : string) (now : Z) (customer : jsval) (s : Store) :
  Js.nullish customer = false ->
  customers_keyed s ->
  exists s' row,
    syncCustomer tenantId now customer s = (s', Ok tt)
    /\ customers s'
       = <[(tenantId, Js.String_ (Js.get "id" customer)) := row]> (customers s)
    /\ c_tenantId row = tenantId
    /\ c_shopifyId row = Js.String_ (Js.get "id" customer)
    /\ customers_keyed s'.
Proof.
  intros Hcustomer Hkeyed.
  unfold syncCustomer, bind, deref. rewrite Hcustomer.
  unfold ret at 1. unfold customer_upsert.
  set (key := (tenantId, Js.String_ (Js.get "id" customer))).
  assert (forall (s0 : Store) (row : Customer),
            customers s0 = <[key := row]> (customers s) ->
            c_tenantId row = tenantId ->
            c_shopifyId row = Js.String_ (Js.get "id" customer) ->
            customers_keyed s0) as Hkeep.
  { intros s0 row Hs0 Ht Hid key' c. rewrite Hs0, lookup_insert.
    case_decide as Hk.
    - intros [= <-]. by rewrite <- Hk, Ht, Hid.
    - apply Hkeyed. }
  destruct (customers s !! key) as [old|] eqn:Hold.
  - apply Hkeyed in Hold as [= Ht Hid].
    eexists _, _. split; [reflexivity|]. split; [reflexivity|].
    split; [by symmetry|]. split; [by symmetry|].
    eapply Hkeep; [reflexivity| |]; by symmetry.
  - eexists _, _. split; [reflexivity|]. split; [reflexivity|].
    split; [reflexivity|]. split; [reflexivity|].
    eapply Hkeep; reflexivity.
Qed.

End Isolation.

(** C5: two distinct tenants each reconcile a customer with the same
    external id into a keyed store.  Both rows are stored, under the keys
    (tenant, external id); they are two distinct rows; the query scoped to
    one tenant returns its own row and not the other tenant's; and every
    row that a tenant-scoped customer query returns belongs to the tenant
    asked for. *)
Theorem tenant_isolation `{Builtins} (tenantA tenantB : string) (now : Z)
    (customerA customerB : jsval) (s : Db.Store) :
  tenantA <> tenantB ->
  Db.customers_keyed s ->
  Js.nullish customerA = false ->
  Js.nullish customerB = false ->
  Js.String_ (Js.get "id" customerB) = Js.String_ (Js.get "id" customerA) ->
  exists s1 s2 rowA rowB,
    ShopifyService.syncCustomer tenantA now customerA s = (s1, Ok tt)
    /\ ShopifyService.syncCustomer tenantB now customerB s1 = (s2, Ok tt)
    /\ Db.customers s2 !! (tenantA, Js.String_ (Js.get "id" customerA)) = Some rowA
    /\ Db.customers s2 !! (tenantB, Js.String_ (Js.get "id" customerA)) = Some rowB
    /\ rowA <> rowB
    /\ (rowA ∈ Db.customer_findMany tenantA s2)
    /\ (rowB ∉ Db.customer_findMany tenantA s2)
    /\ (rowB ∈ Db.customer_findMany tenantB s2)
    /\ (rowA ∉ Db.customer_findMany tenantB s2)
    /\ (forall tenantId c,
          c ∈ Db.customer_findMany tenantId s2 -> Db.c_tenantId c = tenantId).
Proof.
  intros Hne Hkeyed HA HB Hid.
  destruct (syncCustomer_row tenantA now customerA s HA Hkeyed)
    as (s1 & rowA & Hrun1 & Hs1 & HtA & _ & Hkeyed1).
  destruct (syncCustomer_row tenantB now customerB s1 HB Hkeyed1)
    as (s2 & rowB & Hrun2 & Hs2 & HtB & _ & _).
  rewrite Hid in Hs2.
  assert (Db.customers s2 !! (tenantA, Js.String_ (Js.get "id" customerA)) = Some rowA)
    as HrowA.
  { rewrite Hs2, lookup_insert_ne by (intros [= ?]; by apply Hne).
    rewrite Hs1. apply lookup_insert_eq. }
  assert (Db.customers s2 !! (tenantB, Js.String_ (Js.get "id" customerA)) = Some rowB)
    as HrowB by (rewrite Hs2; apply lookup_insert_eq).
  exists s1, s2, rowA, rowB.
  split; [exact Hrun1|]. split; [exact Hrun2|].
  split; [exact HrowA|]. split; [exact HrowB|].
  split; [intros Heq; apply Hne; by rewrite <- HtA, <- HtB, Heq|].
  rewrite !customer_findMany_spec.
  split; [eauto|].
  split; [intros [Ht _]; apply Hne; by rewrite <- HtB, Ht|].
  split; [eauto|].
  split; [intros [Ht _]; apply Hne; by rewrite <- HtA, Ht|].
  intros tenantId c Hc. by apply customer_findMany_spec in Hc as [? _].
Qed.

Lemma tenant_isolation_witness :
  exists s1 s2 rowA rowB,
    @ShopifyService.syncCustomer Inputs.node "tenant-a" 10 Inputs.customer123 Inputs.store0
    = (s1, Ok tt)
    /\ @ShopifyService.syncCustomer Inputs.node "tenant-b" 10 Inputs.customer123 s1
       = (s2, Ok tt)
    /\ Db.customers s2 !! ("tenant-a", "123") = Some rowA
    /\ Db.customers s2 !! ("tenant-b", "123") = Some rowB
    /\ rowA <> rowB
    /\ (rowA ∈ Db.customer_findMany "tenant-a" s2)
    /\ (rowB ∉ Db.customer_findMany "tenant-a" s2)
    /\ (rowB ∈ Db.customer_findMany "tenant-b" s2)
    /\ (rowA ∉ Db.customer_findMany "tenant-b" s2)
    /\ (forall tenantId c,
          c ∈ Db.customer_findMany tenantId s2 -> Db.c_tenantId c = tenantId).
Proof.
  apply (@tenant_isolation Inputs.node "tenant-a" "tenant-b" 10
           Inputs.customer123 Inputs.customer123 Inputs.store0).
  - discriminate.
  - intros key c Hc. vm_compute in Hc. discriminate Hc.
  - reflexivity.
  - reflexivity.
  - reflexivity.
Defined.

(** The two tenants of the specification, evaluated: external id 123 is
    stored once per tenant and each tenant's query returns its row only. *)
Example tenant_isolation_123 :
  let s1 := fst (@ShopifyService.syncCustomer Inputs.node "tenant-a" 10
                   Inputs.customer123 Inputs.store0) in
  let s2 := fst (@ShopifyService.syncCustomer Inputs.node "tenant-b" 10
                   Inputs.customer123 s1) in
  map (fun c => (Db.c_id c, Db.c_tenantId c, Db.c_shopifyId c))
      (Db.customer_findMany "tenant-a" s2) = [(1%N, "tenant-a", "123")]
  /\ map (fun c => (Db.c_id c, Db.c_tenantId c, Db.c_shopifyId c))
       (Db.customer_findMany "tenant-b" s2) = [(2%N, "tenant-b", "123")].
Proof. vm_compute. split; reflexivity. Qed.

(** ** The natural-key invariant *)

Section Keyed.
Import Db ShopifyService.
Context `{Builtins}.

Lemma preserves_ret {A : Type} (I : Store -> Prop) (a : A) : preserves I (ret a).
Proof. intros s Hs. exact Hs. Qed.

Lemma preserves_throw {A : Type} (I : Store -> Prop) (message : string) :
  preserves I (@throw A message).
Proof. intros s Hs. exact Hs. Qed.

Lemma preserves_lift {A : Type} (I : Store -> Prop) (r : Result A) : preserves I (lift r).
Proof. intros s Hs. exact Hs. Qed.

Lemma preserves_read {A : Type} (I : Store -> Prop) (f : Store -> A) : preserves I (read f).
Proof. intros s Hs. exact Hs. Qed.

Lemma preserves_bind {A B : Type} (I : Store -> Prop) (m : M A) (k : A -> M B) :
  preserves I m -> (forall a, preserves I (k a)) -> preserves I (bind m k).
Proof.
  intros Hm Hk s Hs. unfold bind. specialize (Hm s Hs).
  destruct (m s) as [s' [a|e]]; cbn in *; [by apply Hk | exact Hm].
Qed.

Lemma preserves_try_catch {A : Type} (I : Store -> Prop) (m : M A)
    (handler : string -> M A) :
  preserves I m -> (forall e, preserves I (handler e)) -> preserves I (try_catch m handler).
Proof.
  intros Hm Hh s Hs. unfold try_catch. specialize (Hm s Hs).
  destruct (m s) as [s' [a|e]]; cbn in *; [exact Hm | by apply Hh].
Qed.

Lemma preserves_for_of (I : Store -> Prop) (body : jsval -> M unit) (xs : list jsval) :
  (forall x, preserves I (body x)) -> forall count, preserves I (for_of body xs count).
Proof.
  intros Hbody. induction xs as [|x xs IH]; intros count; cbn [for_of].
  - apply preserves_ret.
  - apply preserves_bind; [apply Hbody | intros _; apply IH].
Qed.

Lemma preserves_deref (I : Store -> Prop) (property : string) (v : jsval) :
  preserves I (deref property v).
Proof. unfold deref. destruct (Js.nullish v); intros s Hs; exact Hs. Qed.

(** A customer upsert whose [create] data carry the key of the [where]
    clause and whose [update] data leave the key columns alone. *)
Lemma customer_upsert_keyed (tenantId shopifyId : string)
    (update : Customer -> Customer) (create : N -> Customer) :
  (forall row, c_tenantId (update row) = c_tenantId row
               /\ c_shopifyId (update row) = c_shopifyId row) ->
  (forall id, c_tenantId (create id) = tenantId /\ c_shopifyId (create id) = shopifyId) ->
  preserves keyed (customer_upsert (tenantId, shopifyId) update create).
Proof.
  intros Hupdate Hcreate s (Hc & Ho & Hp). unfold customer_upsert.
  destruct (customers s !! (tenantId, shopifyId)) as [old|] eqn:Hold; cbn;
    (split; [|split; assumption]); intros key c; cbn; rewrite lookup_insert;
    case_decide as Hkey; try apply Hc; intros [= <-]; subst key.
  - destruct (Hupdate old) as [-> ->]. by apply Hc.
  - by destruct (Hcreate (nextId s)) as [-> ->].
Qed.

Lemma order_upsert_keyed (tenantId shopifyId : string)
    (update : Order -> Order) (create : N -> Order) :
  (forall row, o_tenantId (update row) = o_tenantId row
               /\ o_shopifyId (update row) = o_shopifyId row) ->
  (forall id, o_tenantId (create id) = tenantId /\ o_shopifyId (create id) = shopifyId) ->
  preserves keyed (order_upsert (tenantId, shopifyId) update create).
Proof.
  intros Hupdate Hcreate s (Hc & Ho & Hp). unfold order_upsert.
  destruct (orders s !! (tenantId, shopifyId)) as [old|] eqn:Hold; cbn;
    (split; [assumption|split; [|assumption]]); intros key o; cbn; rewrite lookup_insert;
    case_decide as Hkey; try apply Ho; intros [= <-]; subst key.
  - destruct (Hupdate old) as [-> ->]. by apply Ho.
  - by destruct (Hcreate (nextId s)) as [-> ->].
Qed.

Lemma product_upsert_keyed (tenantId shopifyId : string)
    (update : Product -> Product) (create : N -> Product) :
  (forall row, p_tenantId (update row) = p_tenantId row
               /\ p_shopifyId (update row) = p_shopifyId row) ->
  (forall id, p_tenantId (create id) = tenantId /\ p_shopifyId (create id) = shopifyId) ->
  preserves keyed (product_upsert (tenantId, shopifyId) update create).
Proof.
  intros Hupdate Hcreate s (Hc & Ho & Hp). unfold product_upsert.
  destruct (products s !! (tenantId, shopifyId)) as [old|] eqn:Hold; cbn;
    (split; [assumption|split; [assumption|]]); intros key p; cbn; rewrite lookup_insert;
    case_decide as Hkey; try apply Hp; intros [= <-]; subst key.
  - destruct (Hupdate old) as [-> ->]. by apply Hp.
  - by destruct (Hcreate (nextId s)) as [-> ->].
Qed.

(** The calls on the tables without a natural key. *)
Lemma orderLineItem_deleteMany_keyed (orderId : N) :
  preserves keyed (orderLineItem_deleteMany orderId).
Proof. intros s Hs. exact Hs. Qed.

Lemma orderLineItem_create_keyed (data : N -> OrderLineItem) :
  preserves keyed (orderLineItem_create data).
Proof. intros s Hs. exact Hs. Qed.

Lemma event_create_keyed (data : N -> Event) : preserves keyed (event_create data).
Proof. intros s Hs. exact Hs. Qed.

Lemma syncLog_create_keyed (data : N -> SyncLog) : preserves keyed (syncLog_create data).
Proof. intros s Hs. exact Hs. Qed.

Lemma syncLog_update_keyed (id : N) (data : SyncLog -> SyncLog) :
  preserves keyed (syncLog_update id data).
Proof. intros s Hs. unfold syncLog_update. destruct (existsb _ _); exact Hs. Qed.

Lemma tenant_findUnique_keyed (id : string) : preserves keyed (tenant_findUnique id).
Proof. intros s Hs. exact Hs. Qed.

Lemma customer_findUnique_keyed (key : NaturalKey) :
  preserves keyed (customer_findUnique key).
Proof. intros s Hs. exact Hs. Qed.

Lemma tenant_update_lastSyncAt_keyed (id : string) (now : Z) :
  preserves keyed (tenant_update_lastSyncAt id now).
Proof. intros s Hs. unfold tenant_update_lastSyncAt. destruct (tenants s !! id); exact Hs. Qed.

End Keyed.

Create HintDb keyed.

#[export] Hint Resolve preserves_ret preserves_throw preserves_lift preserves_read
  preserves_deref orderLineItem_deleteMany_keyed orderLineItem_create_keyed
  event_create_keyed syncLog_create_keyed syncLog_update_keyed
  tenant_update_lastSyncAt_keyed tenant_findUnique_keyed customer_findUnique_keyed
  : keyed.

(** Steps through a sequence of awaited calls. *)
Ltac keyed_step :=
  first
    [ apply preserves_bind; [|intros ?]
    | apply preserves_try_catch; [|intros ?]
    | apply preserves_for_of; intros ?
    | apply customer_upsert_keyed; intros ?; split; reflexivity
    | apply order_upsert_keyed; intros ?; split; reflexivity
    | apply product_upsert_keyed; intros ?; split; reflexivity
    | solve [auto with keyed]
    | match goal with |- Db.preserves _ (if ?c then _ else _) => destruct c end
    | match goal with |- Db.preserves _ (match ?c with _ => _ end) => destruct c end ].

Ltac keyed_steps := repeat keyed_step.

Section KeyedOperations.
Import Db ShopifyService.
Context `{Builtins}.
Variables (api : ShopifyApi) (now : Z).

Lemma syncCustomer_keyed (tenantId : string) (customer : jsval) :
  preserves keyed (syncCustomer tenantId now customer).
Proof. unfold syncCustomer. keyed_steps. Qed.

Lemma syncOrder_keyed (tenantId : string) (order : jsval) :
  preserves keyed (syncOrder tenantId now order).
Proof. unfold syncOrder, createLineItem. keyed_steps. Qed.

Lemma syncProduct_keyed (tenantId : string) (product : jsval) :
  preserves keyed (syncProduct tenantId now product).
Proof. unfold syncProduct. keyed_steps. Qed.

Lemma syncType_keyed (tenantId : string) (config : ShopifyConfig) (type : SyncType) :
  preserves keyed (syncType api now tenantId config type).
Proof.
  unfold syncType, syncCustomers, syncOrders, syncProducts, shopifyRequest.
  keyed_steps; auto using syncCustomer_keyed, syncOrder_keyed, syncProduct_keyed.
Qed.

Lemma syncTypes_keyed (tenantId : string) (config : ShopifyConfig) (types : list SyncType) :
  preserves keyed (syncTypes api now tenantId config types).
Proof.
  induction types as [|type types IH]; cbn [syncTypes].
  - apply preserves_ret.
  - apply preserves_bind; [apply syncType_keyed | intros _; exact IH].
Qed.

Lemma syncTenantData_keyed (tenantId : string) (types : list SyncType) :
  preserves keyed (syncTenantData api now tenantId types).
Proof. unfold syncTenantData. keyed_steps. apply syncTypes_keyed. Qed.

Lemma sweep_keyed (ts : list Tenant) : preserves keyed (sweep api now ts).
Proof.
  induction ts as [|t ts IH]; cbn [sweep].
  - apply preserves_ret.
  - apply preserves_bind; [|intros _; exact IH].
    apply preserves_try_catch; [apply syncTenantData_keyed | intros _; apply preserves_ret].
Qed.

Lemma syncAllTenants_keyed : preserves keyed (syncAllTenants api now).
Proof.
  unfold syncAllTenants. apply preserves_bind; [apply preserves_read|].
  intros ts. apply sweep_keyed.
Qed.

Lemma dispatch_keyed (tenantId topic : string) (payload : jsval) :
  preserves keyed (Webhooks.dispatch tenantId now topic payload).
Proof.
  unfold Webhooks.dispatch, Webhooks.handleCustomerWebhook, Webhooks.handleOrderWebhook,
    Webhooks.handleProductWebhook, Webhooks.handleCartEvent.
  keyed_steps.
Qed.

End KeyedOperations.

(** The invariant behind tenant isolation: the empty store is keyed, and
    the scheduled sweep, a manual sync run and a webhook delivery each
    leave a keyed store keyed, whatever the external API or the payload
    holds and whether or not the run throws. *)
Theorem keyed_invariant `{Builtins} (api : ShopifyService.ShopifyApi) (now : Z) :
  Db.keyed Db.empty
  /\ (forall s, Db.keyed s -> Db.keyed (fst (ShopifyService.syncAllTenants api now s)))
  /\ (forall tenantId type s,
        Db.keyed s -> Db.keyed (fst (ShopifyRoutes.post_sync api now tenantId type s)))
  /\ (forall req s, Db.keyed s -> Db.keyed (fst (Webhooks.post_shopify now req s))).
Proof.
  split; [repeat split; intros key row Hrow; cbn in Hrow; by rewrite lookup_empty in Hrow|].
  split; [apply syncAllTenants_keyed|].
  split.
  - intros tenantId type s Hs. unfold ShopifyRoutes.post_sync.
    destruct (Db.tenants s !! tenantId) as [tenant|]; [|exact Hs].
    destruct (ShopifyService.connected tenant); [|exact Hs].
    cbn [fst]. by apply syncTenantData_keyed.
  - intros req s Hs. unfold Webhooks.post_shopify.
    assert (Db.preserves Db.keyed (Webhooks.receive now req)) as Hreceive
      by (unfold Webhooks.receive; keyed_steps; apply dispatch_keyed).
    specialize (Hreceive s Hs).
    destruct (Webhooks.receive now req s) as [s' [response|e]]; exact Hreceive.
Qed.

(** ** Orders reference customers of their own tenant *)

Section Linked.
Import Db ShopifyService.
Context `{Builtins}.

Lemma triple_ret {A : Type} (P : Store -> Prop) (a : A) (Q : A -> Store -> Prop) :
  (forall s, P s -> Q a s) -> triple P (ret a) Q.
Proof. intros HQ s Hs. by apply HQ. Qed.

Lemma triple_throw {A : Type} (P : Store -> Prop) (message : string)
    (Q : A -> Store -> Prop) :
  (forall s, P s -> linked s) -> triple P (throw message) Q.
Proof. intros HP s Hs. by apply HP. Qed.

Lemma triple_bind {A B : Type} (P : Store -> Prop) (m : M A) (R : A -> Store -> Prop)
    (k : A -> M B) (Q : B -> Store -> Prop) :
  triple P m R -> (forall a, triple (R a) (k a) Q) -> triple P (bind m k) Q.
Proof.
  intros Hm Hk s Hs. unfold bind. specialize (Hm s Hs).
  destruct (m s) as [s' [a|e]]; [by apply Hk | exact Hm].
Qed.

Lemma triple_weaken {A : Type} (P P' : Store -> Prop) (m : M A) (Q Q' : A -> Store -> Prop) :
  triple P' m Q' -> (forall s, P s -> P' s) -> (forall a s, Q' a s -> Q a s) ->
  triple P m Q.
Proof.
  intros Hm HP HQ s Hs. specialize (Hm s (HP s Hs)).
  destruct (m s) as [s' [a|e]]; [by apply HQ | exact Hm].
Qed.

Lemma triple_try_catch {A : Type} (P : Store -> Prop) (m : M A)
    (handler : string -> M A) (Q : A -> Store -> Prop) :
  triple P m Q -> (forall e, triple linked (handler e) Q) ->
  triple P (try_catch m handler) Q.
Proof.
  intros Hm Hh s Hs. unfold try_catch. specialize (Hm s Hs).
  destruct (m s) as [s' [a|e]]; [exact Hm | by apply Hh].
Qed.

Lemma triple_for_of (body : jsval -> M unit) (xs : list jsval) :
  (forall x, triple linked (body x) (fun _ => linked)) ->
  forall count, triple linked (for_of body xs count) (fun _ => linked).
Proof.
  intros Hbody. induction xs as [|x xs IH]; intros count; cbn [for_of].
  - by apply triple_ret.
  - eapply triple_bind; [apply Hbody | intros ?; apply IH].
Qed.

(** Upserting a customer keeps the store linked and the row written is a
    customer of the tenant. *)
Lemma customer_upsert_linked (tenantId shopifyId : string)
    (update : Customer -> Customer) (create : N -> Customer) :
  (forall row, c_tenantId (update row) = c_tenantId row
               /\ c_shopifyId (update row) = c_shopifyId row) ->
  (forall row, c_id (update row) = c_id row) ->
  (forall id, c_tenantId (create id) = tenantId /\ c_shopifyId (create id) = shopifyId) ->
  (forall id, c_id (create id) = id) ->
  triple linked (customer_upsert (tenantId, shopifyId) update create)
    (fun row s => linked s /\ customer_ref tenantId (Some (c_id row)) s).
Proof.
  intros Hkeys Hid Hckeys Hcid s (Hkeyed & Hfresh & Huniq & Hrefs).
  pose proof (customer_upsert_keyed tenantId shopifyId update create Hkeys Hckeys s Hkeyed)
    as Hkeyed'.
  unfold customer_upsert in *.
  destruct (customers s !! (tenantId, shopifyId)) as [old|] eqn:Hold; cbn in *.
  - split; [split; [exact Hkeyed'|split; [|split]]|]; cbn.
    + intros key c. rewrite lookup_insert. case_decide as Hkey.
      * intros [= <-]. rewrite Hid. by apply (Hfresh _ _ Hold).
      * apply Hfresh.
    + intros key1 key2 c1 c2. rewrite !lookup_insert.
      repeat case_decide; subst; intros Hc1 Hc2 Heq.
      * reflexivity.
      * injection Hc1 as <-. rewrite Hid in Heq. by apply (Huniq _ _ _ _ Hold Hc2).
      * injection Hc2 as <-. rewrite Hid in Heq. by apply (Huniq _ _ _ _ Hc1 Hold).
      * by apply (Huniq _ _ _ _ Hc1 Hc2).
    + intros key o Ho. specialize (Hrefs key o Ho).
      destruct (o_customerId o) as [id|]; [|exact I].
      destruct Hrefs as (sid & c & Hc & Hcid').
      destruct (decide ((tenantId, shopifyId) = (o_tenantId o, sid))) as [Hk|Hk].
      * exists sid, (update old). cbn. rewrite <- Hk, lookup_insert_eq. split; [reflexivity|].
        rewrite Hid. rewrite <- Hk, Hold in Hc. by injection Hc as ->.
      * exists sid, c. cbn. by rewrite lookup_insert_ne.
    + exists shopifyId, (update old). cbn. by rewrite lookup_insert_eq.
  - split; [split; [exact Hkeyed'|split; [|split]]|]; cbn.
    + intros key c. rewrite lookup_insert. case_decide as Hkey.
      * intros [= <-]. rewrite Hcid. lia.
      * intros Hc. specialize (Hfresh _ _ Hc). lia.
    + intros key1 key2 c1 c2. rewrite !lookup_insert.
      repeat case_decide; subst; intros Hc1 Hc2 Heq.
      * reflexivity.
      * injection Hc1 as <-. rewrite Hcid in Heq. specialize (Hfresh _ _ Hc2). lia.
      * injection Hc2 as <-. rewrite Hcid in Heq. specialize (Hfresh _ _ Hc1). lia.
      * by apply (Huniq _ _ _ _ Hc1 Hc2).
    + intros key o Ho. specialize (Hrefs key o Ho).
      destruct (o_customerId o) as [id|]; [|exact I].
      destruct Hrefs as (sid & c & Hc & Hcid').
      exists sid, c. cbn. split; [|exact Hcid'].
      rewrite lookup_insert_ne; [exact Hc|]. intros Hk. by rewrite <- Hk, Hold in Hc.
    + exists shopifyId, (create (nextId s)). cbn. by rewrite lookup_insert_eq.
Qed.

(** Upserting an order whose [customerId] is NULL or names a customer of
    the tenant keeps the store linked; [update] may as well leave the
    reference of the row alone. *)
Lemma order_upsert_linked (tenantId shopifyId : string) (customerId : option N)
    (update : Order -> Order) (create : N -> Order) :
  (forall row, o_tenantId (update row) = o_tenantId row
               /\ o_shopifyId (update row) = o_shopifyId row) ->
  (forall row, o_customerId (update row) = customerId
               \/ o_customerId (update row) = o_customerId row) ->
  (forall id, o_tenantId (create id) = tenantId /\ o_shopifyId (create id) = shopifyId) ->
  (forall id, o_customerId (create id) = customerId) ->
  triple (fun s => linked s /\ customer_ref tenantId customerId s)
    (order_upsert (tenantId, shopifyId) update create)
    (fun _ => linked).
Proof.
  intros Hkeys Href Hckeys Hcref s ((Hkeyed & Hfresh & Huniq & Hrefs) & Hcustomer).
  pose proof (order_upsert_keyed tenantId shopifyId update create Hkeys Hckeys s Hkeyed)
    as Hkeyed'.
  unfold order_upsert in *.
  destruct (orders s !! (tenantId, shopifyId)) as [old|] eqn:Hold; cbn in *.
  - split; [exact Hkeyed'|]. split; [exact Hfresh|]. split; [exact Huniq|].
    cbn. intros key o. rewrite lookup_insert. case_decide as Hkey; [|apply Hrefs].
    intros [= <-]. destruct (Hkeys old) as [-> _].
    destruct Hkeyed as (_ & Hokeyed & _). apply Hokeyed in Hold as Hk. injection Hk as Ht _.
    destruct (Href old) as [-> | ->]; [by rewrite <- Ht | by apply (Hrefs _ _ Hold)].
  - split; [exact Hkeyed'|]. split; [cbn; intros key c Hc; specialize (Hfresh _ _ Hc); lia|].
    split; [exact Huniq|].
    cbn. intros key o. rewrite lookup_insert. case_decide as Hkey; [|apply Hrefs].
    intros [= <-]. destruct (Hckeys (nextId s)) as [-> _]. by rewrite Hcref.
Qed.

(** A call that leaves the customers and the orders alone and does not
    lower [nextId] keeps the store linked as long as it keeps it keyed. *)
Lemma frame_linked {A : Type} (m : M A) :
  preserves keyed m ->
  (forall s, customers (fst (m s)) = customers s
             /\ orders (fst (m s)) = orders s
             /\ (nextId s <= nextId (fst (m s)))%N) ->
  triple linked m (fun _ => linked).
Proof.
  intros Hkeyed Hframe s (Hk & Hfresh & Huniq & Hrefs).
  specialize (Hkeyed s Hk). destruct (Hframe s) as (Hc & Ho & Hn).
  assert (linked (fst (m s))) as Hlinked.
  { split; [exact Hkeyed|]. rewrite Hc, Ho. split; [|split; [exact Huniq|]].
    - intros key c Hkc. specialize (Hfresh _ _ Hkc). lia.
    - intros key o Hko. specialize (Hrefs _ _ Hko).
      unfold customer_ref in *. by rewrite Hc. }
  destruct (m s) as [s' [a|e]]; exact Hlinked.
Qed.

Ltac by_frame :=
  apply frame_linked;
  [ auto with keyed
  | intros ?; cbn; repeat split; lia ].

Lemma deref_linked (property : string) (v : jsval) :
  triple linked (deref property v) (fun _ => linked).
Proof. intros s Hs. unfold deref. by destruct (Js.nullish v). Qed.

Lemma lift_linked {A : Type} (r : Result A) : triple linked (lift r) (fun _ => linked).
Proof. intros s Hs. by destruct r. Qed.

Lemma product_upsert_linked (tenantId shopifyId : string)
    (update : Product -> Product) (create : N -> Product) :
  (forall row, p_tenantId (update row) = p_tenantId row
               /\ p_shopifyId (update row) = p_shopifyId row) ->
  (forall id, p_tenantId (create id) = tenantId /\ p_shopifyId (create id) = shopifyId) ->
  triple linked (product_upsert (tenantId, shopifyId) update create) (fun _ => linked).
Proof.
  intros Hkeys Hckeys. apply frame_linked; [by apply product_upsert_keyed|].
  intros s. unfold product_upsert.
  destruct (products s !! (tenantId, shopifyId)); cbn; repeat split; lia.
Qed.

Lemma syncLog_update_linked (id : N) (data : SyncLog -> SyncLog) :
  triple linked (syncLog_update id data) (fun _ => linked).
Proof.
  apply frame_linked; [auto with keyed|].
  intros s. unfold syncLog_update. destruct (existsb _ _); cbn; repeat split; lia.
Qed.

Lemma tenant_update_lastSyncAt_linked (id : string) (now : Z) :
  triple linked (tenant_update_lastSyncAt id now) (fun _ => linked).
Proof.
  apply frame_linked; [auto with keyed|].
  intros s. unfold tenant_update_lastSyncAt.
  destruct (tenants s !! id); cbn; repeat split; lia.
Qed.

Variables (api : ShopifyApi) (now : Z).

Lemma syncCustomer_linked (tenantId : string) (customer : jsval) :
  triple linked (syncCustomer tenantId now customer) (fun _ => linked).
Proof.
  unfold syncCustomer.
  eapply triple_bind; [apply deref_linked | intros ?].
  eapply triple_bind; [|intros ?; apply triple_ret; intros s Hs; exact Hs].
  eapply triple_weaken;
    [apply customer_upsert_linked; intros ?; try split; reflexivity
    | auto | by intros ? ? [? _]].
Qed.

Lemma syncProduct_linked (tenantId : string) (product : jsval) :
  triple linked (syncProduct tenantId now product) (fun _ => linked).
Proof.
  unfold syncProduct.
  eapply triple_bind; [apply deref_linked | intros ?].
  eapply triple_bind; [|intros ?; apply triple_ret; intros s Hs; exact Hs].
  apply product_upsert_linked; intros ?; split; reflexivity.
Qed.

Lemma createLineItem_linked (orderId : N) (item : jsval) :
  triple linked (createLineItem orderId item) (fun _ => linked).
Proof.
  unfold createLineItem.
  eapply triple_bind; [apply deref_linked | intros ?].
  eapply triple_bind; [|intros ?; apply triple_ret; intros s Hs; exact Hs].
  by_frame.
Qed.

Lemma syncOrder_linked (tenantId : string) (order : jsval) :
  triple linked (syncOrder tenantId now order) (fun _ => linked).
Proof.
  unfold syncOrder.
  eapply triple_bind; [apply deref_linked | intros ?].
  eapply triple_bind with
    (R := fun customerId s => linked s /\ customer_ref tenantId customerId s).
  { destruct (Js.truthy _).
    - eapply triple_bind;
        [apply customer_upsert_linked; intros ?; try split; reflexivity|].
      intros row. apply triple_ret. auto.
    - apply triple_ret. intros s Hs. split; [exact Hs | exact I]. }
  intros customerId.
  eapply triple_bind;
    [apply order_upsert_linked with (customerId := customerId);
     intros ?; try split; try (left; reflexivity); reflexivity|].
  intros savedOrder. destruct (Js.truthy _).
  - eapply triple_bind; [by_frame | intros ?].
    eapply triple_bind; [apply lift_linked | intros items].
    eapply triple_bind;
      [apply triple_for_of; intros ?; apply createLineItem_linked | intros ?].
    apply triple_ret. auto.
  - apply triple_ret. auto.
Qed.

Lemma handleOrderWebhook_linked (tenantId : string) (payload : jsval) :
  triple linked (Webhooks.handleOrderWebhook tenantId now payload) (fun _ => linked).
Proof.
  unfold Webhooks.handleOrderWebhook.
  eapply triple_bind; [apply deref_linked | intros ?].
  eapply triple_bind with
    (R := fun customerId s => linked s /\ customer_ref tenantId customerId s).
  { destruct (Js.truthy _).
    - intros s Hs. unfold bind, customer_findUnique, read, ret.
      destruct (customers s !! _) as [c|] eqn:Hc; (split; [exact Hs|]); [|exact I].
      eexists _, c. split; [exact Hc | reflexivity].
    - apply triple_ret. intros s Hs. split; [exact Hs | exact I]. }
  intros customerId.
  eapply triple_bind; [|intros ?; apply triple_ret; intros s Hs; exact Hs].
  apply order_upsert_linked with (customerId := customerId);
    intros ?; try split; try (right; reflexivity); reflexivity.
Qed.

Lemma handleCartEvent_linked (tenantId eventType : string) (payload : jsval) :
  triple linked (Webhooks.handleCartEvent tenantId eventType payload) (fun _ => linked).
Proof.
  unfold Webhooks.handleCartEvent.
  eapply triple_bind; [apply deref_linked | intros ?].
  eapply triple_bind; [|intros ?; apply triple_ret; intros s Hs; exact Hs].
  by_frame.
Qed.

Lemma dispatch_linked (tenantId topic : string) (payload : jsval) :
  triple linked (Webhooks.dispatch tenantId now topic payload) (fun _ => linked).
Proof.
  unfold Webhooks.dispatch.
  repeat match goal with |- triple _ (if ?c then _ else _) _ => destruct c end;
    try rewrite customer_paths_agree; try rewrite product_paths_agree;
    auto using syncCustomer_linked, syncProduct_linked, handleOrderWebhook_linked,
      handleCartEvent_linked.
  apply triple_ret. auto.
Qed.

(** One sync of a type: the three loops over the records of a page. *)
Lemma syncType_linked (tenantId : string) (config : ShopifyConfig) (type : SyncType) :
  triple linked (syncType api now tenantId config type) (fun _ => linked).
Proof.
  unfold syncType.
  eapply triple_bind; [by_frame | intros syncLog].
  apply triple_try_catch; [|intros ?; apply syncLog_update_linked].
  eapply triple_bind; [|intros ?; apply syncLog_update_linked].
  destruct type; unfold syncCustomers, syncOrders, syncProducts, shopifyRequest;
    (eapply triple_bind; [apply lift_linked | intros response]);
    (eapply triple_bind; [apply deref_linked | intros ?]);
    (eapply triple_bind; [apply lift_linked | intros records]);
    apply triple_for_of; intros ?;
    auto using syncCustomer_linked, syncOrder_linked, syncProduct_linked.
Qed.

Lemma syncTenantData_linked (tenantId : string) (types : list SyncType) :
  triple linked (syncTenantData api now tenantId types) (fun _ => linked).
Proof.
  unfold syncTenantData.
  eapply triple_bind with (R := fun _ => linked); [by intros s Hs|].
  intros [t|]; [|by apply triple_throw].
  destruct (connected t) as [token|]; [|by apply triple_throw].
  eapply triple_bind; [|intros ?; apply tenant_update_lastSyncAt_linked].
  induction types as [|type types IH]; cbn [syncTypes].
  - apply triple_ret. auto.
  - eapply triple_bind; [apply syncType_linked | intros ?; exact IH].
Qed.

Lemma syncAllTenants_linked :
  triple linked (syncAllTenants api now) (fun _ => linked).
Proof.
  unfold syncAllTenants.
  eapply triple_bind with (R := fun _ => linked); [by intros s Hs|].
  intros ts. induction ts as [|t ts IH]; cbn [sweep].
  - apply triple_ret. auto.
  - eapply triple_bind; [|intros ?; exact IH].
    apply triple_try_catch; [apply syncTenantData_linked|].
    intros ?. apply triple_ret. auto.
Qed.

Lemma receive_linked (req : Webhooks.Request) :
  triple linked (Webhooks.receive now req) (fun _ => linked).
Proof.
  unfold Webhooks.receive. cbv zeta.
  eapply triple_bind with (R := fun _ => linked); [by intros s Hs|].
  intros [t|]; [|apply triple_ret; auto].
  eapply triple_bind; [apply lift_linked | intros payload].
  eapply triple_bind; [apply dispatch_linked | intros ?].
  apply triple_ret. auto.
Qed.

End Linked.


(** The store stays linked under the scheduled sweep, a manual sync run
    and a webhook delivery, starting from the empty store. *)
Theorem linked_invariant `{Builtins} (api : ShopifyService.ShopifyApi) (now : Z) :
  Db.linked Db.empty
  /\ (forall s, Db.linked s -> Db.linked (fst (ShopifyService.syncAllTenants api now s)))
  /\ (forall tenantId type s,
        Db.linked s -> Db.linked (fst (ShopifyRoutes.post_sync api now tenantId type s)))
  /\ (forall req s, Db.linked s -> Db.linked (fst (Webhooks.post_shopify now req s))).
Proof.
  assert (forall (A : Type) (m : Db.M A) (s : Db.Store),
            Db.triple Db.linked m (fun _ => Db.linked) -> Db.linked s ->
            Db.linked (fst (m s))) as Hrun.
  { intros A m s Hm Hs. specialize (Hm s Hs). by destruct (m s) as [s' [a|e]]. }
  split.
  { split; [apply (keyed_invariant api now)|].
    repeat split; intros; cbn in *; by rewrite lookup_empty in *. }
  split; [intros s; apply Hrun; apply syncAllTenants_linked|].
  split.
  - intros tenantId type s Hs. unfold ShopifyRoutes.post_sync.
    destruct (Db.tenants s !! tenantId) as [tenant|]; [|exact Hs].
    destruct (ShopifyService.connected tenant); [|exact Hs].
    cbn [fst]. apply Hrun; [apply syncTenantData_linked | exact Hs].
  - intros req s Hs. unfold Webhooks.post_shopify.
    pose proof (Hrun _ (Webhooks.receive now req) s (receive_linked now req) Hs) as Hreceive.
    destruct (Webhooks.receive now req s) as [s' [response|e]]; exact Hreceive.
Qed.

(** In a linked store the orders reached from a customer of a tenant, as
    the RFM handler reaches them, are orders of that tenant. *)
Theorem customer_orders_same_tenant (tenantId : string) (s : Db.Store)
    (c : Db.Customer) (o : Db.Order) :
  Db.linked s ->
  c ∈ Db.customer_findMany tenantId s ->
  o ∈ Db.customer_orders c s ->
  Db.o_tenantId o = tenantId.
Proof.
  intros ((Hckeyed & _) & _ & Huniq & Hrefs) Hc Ho.
  apply customer_findMany_spec in Hc as [Ht [key Hkey]].
  unfold Db.customer_orders in Ho.
  apply list_elem_of_filter in Ho as [Hid Ho].
  apply list_elem_of_fmap in Ho as [[okey o'] [-> Ho]].
  apply elem_of_map_to_list in Ho. cbn in *.
  specialize (Hrefs _ _ Ho). rewrite Hid in Hrefs.
  destruct Hrefs as (sid & c' & Hc' & Heq).
  pose proof (Huniq _ _ _ _ Hc' Hkey Heq) as Hsame.
  apply Hckeyed in Hkey. rewrite Hkey in Hsame. injection Hsame as Hsame _.
  by rewrite Hsame.
Qed.

(** ** The webhook route *)

(** X1: Once the handler of the webhook route runs, a delivery for a known
    tenant is answered with status 200 whatever the topic, the signature,
    the body handed over by the raw-body parser or the outcome of the
    handling; a delivery for an unknown tenant is answered with 404 and
    changes nothing.  (A request that the middleware in front of the route
    turns away, such as one with a body over the size limit of the parser,
    does not get to the handler.) *)
Theorem webhook_acknowledged `{Builtins} (now : Z) (req : Webhooks.Request) (s : Db.Store) :
  match Db.tenants s !! Webhooks.req_tenantId req with
  | Some _ => Webhooks.status (snd (Webhooks.post_shopify now req s)) = 200
  | None =>
      Webhooks.post_shopify now req s
      = (s, {| Webhooks.status := 404;
               Webhooks.json := JObj [("error", JStr "Tenant not found")] |})
  end.
Proof.
  unfold Webhooks.post_shopify, Webhooks.receive, Db.bind, Db.tenant_findUnique, Db.read.
  destruct (Db.tenants s !! Webhooks.req_tenantId req) as [t|]; [|reflexivity].
  unfold Db.lift. destruct (Webhooks.req_payload req) as [payload|e]; [|reflexivity].
  destruct (Webhooks.dispatch _ now _ payload s) as [s' [[]|e]]; reflexivity.
Qed.

(** X2: A body that [JSON.parse] rejects is acknowledged with the error flag
    and nothing is written. *)
Theorem webhook_unparseable_body `{Builtins} (now : Z) (req : Webhooks.Request)
    (s : Db.Store) (tenant : Db.Tenant) (e : string) :
  Db.tenants s !! Webhooks.req_tenantId req = Some tenant ->
  Webhooks.req_payload req = Throw e ->
  Webhooks.post_shopify now req s
  = (s, {| Webhooks.status := 200;
           Webhooks.json := JObj [("received", JBool true);
                                  ("error", JStr "Processing error")] |}).
Proof.
  intros Htenant Hparse.
  unfold Webhooks.post_shopify, Webhooks.receive, Db.bind, Db.tenant_findUnique, Db.read,
    Db.lift.
  by rewrite Htenant, Hparse.
Qed.

Lemma webhook_unparseable_body_witness :
  @Webhooks.post_shopify Inputs.node 0
    {| Webhooks.req_tenantId := "tenant-a"; Webhooks.req_topic := "orders/create";
       Webhooks.req_signature := ""; Webhooks.req_body := "{";
       Webhooks.req_payload := Throw "SyntaxError: Unexpected end of JSON input" |}
    Inputs.store0
  = (Inputs.store0,
     {| Webhooks.status := 200;
        Webhooks.json := JObj [("received", JBool true);
                               ("error", JStr "Processing error")] |}).
Proof.
  apply (@webhook_unparseable_body Inputs.node 0 _ Inputs.store0 Inputs.tenantA
           "SyntaxError: Unexpected end of JSON input").
  - vm_compute. reflexivity.
  - reflexivity.
Defined.

(** X3: A topic without a case in the [switch] is acknowledged and ignored:
    nothing is written, whatever the payload. *)
Theorem webhook_unhandled_topic `{Builtins} (now : Z) (req : Webhooks.Request)
    (s : Db.Store) (tenant : Db.Tenant) (payload : jsval) :
  Db.tenants s !! Webhooks.req_tenantId req = Some tenant ->
  Webhooks.req_payload req = Ok payload ->
  Webhooks.req_topic req
    ∉ ["customers/create"; "customers/update"; "orders/create"; "orders/updated";
       "products/create"; "products/update"; "carts/create"; "carts/update";
       "checkouts/create"; "checkouts/delete"] ->
  Webhooks.post_shopify now req s
  = (s, {| Webhooks.status := 200; Webhooks.json := JObj [("received", JBool true)] |}).
Proof.
  intros Htenant Hparse Htopic.
  unfold Webhooks.post_shopify, Webhooks.receive, Db.bind, Db.tenant_findUnique, Db.read,
    Db.lift.
  rewrite Htenant, Hparse. unfold Webhooks.dispatch.
  repeat (apply not_elem_of_cons in Htopic as [Hne Htopic];
          apply String.eqb_neq in Hne; rewrite Hne; clear Hne).
  cbn [orb]. reflexivity.
Qed.

Lemma webhook_unhandled_topic_witness :
  @Webhooks.post_shopify Inputs.node 0
    {| Webhooks.req_tenantId := "tenant-a"; Webhooks.req_topic := "orders/paid";
       Webhooks.req_signature := ""; Webhooks.req_body := "null";
       Webhooks.req_payload := Ok JNull |}
    Inputs.store0
  = (Inputs.store0,
     {| Webhooks.status := 200; Webhooks.json := JObj [("received", JBool true)] |}).
Proof.
  apply (@webhook_unhandled_topic Inputs.node 0 _ Inputs.store0 Inputs.tenantA JNull).
  - vm_compute. reflexivity.
  - reflexivity.
  - vm_compute. intros Hin.
    repeat (apply elem_of_cons in Hin as [Heq|Hin]; [discriminate Heq|]).
    by apply elem_of_nil in Hin.
Defined.

(** X4: A cart or checkout delivery appends exactly one Event, of the type of
    its topic and holding the payload; the events before it and the record
    tables are as they were.  Nothing is upserted: a second delivery of the
    same payload appends a second Event. *)
Theorem cart_event_appended `{Builtins} (tenantId : string) (now : Z)
    (topic eventType : string) (payload : jsval) (s : Db.Store) :
  (topic, eventType)
    ∈ [("carts/create", "cart_updated"); ("carts/update", "cart_updated");
       ("checkouts/create", "checkout_started"); ("checkouts/delete", "cart_abandoned")] ->
  Js.nullish payload = false ->
  exists s' e,
    Webhooks.dispatch tenantId now topic payload s = (s', Ok tt)
    /\ Db.events s' = Db.events s ++ [e]
    /\ Db.e_id e = Db.nextId s
    /\ Db.e_tenantId e = tenantId
    /\ Db.e_type e = eventType
    /\ Db.e_source e = "webhook"
    /\ Db.e_payload e = payload
    /\ Db.customers s' = Db.customers s
    /\ Db.orders s' = Db.orders s
    /\ Db.orderLineItems s' = Db.orderLineItems s
    /\ Db.products s' = Db.products s.
Proof.
  intros Htopic Hpayload.
  assert (forall etype,
            exists s' e,
              Webhooks.handleCartEvent tenantId etype payload s = (s', Ok tt)
              /\ Db.events s' = Db.events s ++ [e]
              /\ Db.e_id e = Db.nextId s
              /\ Db.e_tenantId e = tenantId
              /\ Db.e_type e = etype
              /\ Db.e_source e = "webhook"
              /\ Db.e_payload e = payload
              /\ Db.customers s' = Db.customers s
              /\ Db.orders s' = Db.orders s
              /\ Db.orderLineItems s' = Db.orderLineItems s
              /\ Db.products s' = Db.products s) as Hevent.
  { intros etype. unfold Webhooks.handleCartEvent, Db.bind, ShopifyService.deref.
    rewrite Hpayload. cbn. eexists _, _. repeat split. }
  unfold Webhooks.dispatch.
  repeat (apply elem_of_cons in Htopic as [[= -> ->]|Htopic]; [apply Hevent|]).
  by apply elem_of_nil in Htopic.
Qed.

Lemma cart_event_appended_witness :
  exists s' e,
    @Webhooks.dispatch Inputs.node "tenant-a" 0 "checkouts/delete"
      (JObj [("token", JStr "c1"); ("customer", JObj [("id", JNum 7)])]) Inputs.store0
    = (s', Ok tt)
    /\ Db.events s' = Db.events Inputs.store0 ++ [e]
    /\ Db.e_id e = Db.nextId Inputs.store0
    /\ Db.e_tenantId e = "tenant-a"
    /\ Db.e_type e = "cart_abandoned"
    /\ Db.e_source e = "webhook"
    /\ Db.e_payload e = JObj [("token", JStr "c1"); ("customer", JObj [("id", JNum 7)])]
    /\ Db.customers s' = Db.customers Inputs.store0
    /\ Db.orders s' = Db.orders Inputs.store0
    /\ Db.orderLineItems s' = Db.orderLineItems Inputs.store0
    /\ Db.products s' = Db.products Inputs.store0.
Proof.
  apply (@cart_event_appended Inputs.node "tenant-a" 0 "checkouts/delete" "cart_abandoned").
  - rewrite !elem_of_cons. do 3 right. by left.
  - reflexivity.
Defined.

(** ** Connecting a store *)

(** A connect request without a token, or with an empty one, is rejected
    with [VALIDATION_ERROR] and leaves the stored credential as it is. *)
Lemma connect_without_token (tenantId : string) (accessToken : option string)
    (s : Db.Store) :
  accessToken = None \/ accessToken = Some "" ->
  ShopifyAdmin.post_connect tenantId accessToken s
  = (s, Ok (ShopifyRoutes.NextError "Access token is required" 400 "VALIDATION_ERROR")).
Proof. by intros [-> | ->]. Qed.

(** X5: Connecting an existing tenant with a non-empty token stores the token
    on the tenant, changes no other tenant and no other column, and from
    then on the manual trigger accepts a sync for the tenant and a sync run
    is not refused as not connected. *)
Theorem connect_enables_sync `{Builtins} (api : ShopifyService.ShopifyApi) (now : Z)
    (tenantId token : string) (tenant : Db.Tenant) (type : option Db.SyncType)
    (s : Db.Store) :
  Db.tenants s !! tenantId = Some tenant ->
  token <> "" ->
  let s' := fst (ShopifyAdmin.post_connect tenantId (Some token) s) in
  (exists tenant',
     Db.tenants s' !! tenantId = Some tenant'
     /\ Db.accessToken tenant' = Some token
     /\ ShopifyService.connected tenant' = Some token
     /\ Db.tenant_name tenant' = Db.tenant_name tenant
     /\ Db.shopifyDomain tenant' = Db.shopifyDomain tenant
     /\ Db.isActive tenant' = Db.isActive tenant
     /\ Db.lastSyncAt tenant' = Db.lastSyncAt tenant)
  /\ (forall other, other <> tenantId -> Db.tenants s' !! other = Db.tenants s !! other)
  /\ same_records s s'
  /\ Db.syncLogs s' = Db.syncLogs s
  /\ (exists body, snd (ShopifyRoutes.post_sync api now tenantId type s')
                   = ShopifyRoutes.Responded body)
  /\ snd (ShopifyService.syncTenantData api now tenantId [] s') = Ok tt.
Proof.
  intros Htenant Htoken. apply String.eqb_neq in Htoken as Hneq.
  unfold ShopifyAdmin.post_connect. rewrite Hneq, Htenant. cbn [fst].
  set (tenant' := {| Db.tenant_id := Db.tenant_id tenant;
                     Db.tenant_name := Db.tenant_name tenant;
                     Db.shopifyDomain := Db.shopifyDomain tenant;
                     Db.accessToken := Some token;
                     Db.isActive := Db.isActive tenant;
                     Db.lastSyncAt := Db.lastSyncAt tenant |}).
  assert (ShopifyService.connected tenant' = Some token) as Hconn
    by (unfold ShopifyService.connected; cbn; by rewrite Hneq).
  split_and!.
  - exists tenant'. cbn. rewrite lookup_insert_eq. repeat split. exact Hconn.
  - intros other Hother. cbn. by rewrite lookup_insert_ne.
  - repeat split.
  - reflexivity.
  - unfold ShopifyRoutes.post_sync.
    replace (Db.tenants (Db.with_tenants <[tenantId:=tenant']> s) !! tenantId)
      with (Some tenant') by (cbn; by rewrite lookup_insert_eq).
    rewrite Hconn. eexists. reflexivity.
  - unfold ShopifyService.syncTenantData, Db.bind, Db.tenant_findUnique, Db.read.
    replace (Db.tenants (Db.with_tenants <[tenantId:=tenant']> s) !! tenantId)
      with (Some tenant') by (cbn; by rewrite lookup_insert_eq).
    rewrite Hconn. cbn. unfold Db.tenant_update_lastSyncAt.
    replace (Db.tenants (Db.with_tenants <[tenantId:=tenant']> s) !! tenantId)
      with (Some tenant') by (cbn; by rewrite lookup_insert_eq).
    reflexivity.
Qed.

Lemma connect_enables_sync_witness :
  let s' := fst (ShopifyAdmin.post_connect "tenant-b" (Some "shpat_b") Inputs.store0) in
  (exists tenant',
     Db.tenants s' !! "tenant-b" = Some tenant'
     /\ Db.accessToken tenant' = Some "shpat_b"
     /\ ShopifyService.connected tenant' = Some "shpat_b"
     /\ Db.tenant_name tenant' = Db.tenant_name Inputs.tenantB
     /\ Db.shopifyDomain tenant' = Db.shopifyDomain Inputs.tenantB
     /\ Db.isActive tenant' = Db.isActive Inputs.tenantB
     /\ Db.lastSyncAt tenant' = Db.lastSyncAt Inputs.tenantB)
  /\ (forall other, other <> "tenant-b" ->
        Db.tenants s' !! other = Db.tenants Inputs.store0 !! other)
  /\ same_records Inputs.store0 s'
  /\ Db.syncLogs s' = Db.syncLogs Inputs.store0
  /\ (exists body,
        snd (@ShopifyRoutes.post_sync Inputs.node (fun _ _ _ => Ok (JObj [])) 0
               "tenant-b" None s')
        = ShopifyRoutes.Responded body)
  /\ snd (@ShopifyService.syncTenantData Inputs.node (fun _ _ _ => Ok (JObj [])) 0
            "tenant-b" [] s') = Ok tt.
Proof.
  apply (@connect_enables_sync Inputs.node (fun _ _ _ => Ok (JObj [])) 0
           "tenant-b" "shpat_b" Inputs.tenantB None Inputs.store0).
  - vm_compute. reflexivity.
  - discriminate.
Defined.

(** ** The scheduler *)

(** X6: Starting the scheduler again registers nothing more: after any number
    of starts from the initial state the sync sweep and the daily cleanup
    are each scheduled once. *)
Theorem startScheduler_once (n : nat) :
  Nat.iter (S n) Scheduler.startScheduler Scheduler.initial
  = {| Scheduler.schedulerStarted := true;
       Scheduler.scheduled := [("*/15 * * * *", Scheduler.ScheduledSync);
                               ("0 0 * * *", Scheduler.DailyCleanup)] |}.
Proof.
  induction n as [|n IH]; [reflexivity|].
  change (Nat.iter (S (S n)) Scheduler.startScheduler Scheduler.initial)
    with (Scheduler.startScheduler
            (Nat.iter (S n) Scheduler.startScheduler Scheduler.initial)).
  by rewrite IH.
Qed.

(** X7: The daily cleanup keeps exactly the sync logs started within the last
    7 days, in their order, and touches nothing else. *)
Theorem cleanup_retention `{Builtins} (api : ShopifyService.ShopifyApi) (now : Z)
    (s : Db.Store) :
  let s' := Scheduler.run api now Scheduler.DailyCleanup s in
  (forall l, l ∈ Db.syncLogs s'
             <-> l ∈ Db.syncLogs s /\ now - 7 * (1000 * 60 * 60 * 24) <= Db.l_startedAt l)
  /\ sublist (Db.syncLogs s') (Db.syncLogs s)
  /\ same_records s s'
  /\ Db.tenants s' = Db.tenants s.
Proof.
  cbn. split; [|split; [apply sublist_filter|repeat split]].
  intros l. rewrite list_elem_of_filter. unfold Scheduler.sevenDaysAgo. split.
  - intros [Hl Hin]. split; [exact Hin | lia].
  - intros [Hin Hl]. split; [lia | exact Hin].
Qed.

(** ** Sync status *)

Section SyncStatus.
Import Db ShopifyAdmin.

#[local] Instance newer_first_total : Total newer_first.
Proof. intros a b. unfold newer_first. lia. Qed.

#[local] Instance newer_first_trans : Transitive newer_first.
Proof. intros a b c. unfold newer_first. lia. Qed.

Lemma recentLogs_sorted_all (tenantId : string) (s : Store) :
  StronglySorted newer_first
    (merge_sort newer_first (filter (fun l => l_tenantId l = tenantId) (syncLogs s))).
Proof. apply StronglySorted_merge_sort; apply _. Qed.

End SyncStatus.

(** X8: The status query returns at most 10 sync logs, all of them logs of the
    tenant, newest first; a log of the tenant that is left out started no
    later than any log returned; and with at most 10 logs none is left out.
    [lastSyncAt] is the one stored on the tenant. *)
Theorem sync_status_recent (tenantId : string) (s : Db.Store) :
  let status := ShopifyAdmin.get_sync_status tenantId s in
  let logs := ShopifyAdmin.status_recentLogs status in
  (length logs <= 10)%nat
  /\ (forall l, l ∈ logs -> l ∈ Db.syncLogs s /\ Db.l_tenantId l = tenantId)
  /\ StronglySorted (fun a b => Db.l_startedAt b <= Db.l_startedAt a) logs
  /\ (forall l r, l ∈ Db.syncLogs s -> Db.l_tenantId l = tenantId -> l ∉ logs ->
                  r ∈ logs -> Db.l_startedAt l <= Db.l_startedAt r)
  /\ ((length (filter (fun l => Db.l_tenantId l = tenantId) (Db.syncLogs s)) <= 10)%nat ->
      logs ≡ₚ filter (fun l => Db.l_tenantId l = tenantId) (Db.syncLogs s))
  /\ (forall t, Db.tenants s !! tenantId = Some t ->
                ShopifyAdmin.status_lastSyncAt status = Db.lastSyncAt t).
Proof.
  cbn. unfold ShopifyAdmin.recentLogs.
  set (mine := filter (fun l => Db.l_tenantId l = tenantId) (Db.syncLogs s)).
  set (sorted := merge_sort ShopifyAdmin.newer_first mine).
  assert (sorted ≡ₚ mine) as Hperm by apply merge_sort_Permutation.
  pose proof (recentLogs_sorted_all tenantId s) as Hsorted. fold mine sorted in Hsorted.
  split; [rewrite length_take; lia|].
  split.
  { intros l Hl. apply elem_of_take in Hl as (i & Hl & _).
    apply list_elem_of_lookup_2 in Hl. rewrite Hperm in Hl.
    apply list_elem_of_filter in Hl as [Ht Hin]. by split. }
  split.
  { rewrite <- (take_drop 10 sorted) in Hsorted.
    by apply StronglySorted_app_1_l in Hsorted. }
  split.
  { intros l r Hin Ht Hout Hr.
    assert (l ∈ sorted) as Hl by (rewrite Hperm; by apply list_elem_of_filter).
    rewrite <- (take_drop 10 sorted) in Hl, Hsorted.
    apply elem_of_app in Hl as [Hl|Hl]; [done|].
    exact (StronglySorted_app_1_elem_of _ _ _ _ _ Hsorted Hr Hl). }
  split.
  { intros Hlen. rewrite take_ge; [exact Hperm|]. by rewrite Hperm. }
  intros t Ht. by rewrite Ht.
Qed.

(** ** The forecast from 7 buckets on *)

Section ForecastShape.
Import Num Forecast.
Open Scope float_scope.
Context `{Calendar}.

Lemma lastDate_historicalData (rows : list DailyRevenueRow) (lastRow : DailyRevenueRow) :
  last rows = Some lastRow ->
  lastDate (historicalData rows) = row_date lastRow.
Proof.
  intros Hlast. unfold lastDate, historicalData.
  change (map ?f rows) with (f <$> rows). by rewrite fmap_last, Hlast.
Qed.

Lemma trendDirection_values (hd : list HistoricalPoint) (n : Z) :
  trendDirection hd n ∈ ["growing"; "declining"; "stable"].
Proof.
  unfold trendDirection. rewrite !elem_of_cons.
  destruct (_ <? _); [by left|]. destruct (_ <? _); [right; by left|].
  right; right; by left.
Qed.

End ForecastShape.

(** X9: With at least 7 daily buckets the forecast has exactly 7 points,
    all with the same confidence.  Point [i] is dated with the UTC day of
    the instant that lies [i] local calendar days after midnight UTC of
    the day of the last bucket; in a process whose time zone keeps its
    offset from UTC these are the 7 days after the last bucket, in order.
    The trend is one of growing, declining and stable, never
    [insufficient_data]; the three summary figures are present and the
    top-level [confidence] of the short response is absent; the history
    returned has the dates of the buckets. *)
Theorem forecast_with_enough_data `{Calendar} (rows : list Forecast.DailyRevenueRow)
    (lastRow : Forecast.DailyRevenueRow) :
  (7 <= length rows)%nat ->
  last rows = Some lastRow ->
  let data := Forecast.revenueForecast rows in
  length (Forecast.forecast data) = 7%nat
  /\ map Forecast.fp_date (Forecast.forecast data)
     = map (fun i => utcDay (addLocalDays (Forecast.row_date lastRow * msPerDay) i))
         [1; 2; 3; 4; 5; 6; 7]
  /\ ((forall t i, addLocalDays t i = t + i * msPerDay) ->
      map Forecast.fp_date (Forecast.forecast data)
      = map (fun i => Forecast.row_date lastRow + i) [1; 2; 3; 4; 5; 6; 7])
  /\ (forall p q, p ∈ Forecast.forecast data -> q ∈ Forecast.forecast data ->
                  Forecast.fp_confidence p = Forecast.fp_confidence q)
  /\ Forecast.trend data ∈ ["growing"; "declining"; "stable"]
  /\ Forecast.confidence data = None
  /\ is_Some (Forecast.weeklyGrowth data)
  /\ is_Some (Forecast.avgDailyRevenue data)
  /\ is_Some (Forecast.predictedWeeklyRevenue data)
  /\ map Forecast.date (Forecast.historical data) = map Forecast.row_date rows.
Proof.
  intros Hn Hlast. cbv zeta.
  assert (map Forecast.fp_date (Forecast.forecast (Forecast.revenueForecast rows))
          = map (fun i => utcDay (addLocalDays (Forecast.row_date lastRow * msPerDay) i))
              [1; 2; 3; 4; 5; 6; 7]) as Hdates.
  { unfold Forecast.revenueForecast. rewrite historicalData_length.
    destruct (Z.ltb_spec (Z.of_nat (length rows)) 7) as [Hlt|_]; [lia|].
    cbn [Forecast.forecast]. unfold Forecast.forecastPoints. rewrite map_map.
    change (seqZ 1 7) with [1; 2; 3; 4; 5; 6; 7].
    cbn [map Forecast.forecastPoint Forecast.fp_date].
    by rewrite (lastDate_historicalData _ _ Hlast). }
  split; [by apply forecast_length|].
  split; [exact Hdates|].
  split.
  { intros Hutc. rewrite Hdates. apply map_ext. intros i.
    rewrite Hutc. unfold utcDay.
    replace (Forecast.row_date lastRow * msPerDay + i * msPerDay)
      with ((Forecast.row_date lastRow + i) * msPerDay) by lia.
    by apply Z.div_mul. }
  unfold Forecast.revenueForecast.
  rewrite historicalData_length.
  destruct (Z.ltb_spec (Z.of_nat (length rows)) 7) as [Hlt|_]; [lia|].
  cbn [Forecast.forecast Forecast.trend Forecast.confidence Forecast.weeklyGrowth
       Forecast.avgDailyRevenue Forecast.predictedWeeklyRevenue Forecast.historical].
  split_and!; try done.
  - intros p q Hp Hq. unfold Forecast.forecastPoints in Hp, Hq.
    apply list_elem_of_fmap in Hp as (i & -> & _).
    apply list_elem_of_fmap in Hq as (j & -> & _). reflexivity.
  - apply trendDirection_values.
  - unfold Forecast.historicalData. rewrite map_map. reflexivity.
Qed.

Lemma forecast_with_enough_data_witness :
  let data := @Forecast.revenueForecast Examples.utc Examples.linearSeries in
  length (Forecast.forecast data) = 7%nat
  /\ map Forecast.fp_date (Forecast.forecast data)
     = map (fun i => utcDay (@addLocalDays Examples.utc (9 * msPerDay) i))
         [1; 2; 3; 4; 5; 6; 7]
  /\ ((forall t i, @addLocalDays Examples.utc t i = t + i * msPerDay) ->
      map Forecast.fp_date (Forecast.forecast data)
      = map (fun i => 9 + i) [1; 2; 3; 4; 5; 6; 7])
  /\ (forall p q, p ∈ Forecast.forecast data -> q ∈ Forecast.forecast data ->
                  Forecast.fp_confidence p = Forecast.fp_confidence q)
  /\ Forecast.trend data ∈ ["growing"; "declining"; "stable"]
  /\ Forecast.confidence data = None
  /\ is_Some (Forecast.weeklyGrowth data)
  /\ is_Some (Forecast.avgDailyRevenue data)
  /\ is_Some (Forecast.predictedWeeklyRevenue data)
  /\ map Forecast.date (Forecast.historical data)
     = map Forecast.row_date Examples.linearSeries.
Proof.
  apply (@forecast_with_enough_data Examples.utc Examples.linearSeries
           {| Forecast.row_date := 9;
              Forecast.row_revenue := Some (100 + 10 * Num.of_Z 9)%float;
              Forecast.row_order_count := 1 |}).
  - vm_compute. lia.
  - reflexivity.
Defined.

(** Across a change of the offset the dates are not the 7 following
    days: on New York time, after a last bucket on 9 March 2024 (day
    19791), the first two points are both dated 10 March and the last one
    15 March. *)
Example forecast_dates_across_offset_change :
  map Forecast.fp_date
    (Forecast.forecast (@Forecast.revenueForecast Examples.newYork2024 Examples.marchSeries))
  = [19792; 19792; 19793; 19794; 19795; 19796; 19797].
Proof. vm_compute. reflexivity. Qed.

(** X10: With exactly one week of buckets there is no earlier week to compare
    with and the weekly growth is reported as 0. *)
Theorem weeklyGrowth_one_week `{Calendar} (rows : list Forecast.DailyRevenueRow) :
  length rows = 7%nat ->
  Forecast.weeklyGrowth (Forecast.revenueForecast rows) = Some 0%float.
Proof.
  intros Hn. unfold Forecast.revenueForecast, Forecast.weeklyGrowthOf.
  rewrite historicalData_length, Hn. reflexivity.
Qed.

Lemma weeklyGrowth_one_week_witness :
  Forecast.weeklyGrowth
    (@Forecast.revenueForecast Examples.utc
       (Examples.seriesOf [10; 20; 30; 40; 50; 60; 70]%float))
  = Some 0%float.
Proof. apply (@weeklyGrowth_one_week Examples.utc). reflexivity. Defined.

(** X11: From two weeks of buckets on, the weekly growth is the revenue of the
    last 7 buckets relative to the revenue of the 7 buckets before them,
    in percent and rounded to two decimals; older buckets play no part. *)
Theorem weeklyGrowth_two_weeks `{Calendar} (rows : list Forecast.DailyRevenueRow) :
  (14 <= length rows)%nat ->
  let hd := Forecast.historicalData rows in
  Forecast.weeklyGrowth (Forecast.revenueForecast rows)
  = Some (Num.Math_round
            ((Forecast.sumRevenue (drop (length rows - 7) hd)
              / Forecast.sumRevenue (take 7 (drop (length rows - 14) hd)) - 1)
             * 100 * 100) / 100)%float.
Proof.
  intros Hn. cbv zeta. unfold Forecast.revenueForecast, Forecast.weeklyGrowthOf.
  destruct (weeklyGrowth_windows (Forecast.historicalData rows)) as [Hlast Hprev];
    [by rewrite historicalData_length|].
  rewrite Hlast, Hprev, historicalData_length.
  destruct (Z.ltb_spec (Z.of_nat (length rows)) 7) as [Hlt|_]; [lia|].
  destruct (Z.ltb_spec 7 (Z.of_nat (length rows))) as [_|Hle]; [|lia].
  reflexivity.
Qed.

Lemma weeklyGrowth_two_weeks_witness :
  let rows := Examples.seriesOf
                [10; 10; 10; 10; 10; 10; 10; 20; 20; 20; 20; 20; 20; 20; 20]%float in
  let hd := Forecast.historicalData rows in
  Forecast.weeklyGrowth (@Forecast.revenueForecast Examples.utc rows)
  = Some (Num.Math_round
            ((Forecast.sumRevenue (drop (length rows - 7) hd)
              / Forecast.sumRevenue (take 7 (drop (length rows - 14) hd)) - 1)
             * 100 * 100) / 100)%float.
Proof.
  apply (@weeklyGrowth_two_weeks Examples.utc
           (Examples.seriesOf
              [10; 10; 10; 10; 10; 10; 10; 20; 20; 20; 20; 20; 20; 20; 20]%float)).
  vm_compute. lia.
Defined.

(** ** RFM segments *)

Section RfmFacts.
Import Db Rfm.
Open Scope Z_scope.
Variables (now : Z) (s : Store).

Lemma recencyScore_range (d : Z) : 1 <= recencyScore d <= 5.
Proof. unfold recencyScore. repeat case_match; lia. Qed.

Lemma frequencyScore_range (v : jsval) : 1 <= frequencyScore v <= 5.
Proof. unfold frequencyScore. repeat case_match; lia. Qed.

Lemma monetaryScore_range (m : float) : 1 <= monetaryScore m <= 5.
Proof. unfold monetaryScore. repeat case_match; lia. Qed.

Lemma segmentOf_name (r f m : Z) :
  segmentOf r f m
    ∈ ["Champions"; "Loyal Customers"; "Potential Loyalists"; "Recent Customers";
       "Promising"; "Need Attention"; "At Risk"; "Hibernating"].
Proof. unfold segmentOf. rewrite !elem_of_cons. repeat case_match; tauto. Qed.

Lemma tally_names (segs : list (string * SegmentAcc)) (c : Customer) :
  map fst (tally now s segs c) = map fst segs.
Proof.
  unfold tally. rewrite map_map. apply map_ext. intros [name a].
  by destruct (String.eqb name _).
Qed.

Lemma tally_counted (segs : list (string * SegmentAcc)) (c : Customer) :
  counted (tally now s segs c)
  = counted segs
    + Z.of_nat (length (filter (fun name => name = seg (score now s c)) (map fst segs))).
Proof.
  unfold counted, tally. induction segs as [|[name a] segs IH]; [reflexivity|].
  cbn [map foldr fst snd]. rewrite IH, filter_cons.
  destruct (String.eqb_spec name (seg (score now s c))) as [Heq|Hne].
  - rewrite decide_True by exact Heq. cbn [count snd length]. lia.
  - rewrite decide_False by exact Hne. cbn [snd]. lia.
Qed.

Lemma tally_capped (segs : list (string * SegmentAcc)) (c : Customer) :
  Forall (fun p => capped (snd p)) segs ->
  Forall (fun p => capped (snd p)) (tally now s segs c).
Proof.
  intros Hsegs. unfold tally. apply Forall_fmap.
  eapply Forall_impl; [exact Hsegs|]. intros [name a] [Hcount Hlen].
  cbn [snd] in *. unfold compose. cbv beta iota zeta.
  destruct (String.eqb name (seg (score now s c))); [|by split].
  unfold capped. cbn [snd count acc_customers].
  destruct (Z.ltb_spec (Z.of_nat (length (acc_customers a))) 3) as [Hlt|Hge].
  - rewrite length_app. cbn [length]. lia.
  - lia.
Qed.

Lemma one_segment (name : string) :
  name ∈ map fst initialSegments ->
  length (filter (fun name' => name' = name) (map fst initialSegments)) = 1%nat.
Proof.
  cbn. rewrite !elem_of_cons, elem_of_nil.
  intros [->|[->|[->|[->|[->|[->|[->|[->|[]]]]]]]]]; reflexivity.
Qed.

Lemma fold_tally (cs : list Customer) (segs : list (string * SegmentAcc)) :
  map fst segs = map fst initialSegments ->
  Forall (fun p => capped (snd p)) segs ->
  let segs' := fold_left (tally now s) cs segs in
  map fst segs' = map fst initialSegments
  /\ Forall (fun p => capped (snd p)) segs'
  /\ counted segs' = counted segs + Z.of_nat (length cs).
Proof.
  revert segs. induction cs as [|c cs IH]; intros segs Hnames Hcapped.
  - cbv zeta. cbn [fold_left length]. split_and!; [done..|lia].
  - cbv zeta. cbn [fold_left length].
    destruct (IH (tally now s segs c)) as (Hnames' & Hcapped' & Hcount).
    { by rewrite tally_names. }
    { by apply tally_capped. }
    split_and!; [done..|].
    rewrite Hcount, tally_counted, Hnames, one_segment; [cbn [length]; lia|].
    apply segmentOf_name.
Qed.

Lemma counted_positive (segs : list (string * SegmentAcc)) :
  Forall (fun p => capped (snd p)) segs ->
  foldr Z.add 0
    (map (fun p => count (snd p)) (filter (fun p => 0 < count (snd p)) segs))
  = counted segs.
Proof.
  unfold counted. induction 1 as [|[name a] segs [Hcount _] _ IH]; [reflexivity|].
  rewrite filter_cons. cbn [snd] in *. destruct (decide (0 < count a)).
  - cbn [map foldr snd]. by rewrite IH.
  - cbn [map foldr snd]. rewrite IH. lia.
Qed.

End RfmFacts.

(** X12: Every customer gets scores between 1 and 5 on each of the three
    scales, hence an RFM score between 3 and 15, and one of the eight
    segments. *)
Theorem rfm_scores_in_range (now : Z) (s : Db.Store) (c : Db.Customer) :
  let sc := Rfm.score now s c in
  1 <= Rfm.recency sc <= 5
  /\ 1 <= Rfm.frequency sc <= 5
  /\ 1 <= Rfm.monetary sc <= 5
  /\ 3 <= Rfm.recency sc + Rfm.frequency sc + Rfm.monetary sc <= 15
  /\ Rfm.seg sc
       ∈ ["Champions"; "Loyal Customers"; "Potential Loyalists"; "Recent Customers";
          "Promising"; "Need Attention"; "At Risk"; "Hibernating"].
Proof.
  cbn.
  pose proof (recencyScore_range
                (Rfm.daysSinceLastOrder now (Rfm.lastOrderDate c s))) as Hr.
  pose proof (frequencyScore_range (Db.c_ordersCount c)) as Hf.
  pose proof (monetaryScore_range (Db.c_totalSpent c)) as Hm.
  split_and!; try lia. apply segmentOf_name.
Qed.

(** X13: A customer without an order row is scored as least recent, whatever
    the order count Shopify reports: such a customer is never a Champion,
    a Potential Loyalist, a Recent Customer or Promising. *)
Theorem rfm_without_orders (now : Z) (s : Db.Store) (c : Db.Customer) :
  Db.customer_orders c s = [] ->
  let sc := Rfm.score now s c in
  Rfm.days sc = 999
  /\ Rfm.recency sc = 1
  /\ Rfm.seg sc ∈ ["Loyal Customers"; "Need Attention"; "At Risk"; "Hibernating"].
Proof.
  intros Horders. cbn. unfold Rfm.lastOrderDate. rewrite Horders. cbn.
  split_and!; [done..|].
  unfold Rfm.segmentOf. rewrite !elem_of_cons. cbn.
  repeat case_match; tauto.
Qed.

Lemma rfm_without_orders_witness :
  let sc := Rfm.score 0 (Examples.rfmStore 0) Examples.newcomer in
  Rfm.days sc = 999
  /\ Rfm.recency sc = 1
  /\ Rfm.seg sc ∈ ["Loyal Customers"; "Need Attention"; "At Risk"; "Hibernating"].
Proof. apply rfm_without_orders. vm_compute. reflexivity. Defined.

(** X14: The segments of the response partition the customers of the tenant:
    the counts add up to [totalCustomers]; the segments come in the order
    of their declaration, each at most once; none is reported empty; and
    each lists its first customers, 3 at most. *)
Theorem rfm_segments_partition (tenantId : string) (now : Z) (s : Db.Store) :
  let data := Rfm.rfmSegments tenantId now s in
  foldr Z.add 0 (map Rfm.seg_count (Rfm.segments data)) = Rfm.totalCustomers data
  /\ sublist (map Rfm.segment (Rfm.segments data))
       ["Champions"; "Loyal Customers"; "Potential Loyalists"; "Recent Customers";
        "Promising"; "Need Attention"; "At Risk"; "Hibernating"]
  /\ Forall (fun row =>
               0 < Rfm.seg_count row
               /\ Z.of_nat (length (Rfm.topCustomers row)) = Z.min (Rfm.seg_count row) 3)
       (Rfm.segments data)
  /\ Rfm.totalCustomers data = Z.of_nat (length (Db.customer_findMany tenantId s)).
Proof.
  cbv zeta. unfold Rfm.rfmSegments.
  cbn [Rfm.segments Rfm.totalCustomers].
  destruct (fold_tally now s (Db.customer_findMany tenantId s) Rfm.initialSegments)
    as (Hnames & Hcapped & Hcount); [reflexivity|repeat constructor; cbn; lia|].
  set (segs := fold_left (Rfm.tally now s) (Db.customer_findMany tenantId s)
                 Rfm.initialSegments) in *.
  match goal with |- context [map ?f segs] => set (row := f) end.
  assert (forall p, Rfm.seg_count (row p) = Rfm.count (snd p)) as Hrow_count
    by (by intros [name a]).
  assert (forall p, Rfm.segment (row p) = fst p) as Hrow_name by (by intros [name a]).
  assert (forall p, Rfm.topCustomers (row p) = Rfm.acc_customers (snd p)) as Hrow_top
    by (by intros [name a]).
  split_and!.
  - rewrite <- (counted_positive segs Hcapped) in Hcount.
    change (counted Rfm.initialSegments) with 0 in Hcount. rewrite Z.add_0_l in Hcount.
    rewrite <- Hcount. f_equal. clear -Hrow_count.
    induction segs as [|p segs IH]; [reflexivity|].
    cbn [map]. rewrite !filter_cons, Hrow_count.
    destruct (decide (0 < Rfm.count (snd p))); cbn [map]; [rewrite Hrow_count|]; by rewrite IH.
  - transitivity (map Rfm.segment (map row segs)).
    + change (map Rfm.segment ?l) with (Rfm.segment <$> l).
      apply fmap_sublist, sublist_filter.
    + rewrite map_map. erewrite map_ext; [|exact Hrow_name]. by rewrite Hnames.
  - apply Forall_forall. intros r Hr.
    apply list_elem_of_filter in Hr as [Hpos Hr].
    apply list_elem_of_fmap in Hr as (p & -> & Hp).
    split; [exact Hpos|].
    rewrite Forall_forall in Hcapped. destruct (Hcapped p Hp) as [_ Hlen].
    by rewrite Hrow_top, Hrow_count.
  - reflexivity.
Qed.

(** ** Reconciliation: what a delivery writes *)

Section Columns.
Import Db.

Lemma updated_updated (old v : jsval) : updated (updated old v) v = updated old v.
Proof. by destruct v. Qed.

Lemma updated_created (v : jsval) : updated (created v) v = created v.
Proof. by destruct v. Qed.

Lemma updated_created_or (v : jsval) :
  updated (created v) (Js.or v JUndefined) = created v.
Proof. unfold Js.or. destruct (Js.truthy v) eqn:Hv; [|reflexivity]. by destruct v. Qed.

Lemma updated_falsy (old v : jsval) :
  Js.truthy v = false -> updated old (Js.or v JUndefined) = old.
Proof. intros Hv. unfold Js.or. by rewrite Hv. Qed.

End Columns.

Section OrderTables.
Import Db ShopifyService.
Context `{Builtins}.
Variables (tenantId : string).

(** The loop over the line items writes line items only, also when it
    stops at an item it cannot read. *)
Lemma for_of_createLineItem_frame (orderId : N) (items : list jsval) (count : Z)
    (s s' : Store) (r : Result Z) :
  for_of (createLineItem orderId) items count s = (s', r) ->
  tenants s' = tenants s /\ customers s' = customers s /\ orders s' = orders s
  /\ products s' = products s /\ events s' = events s /\ syncLogs s' = syncLogs s.
Proof.
  revert count s. induction items as [|item items IH]; intros count s Hrun.
  - cbn in Hrun. injection Hrun as <- _. repeat split.
  - cbn [for_of] in Hrun.
    unfold bind at 1, createLineItem at 1, bind at 1, deref at 1 in Hrun.
    destruct (Js.nullish item).
    + cbn in Hrun. injection Hrun as <- _. repeat split.
    + unfold ret at 1, bind at 1, orderLineItem_create at 1 in Hrun.
      unfold ret at 1 in Hrun.
      apply IH in Hrun. exact Hrun.
Qed.

(** The step after the order row: the line items of the payload replace
    those stored for the order; no other table is written. *)
Lemma lineItems_frame (order : jsval) (orderId : N) (s s' : Store) (r : Result unit) :
  (if Js.truthy (Js.get "line_items" order) then
     await_ orderLineItem_deleteMany orderId;
     await items <- lift (Js.iterate "order.line_items" (Js.get "line_items" order));
     await_ for_of (createLineItem orderId) items 0;
     ret tt
   else ret tt) s = (s', r) ->
  tenants s' = tenants s /\ customers s' = customers s /\ orders s' = orders s
  /\ products s' = products s /\ events s' = events s /\ syncLogs s' = syncLogs s.
Proof.
  destruct (Js.truthy _).
  - unfold bind at 1, orderLineItem_deleteMany at 1, write at 1.
    unfold bind at 1, lift at 1. destruct (Js.iterate _) as [items|e].
    + unfold bind at 1.
      destruct (for_of _ items 0 _) as [s3 [n|e]] eqn:Hloop;
        apply for_of_createLineItem_frame in Hloop; intros [= <- _]; exact Hloop.
    + intros [= <- _]. repeat split.
  - intros [= <- _]. repeat split.
Qed.

(** The tables after one pull reconciliation of an order, whether or not
    its line items could all be written. *)
Lemma syncOrder_tables (now : Z) (order : jsval) (s : Store) :
  Js.nullish order = false ->
  let customerData := Js.get "customer" order in
  let ckey := (tenantId, Js.String_ (Js.get "id" customerData)) in
  let okey := (tenantId, Js.String_ (Js.get "id" order)) in
  let hasCustomer := Js.truthy (Js.qget "id" customerData) in
  let crow := match customers s !! ckey with
              | Some row => embedded_customer_update_data now customerData row
              | None => embedded_customer_create_data tenantId now customerData (nextId s)
              end in
  let customerId := if hasCustomer then Some (c_id crow) else None in
  let next := if hasCustomer
              then match customers s !! ckey with
                   | Some _ => nextId s
                   | None => (nextId s + 1)%N
                   end
              else nextId s in
  let orow := match orders s !! okey with
              | Some row => order_update_data now order customerId row
              | None => order_create_data tenantId now order customerId next
              end in
  let s' := fst (syncOrder tenantId now order s) in
  customers s' = (if hasCustomer then <[ckey := crow]> (customers s) else customers s)
  /\ orders s' = <[okey := orow]> (orders s)
  /\ products s' = products s
  /\ tenants s' = tenants s
  /\ events s' = events s
  /\ syncLogs s' = syncLogs s.
Proof.
  intros Horder. cbv zeta.
  destruct (syncOrder tenantId now order s) as [s' r] eqn:Hrun. cbn [fst].
  unfold syncOrder in Hrun. unfold bind at 1, deref at 1 in Hrun.
  rewrite Horder in Hrun. unfold ret at 1 in Hrun. unfold bind at 1 in Hrun.
  destruct (Js.truthy (Js.qget "id" (Js.get "customer" order))).
  - unfold bind at 1, customer_upsert at 1 in Hrun.
    destruct (customers s !! _) as [crow|]; unfold ret at 1 in Hrun;
      unfold bind at 1, order_upsert at 1 in Hrun;
      cbn [orders with_customers bump nextId] in Hrun;
      destruct (orders s !! _) as [orow|];
      apply lineItems_frame in Hrun as (-> & -> & -> & -> & -> & ->);
      cbn; repeat split.
  - unfold ret at 1 in Hrun. unfold bind at 1, order_upsert at 1 in Hrun.
    destruct (orders s !! _) as [orow|];
      apply lineItems_frame in Hrun as (-> & -> & -> & -> & -> & ->);
      cbn; repeat split.
Qed.

End OrderTables.

(** X15: A customer delivered again is absorbed.  Once a payload has been
    reconciled, reconciling the same payload again, at the same or at a
    later time and on either path, changes nothing in the store but
    [updatedAt] on the row of the customer: no second row appears, no id
    is generated, and [createdAt] stays that of the first write.  The
    webhook handler and the body of the pull loop are the same routine. *)
Theorem customer_redelivery_absorbed `{Builtins} (tenantId : string) (now1 now2 : Z)
    (customer : jsval) (s : Db.Store) :
  Js.nullish customer = false ->
  let key := (tenantId, Js.String_ (Js.get "id" customer)) in
  let s1 := fst (ShopifyService.syncCustomer tenantId now1 customer s) in
  exists row,
    Db.customers s1 !! key = Some row
    /\ fst (ShopifyService.syncCustomer tenantId now2 customer s1)
       = Db.with_customers (<[key := customer_touched now2 row]> (Db.customers s1)) s1
    /\ fst (Webhooks.handleCustomerWebhook tenantId now1 customer s) = s1
    /\ fst (Webhooks.handleCustomerWebhook tenantId now2 customer s1)
       = Db.with_customers (<[key := customer_touched now2 row]> (Db.customers s1)) s1.
Proof.
  intros Hcustomer. cbv zeta.
  unfold Webhooks.handleCustomerWebhook, ShopifyService.syncCustomer, Db.bind,
    ShopifyService.deref.
  rewrite Hcustomer. cbn. unfold Db.customer_upsert.
  destruct (Db.customers s !! _) as [old|]; cbn; rewrite lookup_insert_eq;
    eexists; (split; [reflexivity|]); cbn;
    unfold ShopifyService.customer_update_data, customer_touched; cbn;
    rewrite ?updated_updated, ?updated_created; by split_and!.
Qed.

Lemma customer_redelivery_absorbed_witness :
  let key := ("tenant-a", Js.String_ (Js.get "id" Inputs.customer123)) in
  let s1 := fst (@ShopifyService.syncCustomer Inputs.node "tenant-a" 10 Inputs.customer123
                   Inputs.store0) in
  exists row,
    Db.customers s1 !! key = Some row
    /\ fst (@ShopifyService.syncCustomer Inputs.node "tenant-a" 20 Inputs.customer123 s1)
       = Db.with_customers (<[key := customer_touched 20 row]> (Db.customers s1)) s1
    /\ fst (@Webhooks.handleCustomerWebhook Inputs.node "tenant-a" 10 Inputs.customer123
              Inputs.store0) = s1
    /\ fst (@Webhooks.handleCustomerWebhook Inputs.node "tenant-a" 20 Inputs.customer123 s1)
       = Db.with_customers (<[key := customer_touched 20 row]> (Db.customers s1)) s1.
Proof.
  apply (@customer_redelivery_absorbed Inputs.node "tenant-a" 10 20 Inputs.customer123
           Inputs.store0).
  reflexivity.
Defined.

(** X16: A product delivered again is absorbed.  Once a payload has been
    reconciled, reconciling the same payload again, at the same or at a
    later time and on either path, changes nothing in the store but
    [updatedAt] on the row of the product: no second row appears, no id
    is generated, and [createdAt] stays that of the first write. *)
Theorem product_redelivery_absorbed `{Builtins} (tenantId : string) (now1 now2 : Z)
    (product : jsval) (s : Db.Store) :
  Js.nullish product = false ->
  let key := (tenantId, Js.String_ (Js.get "id" product)) in
  let s1 := fst (ShopifyService.syncProduct tenantId now1 product s) in
  exists row,
    Db.products s1 !! key = Some row
    /\ fst (ShopifyService.syncProduct tenantId now2 product s1)
       = Db.with_products (<[key := product_touched now2 row]> (Db.products s1)) s1
    /\ fst (Webhooks.handleProductWebhook tenantId now1 product s) = s1
    /\ fst (Webhooks.handleProductWebhook tenantId now2 product s1)
       = Db.with_products (<[key := product_touched now2 row]> (Db.products s1)) s1.
Proof.
  intros Hproduct. cbv zeta.
  unfold Webhooks.handleProductWebhook, ShopifyService.syncProduct, Db.bind,
    ShopifyService.deref.
  rewrite Hproduct. cbn. unfold Db.product_upsert.
  destruct (Db.products s !! _) as [old|]; cbn; rewrite lookup_insert_eq;
    eexists; (split; [reflexivity|]); cbn;
    unfold ShopifyService.product_update_data, product_touched; cbn;
    rewrite ?updated_updated, ?updated_created; by split_and!.
Qed.

Lemma product_redelivery_absorbed_witness :
  let product := JObj [("id", JNum 77); ("title", JStr "Mug");
                       ("variants", JArr [JObj [("price", JStr "9.50")]])] in
  let key := ("tenant-a", Js.String_ (Js.get "id" product)) in
  let s1 := fst (@ShopifyService.syncProduct Inputs.node "tenant-a" 10 product
                   Inputs.store0) in
  exists row,
    Db.products s1 !! key = Some row
    /\ fst (@ShopifyService.syncProduct Inputs.node "tenant-a" 20 product s1)
       = Db.with_products (<[key := product_touched 20 row]> (Db.products s1)) s1
    /\ fst (@Webhooks.handleProductWebhook Inputs.node "tenant-a" 10 product
              Inputs.store0) = s1
    /\ fst (@Webhooks.handleProductWebhook Inputs.node "tenant-a" 20 product s1)
       = Db.with_products (<[key := product_touched 20 row]> (Db.products s1)) s1.
Proof.
  apply (@product_redelivery_absorbed Inputs.node "tenant-a" 10 20
           (JObj [("id", JNum 77); ("title", JStr "Mug");
                  ("variants", JArr [JObj [("price", JStr "9.50")]])])
           Inputs.store0).
  reflexivity.
Defined.

(** X17: An order pulled again is absorbed in the customer and order tables.
    Once an order payload has been pulled, pulling the same payload again,
    at the same or at a later time, changes nothing in the two tables but
    [updatedAt] on the row of the order and, when the payload names a
    customer, on the row of that customer; the products are untouched.
    This holds also when the line items could not all be written.  (The
    line items themselves are deleted and created again, under new
    ids.) *)
Theorem order_resync_absorbed `{Builtins} (tenantId : string) (now1 now2 : Z)
    (order : jsval) (s : Db.Store) :
  Js.nullish order = false ->
  let okey := (tenantId, Js.String_ (Js.get "id" order)) in
  let ckey := (tenantId, Js.String_ (Js.get "id" (Js.get "customer" order))) in
  let s1 := fst (ShopifyService.syncOrder tenantId now1 order s) in
  let s2 := fst (ShopifyService.syncOrder tenantId now2 order s1) in
  (exists orow,
     Db.orders s1 !! okey = Some orow
     /\ Db.orders s2 = <[okey := order_touched now2 orow]> (Db.orders s1))
  /\ (if Js.truthy (Js.qget "id" (Js.get "customer" order))
      then exists crow,
             Db.customers s1 !! ckey = Some crow
             /\ Db.customers s2 = <[ckey := customer_touched now2 crow]> (Db.customers s1)
      else Db.customers s2 = Db.customers s1)
  /\ Db.products s2 = Db.products s1.
Proof.
  intros Horder. cbv zeta.
  pose proof (syncOrder_tables tenantId now1 order s Horder) as Hfirst.
  pose proof (syncOrder_tables tenantId now2 order
                (fst (ShopifyService.syncOrder tenantId now1 order s)) Horder) as Hsecond.
  cbv zeta in Hfirst, Hsecond.
  destruct Hsecond as (-> & -> & -> & _).
  destruct Hfirst as (-> & -> & -> & _).
  destruct (Js.truthy (Js.qget "id" (Js.get "customer" order)));
    destruct (Db.customers s
                !! (tenantId, Js.String_ (Js.get "id" (Js.get "customer" order))))
      as [customer|];
    destruct (Db.orders s !! (tenantId, Js.String_ (Js.get "id" order))) as [row|];
    rewrite ?lookup_insert_eq;
    (split; [|split]); try reflexivity;
    (eexists; (split; [reflexivity|]); f_equal);
    unfold ShopifyService.embedded_customer_update_data,
      ShopifyService.embedded_customer_create_data,
      ShopifyService.order_update_data, ShopifyService.order_create_data,
      customer_touched, order_touched; cbn;
    by rewrite ?updated_updated, ?updated_created_or, ?updated_created.
Qed.

Lemma order_resync_absorbed_witness :
  let order := Inputs.order9001 [Inputs.itemA] in
  let okey := ("tenant-a", Js.String_ (Js.get "id" order)) in
  let ckey := ("tenant-a", Js.String_ (Js.get "id" (Js.get "customer" order))) in
  let s1 := fst (@ShopifyService.syncOrder Inputs.node "tenant-a" 10 order Inputs.store0) in
  let s2 := fst (@ShopifyService.syncOrder Inputs.node "tenant-a" 20 order s1) in
  (exists orow,
     Db.orders s1 !! okey = Some orow
     /\ Db.orders s2 = <[okey := order_touched 20 orow]> (Db.orders s1))
  /\ (if Js.truthy (Js.qget "id" (Js.get "customer" order))
      then exists crow,
             Db.customers s1 !! ckey = Some crow
             /\ Db.customers s2 = <[ckey := customer_touched 20 crow]> (Db.customers s1)
      else Db.customers s2 = Db.customers s1)
  /\ Db.products s2 = Db.products s1.
Proof.
  apply (@order_resync_absorbed Inputs.node "tenant-a" 10 20
           (Inputs.order9001 [Inputs.itemA]) Inputs.store0).
  reflexivity.
Defined.

(** X18: An order without a customer id (a guest checkout) writes no customer
    and is stored unlinked; on an order that was linked before, the pull
    path removes the link. *)
Theorem guest_order_unlinked `{Builtins} (tenantId : string) (now : Z)
    (order : jsval) (s : Db.Store) :
  Js.nullish order = false ->
  Js.truthy (Js.qget "id" (Js.get "customer" order)) = false ->
  let s' := fst (ShopifyService.syncOrder tenantId now order s) in
  Db.customers s' = Db.customers s
  /\ exists row,
       Db.orders s' !! (tenantId, Js.String_ (Js.get "id" order)) = Some row
       /\ Db.o_customerId row = None.
Proof.
  intros Horder Hguest.
  pose proof (syncOrder_tables tenantId now order s Horder) as Htables.
  cbv zeta in *. rewrite Hguest in Htables.
  destruct Htables as (-> & -> & _). split; [reflexivity|].
  rewrite lookup_insert_eq. eexists. split; [reflexivity|].
  by destruct (Db.orders s !! _).
Qed.

Lemma guest_order_unlinked_witness :
  let order := JObj [("id", JNum 9100); ("name", JStr "#1100");
                     ("total_price", JStr "12.00"); ("created_at", JNum 1700000000000)] in
  let s' := fst (@ShopifyService.syncOrder Inputs.node "tenant-a" 0 order Inputs.store0) in
  Db.customers s' = Db.customers Inputs.store0
  /\ exists row,
       Db.orders s' !! ("tenant-a", Js.String_ (Js.get "id" order)) = Some row
       /\ Db.o_customerId row = None.
Proof.
  apply (@guest_order_unlinked Inputs.node "tenant-a" 0
           (JObj [("id", JNum 9100); ("name", JStr "#1100");
                  ("total_price", JStr "12.00"); ("created_at", JNum 1700000000000)])
           Inputs.store0); reflexivity.
Defined.

(** X19: The customer embedded in an order never overwrites the figures the
    customer sync maintains.  For a customer already stored the row keeps
    its id, [totalSpent], [ordersCount], [tags] and [shopifyCreatedAt],
    and a contact column for which the payload has no truthy value stays
    as it is; a customer first seen in an order starts with [totalSpent]
    0 and [ordersCount] 0 whatever the embedded object says. *)
Theorem embedded_customer_totals `{Builtins} (tenantId : string) (now : Z)
    (order : jsval) (s : Db.Store) :
  Js.nullish order = false ->
  Js.truthy (Js.qget "id" (Js.get "customer" order)) = true ->
  let customerData := Js.get "customer" order in
  let key := (tenantId, Js.String_ (Js.get "id" customerData)) in
  let s' := fst (ShopifyService.syncOrder tenantId now order s) in
  exists row,
    Db.customers s' !! key = Some row
    /\ (forall other, other <> key -> Db.customers s' !! other = Db.customers s !! other)
    /\ match Db.customers s !! key with
       | Some old =>
           Db.c_id row = Db.c_id old
           /\ Db.c_totalSpent row = Db.c_totalSpent old
           /\ Db.c_ordersCount row = Db.c_ordersCount old
           /\ Db.c_tags row = Db.c_tags old
           /\ Db.c_shopifyCreatedAt row = Db.c_shopifyCreatedAt old
           /\ (Js.truthy (Js.get "email" customerData) = false ->
               Db.c_email row = Db.c_email old)
       | None =>
           Db.c_id row = Db.nextId s
           /\ Db.c_totalSpent row = 0%float
           /\ Db.c_ordersCount row = JNum 0
           /\ Db.c_tags row = JNull
           /\ Db.c_shopifyCreatedAt row = None
       end.
Proof.
  intros Horder Hcustomer.
  pose proof (syncOrder_tables tenantId now order s Horder) as Htables.
  cbv zeta in *. rewrite Hcustomer in Htables.
  destruct Htables as (-> & _).
  eexists. split; [apply lookup_insert_eq|].
  split; [intros other Hother; by rewrite lookup_insert_ne|].
  destruct (Db.customers s !! _) as [old|]; cbn; [|by repeat split].
  split_and!; try reflexivity. intros Hemail. by apply updated_falsy.
Qed.

Lemma embedded_customer_totals_witness :
  let customerData := Js.get "customer" (Inputs.order9001 [Inputs.itemA]) in
  let key := ("tenant-a", Js.String_ (Js.get "id" customerData)) in
  let s' := fst (@ShopifyService.syncOrder Inputs.node "tenant-a" 0
                   (Inputs.order9001 [Inputs.itemA]) Inputs.store0) in
  exists row,
    Db.customers s' !! key = Some row
    /\ (forall other, other <> key ->
          Db.customers s' !! other = Db.customers Inputs.store0 !! other)
    /\ match Db.customers Inputs.store0 !! key with
       | Some old =>
           Db.c_id row = Db.c_id old
           /\ Db.c_totalSpent row = Db.c_totalSpent old
           /\ Db.c_ordersCount row = Db.c_ordersCount old
           /\ Db.c_tags row = Db.c_tags old
           /\ Db.c_shopifyCreatedAt row = Db.c_shopifyCreatedAt old
           /\ (Js.truthy (Js.get "email" customerData) = false ->
               Db.c_email row = Db.c_email old)
       | None =>
           Db.c_id row = Db.nextId Inputs.store0
           /\ Db.c_totalSpent row = 0%float
           /\ Db.c_ordersCount row = JNum 0
           /\ Db.c_tags row = JNull
           /\ Db.c_shopifyCreatedAt row = None
       end.
Proof.
  apply (@embedded_customer_totals Inputs.node "tenant-a" 0
           (Inputs.order9001 [Inputs.itemA]) Inputs.store0); reflexivity.
Defined.

(** X20: A product delivered without a first variant is stored with price 0,
    no compare-at price and inventory 0: an update of this shape resets
    the price the row had. *)
Theorem product_without_variants `{Builtins} (tenantId : string) (now : Z)
    (product : jsval) (s : Db.Store) :
  Js.nullish product = false ->
  Js.qfirst (Js.get "variants" product) = JUndefined ->
  exists row,
    Db.products (fst (ShopifyService.syncProduct tenantId now product s))
      !! (tenantId, Js.String_ (Js.get "id" product)) = Some row
    /\ Db.p_price row = 0%float
    /\ Db.p_compareAtPrice row = None
    /\ Db.p_inventory row = JNum 0.
Proof.
  intros Hproduct Hvariants.
  unfold ShopifyService.syncProduct, Db.bind, ShopifyService.deref.
  rewrite Hproduct. cbn. unfold Db.product_upsert.
  destruct (Db.products s !! _) as [old|]; cbn; rewrite lookup_insert_eq;
    eexists; (split; [reflexivity|]);
    unfold ShopifyService.product_update_data, ShopifyService.product_create_data;
    cbn; rewrite Hvariants; by cbn.
Qed.

Lemma product_without_variants_witness :
  exists row,
    Db.products
      (fst (@ShopifyService.syncProduct Inputs.node "tenant-a" 0
              (JObj [("id", JNum 77); ("title", JStr "Mug"); ("variants", JArr [])])
              Inputs.store0))
      !! ("tenant-a",
          Js.String_ (Js.get "id"
                        (JObj [("id", JNum 77); ("title", JStr "Mug");
                               ("variants", JArr [])]))) = Some row
    /\ Db.p_price row = 0%float
    /\ Db.p_compareAtPrice row = None
    /\ Db.p_inventory row = JNum 0.
Proof.
  apply (@product_without_variants Inputs.node "tenant-a" 0
           (JObj [("id", JNum 77); ("title", JStr "Mug"); ("variants", JArr [])])
           Inputs.store0); reflexivity.
Defined.

(** X21: For customers and products the push path and the pull path are the
    same reconciliation: a webhook delivery of a payload leaves the store
    that a pull of a page holding just that payload leaves, and the pull
    counts one item. *)
Theorem push_equals_pull `{Builtins} (api : ShopifyService.ShopifyApi)
    (config : ShopifyService.ShopifyConfig) (tenantId : string) (now : Z)
    (payload : jsval) (s : Db.Store) :
  Js.nullish payload = false ->
  api config "customers" [("limit", "250")] = Ok (JObj [("customers", JArr [payload])]) ->
  api config "products" [("limit", "250")] = Ok (JObj [("products", JArr [payload])]) ->
  ShopifyService.syncCustomers tenantId now api config s
  = (fst (Webhooks.dispatch tenantId now "customers/update" payload s), Ok 1)
  /\ ShopifyService.syncProducts tenantId now api config s
     = (fst (Webhooks.dispatch tenantId now "products/update" payload s), Ok 1).
Proof.
  intros Hpayload Hcustomers Hproducts. split.
  - unfold ShopifyService.syncCustomers, ShopifyService.shopifyRequest, Db.bind at 1,
      Db.lift at 1.
    rewrite Hcustomers. cbn.
    unfold ShopifyService.syncCustomer, Webhooks.handleCustomerWebhook, Db.bind,
      ShopifyService.deref.
    rewrite Hpayload. cbn. unfold Db.customer_upsert.
    by destruct (Db.customers s !! _).
  - unfold ShopifyService.syncProducts, ShopifyService.shopifyRequest, Db.bind at 1,
      Db.lift at 1.
    rewrite Hproducts. cbn.
    unfold ShopifyService.syncProduct, Webhooks.handleProductWebhook, Db.bind,
      ShopifyService.deref.
    rewrite Hpayload. cbn. unfold Db.product_upsert.
    by destruct (Db.products s !! _).
Qed.

Lemma push_equals_pull_witness :
  let api : ShopifyService.ShopifyApi :=
    fun _ endpoint _ =>
      Ok (JObj [(endpoint, JArr [JObj [("id", JNum 5); ("title", JStr "Mug")]])]) in
  let config := {| ShopifyService.domain := "store-a";
                   ShopifyService.config_accessToken := "shpat_a" |} in
  let payload := JObj [("id", JNum 5); ("title", JStr "Mug")] in
  @ShopifyService.syncCustomers Inputs.node "tenant-a" 0 api config Inputs.store0
  = (fst (@Webhooks.dispatch Inputs.node "tenant-a" 0 "customers/update" payload
            Inputs.store0), Ok 1)
  /\ @ShopifyService.syncProducts Inputs.node "tenant-a" 0 api config Inputs.store0
     = (fst (@Webhooks.dispatch Inputs.node "tenant-a" 0 "products/update" payload
               Inputs.store0), Ok 1).
Proof.
  apply (@push_equals_pull Inputs.node
           (fun _ endpoint _ =>
              Ok (JObj [(endpoint, JArr [JObj [("id", JNum 5); ("title", JStr "Mug")]])]))
           {| ShopifyService.domain := "store-a";
              ShopifyService.config_accessToken := "shpat_a" |}
           "tenant-a" 0 (JObj [("id", JNum 5); ("title", JStr "Mug")]) Inputs.store0);
    reflexivity.
Defined.

(** X29: The order webhook writes the order row and nothing else: it creates
    no customer and leaves the stored line items of the order as they are.
    A new order is linked to the customer of the payload only if that
    customer is stored already, and an order that exists keeps the link
    it has, whatever customer the payload names. *)
Theorem order_webhook_scope `{Builtins} (tenantId : string) (now : Z)
    (payload : jsval) (s : Db.Store) :
  Js.nullish payload = false ->
  let key := (tenantId, Js.String_ (Js.get "id" payload)) in
  let customerKey := (tenantId, Js.String_ (Js.get "id" (Js.get "customer" payload))) in
  let s' := fst (Webhooks.handleOrderWebhook tenantId now payload s) in
  Db.customers s' = Db.customers s
  /\ Db.orderLineItems s' = Db.orderLineItems s
  /\ Db.products s' = Db.products s
  /\ (forall other, other <> key -> Db.orders s' !! other = Db.orders s !! other)
  /\ exists row,
       Db.orders s' !! key = Some row
       /\ match Db.orders s !! key with
          | Some old =>
              Db.o_id row = Db.o_id old /\ Db.o_customerId row = Db.o_customerId old
          | None =>
              Db.o_id row = Db.nextId s
              /\ Db.o_customerId row
                 = if Js.truthy (Js.qget "id" (Js.get "customer" payload))
                   then Db.c_id <$> Db.customers s !! customerKey
                   else None
          end.
Proof.
  intros Hpayload. cbv zeta.
  unfold Webhooks.handleOrderWebhook, Db.bind, ShopifyService.deref,
    Db.customer_findUnique, Db.read, Db.order_upsert.
  rewrite Hpayload.
  destruct (Js.truthy (Js.qget "id" (Js.get "customer" payload))); cbn;
    destruct (Db.orders s !! (tenantId, Js.String_ (Js.get "id" payload))) as [old|];
    cbn;
    (split_and!; try done; [intros other Hother; by rewrite lookup_insert_ne|]);
    rewrite lookup_insert_eq; eexists; (split; [reflexivity|]); cbn;
    try done; split; try done; by destruct (Db.customers s !! _).
Qed.

Lemma order_webhook_scope_witness :
  let payload := Inputs.order9001 [Inputs.itemA] in
  let key := ("tenant-a", Js.String_ (Js.get "id" payload)) in
  let customerKey := ("tenant-a", Js.String_ (Js.get "id" (Js.get "customer" payload))) in
  let s' := fst (@Webhooks.handleOrderWebhook Inputs.node "tenant-a" 0 payload
                   Inputs.store0) in
  Db.customers s' = Db.customers Inputs.store0
  /\ Db.orderLineItems s' = Db.orderLineItems Inputs.store0
  /\ Db.products s' = Db.products Inputs.store0
  /\ (forall other, other <> key ->
        Db.orders s' !! other = Db.orders Inputs.store0 !! other)
  /\ exists row,
       Db.orders s' !! key = Some row
       /\ match Db.orders Inputs.store0 !! key with
          | Some old =>
              Db.o_id row = Db.o_id old /\ Db.o_customerId row = Db.o_customerId old
          | None =>
              Db.o_id row = Db.nextId Inputs.store0
              /\ Db.o_customerId row
                 = if Js.truthy (Js.qget "id" (Js.get "customer" payload))
                   then Db.c_id <$> Db.customers Inputs.store0 !! customerKey
                   else None
          end.
Proof.
  apply (@order_webhook_scope Inputs.node "tenant-a" 0 (Inputs.order9001 [Inputs.itemA])
           Inputs.store0).
  reflexivity.
Defined.

(** ** The sync run and its log rows *)

Section Audit.
Import Db ShopifyService.
Context `{Builtins}.

#[local] Instance same_audit_refl : Reflexive same_audit.
Proof. intros s. unfold same_audit. split_and!; [done..|lia]. Qed.

#[local] Instance same_audit_trans : Transitive same_audit.
Proof.
  intros s1 s2 s3 (Ht & Hl & Hn) (Ht' & Hl' & Hn'). unfold same_audit.
  split_and!; [congruence..|lia].
Qed.

Section Keeps.
Context (R : Store -> Store -> Prop) `{!Reflexive R, !Transitive R}.

Lemma keeps_ret {A : Type} (a : A) : keeps R (ret a).
Proof. intros s. reflexivity. Qed.

Lemma keeps_throw {A : Type} (e : string) : keeps R (@throw A e).
Proof. intros s. reflexivity. Qed.

Lemma keeps_lift {A : Type} (r : Result A) : keeps R (lift r).
Proof. intros s. reflexivity. Qed.

Lemma keeps_bind {A B : Type} (m : M A) (k : A -> M B) :
  keeps R m -> (forall a, keeps R (k a)) -> keeps R (bind m k).
Proof.
  intros Hm Hk s. unfold bind. specialize (Hm s).
  destruct (m s) as [s1 [a|e]]; cbn in *; [|exact Hm].
  etransitivity; [exact Hm|apply Hk].
Qed.

Lemma keeps_for_of (body : jsval -> M unit) (xs : list jsval) (count : Z) :
  (forall x, keeps R (body x)) -> keeps R (for_of body xs count).
Proof.
  intros Hbody. revert count. induction xs as [|x xs IH]; intros count.
  - apply keeps_ret.
  - cbn [for_of]. apply keeps_bind; [apply Hbody|intros ?; apply IH].
Qed.

End Keeps.

Lemma deref_audit (property : string) (v : jsval) :
  keeps same_audit (deref property v).
Proof. unfold deref. destruct (Js.nullish v); [apply keeps_throw|apply keeps_ret]; apply _. Qed.

Lemma customer_upsert_audit (key : NaturalKey) (update : Customer -> Customer)
    (create : N -> Customer) :
  keeps same_audit (customer_upsert key update create).
Proof.
  intros s. unfold customer_upsert, same_audit.
  destruct (customers s !! key); cbn; split_and!; try done; lia.
Qed.

Lemma order_upsert_audit (key : NaturalKey) (update : Order -> Order)
    (create : N -> Order) :
  keeps same_audit (order_upsert key update create).
Proof.
  intros s. unfold order_upsert, same_audit.
  destruct (orders s !! key); cbn; split_and!; try done; lia.
Qed.

Lemma product_upsert_audit (key : NaturalKey) (update : Product -> Product)
    (create : N -> Product) :
  keeps same_audit (product_upsert key update create).
Proof.
  intros s. unfold product_upsert, same_audit.
  destruct (products s !! key); cbn; split_and!; try done; lia.
Qed.

Lemma orderLineItem_deleteMany_audit (orderId : N) :
  keeps same_audit (orderLineItem_deleteMany orderId).
Proof. intros s. unfold same_audit. cbn. split_and!; try done; lia. Qed.

Lemma orderLineItem_create_audit (data : N -> OrderLineItem) :
  keeps same_audit (orderLineItem_create data).
Proof. intros s. unfold same_audit. cbn. split_and!; try done; lia. Qed.

Lemma event_create_audit (data : N -> Event) : keeps same_audit (event_create data).
Proof. intros s. unfold same_audit. cbn. split_and!; try done; lia. Qed.

Lemma read_audit {A : Type} (f : Store -> A) : keeps same_audit (read f).
Proof. intros s. reflexivity. Qed.

Lemma logs_fresh_audit (s s' : Store) : logs_fresh s -> same_audit s s' -> logs_fresh s'.
Proof.
  intros Hfresh (_ & Hlogs & Hnext). unfold logs_fresh. rewrite Hlogs.
  eapply Forall_impl; [exact Hfresh|]. cbn. intros l Hl. lia.
Qed.

Ltac audit :=
  repeat first
    [ apply keeps_ret; apply _
    | apply read_audit
    | apply event_create_audit
    | apply keeps_throw; apply _
    | apply keeps_lift; apply _
    | apply deref_audit
    | apply customer_upsert_audit
    | apply order_upsert_audit
    | apply product_upsert_audit
    | apply orderLineItem_deleteMany_audit
    | apply orderLineItem_create_audit
    | apply keeps_for_of; try apply _; intros ?
    | apply keeps_bind; try apply _; [|intros ?]
    | match goal with |- keeps _ (if ?b then _ else _) => destruct b end ].

Variables (api : ShopifyApi) (now : Z).

(** Fetching and reconciling the records of one type writes neither
    tenants nor sync logs and takes generated ids in increasing order. *)
Lemma sync_body_audit (tenantId : string) (config : ShopifyConfig) (type : SyncType) :
  keeps same_audit
    match type with
    | customers_t => syncCustomers tenantId now api config
    | orders_t => syncOrders tenantId now api config
    | products_t => syncProducts tenantId now api config
    end.
Proof.
  destruct type;
    unfold syncCustomers, syncOrders, syncProducts, shopifyRequest,
      syncCustomer, syncOrder, syncProduct, createLineItem; audit.
Qed.

(** A webhook delivery writes neither tenants nor sync logs. *)
Lemma receive_audit (req : Webhooks.Request) :
  keeps same_audit (Webhooks.receive now req).
Proof.
  unfold Webhooks.receive, tenant_findUnique. cbv zeta.
  apply keeps_bind; try apply _; [apply read_audit|]. intros [tenant|]; [|audit].
  unfold Webhooks.dispatch, Webhooks.handleCustomerWebhook, Webhooks.handleOrderWebhook,
    Webhooks.handleProductWebhook, Webhooks.handleCartEvent, customer_findUnique.
  audit.
Qed.

Lemma syncLog_update_last (id : N) (data : SyncLog -> SyncLog) (logs : list SyncLog)
    (l : SyncLog) (s : Store) :
  Forall (fun l' => (l_id l' < id)%N) logs ->
  l_id l = id ->
  syncLogs s = logs ++ [l] ->
  syncLog_update id data s = (with_syncLogs (logs ++ [data l]) s, Ok tt).
Proof.
  intros Hfresh Hid Hlogs. unfold syncLog_update. rewrite Hlogs.
  rewrite existsb_app. cbn [existsb]. rewrite Hid, N.eqb_refl, orb_true_r.
  rewrite map_app. cbn [map]. rewrite Hid, N.eqb_refl. do 3 f_equal.
  clear -Hfresh. induction Hfresh as [|l' logs Hl' _ IH]; [reflexivity|].
  cbn [map]. rewrite IH. destruct (N.eqb_spec (l_id l') id); [lia|reflexivity].
Qed.

(** One round of the loop over the types: the log row created as running
    ends completed with the count of the items, or failed with the
    message of the error; the round itself does not throw. *)
Lemma syncType_run (tenantId : string) (config : ShopifyConfig) (type : SyncType)
    (s : Store) :
  logs_fresh s ->
  let running :=
    {| l_id := nextId s; l_tenantId := tenantId; l_type := type;
       l_status := "running"; l_itemCount := 0; l_error := None;
       l_startedAt := now; l_completedAt := None |} in
  let body :=
    match type with
    | customers_t => syncCustomers tenantId now api config
    | orders_t => syncOrders tenantId now api config
    | products_t => syncProducts tenantId now api config
    end (bump (with_syncLogs (syncLogs s ++ [running]) s)) in
  let final :=
    match snd body with
    | Ok count => log_completed count now running
    | Throw message => log_failed message now running
    end in
  syncType api now tenantId config type s
  = (with_syncLogs (syncLogs s ++ [final]) (fst body), Ok tt)
  /\ tenants (fst body) = tenants s
  /\ (nextId s < nextId (fst body))%N.
Proof.
  intros Hfresh. cbv zeta.
  set (running := {| l_id := nextId s; l_tenantId := tenantId; l_type := type;
                     l_status := "running"; l_itemCount := 0; l_error := None;
                     l_startedAt := now; l_completedAt := None |}).
  set (s1 := bump (with_syncLogs (syncLogs s ++ [running]) s)).
  pose proof (sync_body_audit tenantId config type s1) as (Htenants & Hlogs & Hnext).
  unfold syncType, bind at 1, syncLog_create at 1. fold running. fold s1.
  unfold try_catch, bind.
  destruct (match type with
            | customers_t => syncCustomers tenantId now api config
            | orders_t => syncOrders tenantId now api config
            | products_t => syncProducts tenantId now api config
            end s1) as [s2 [count|message]]; cbn [fst snd] in *;
    (split; [|split; [exact Htenants|subst s1; cbn in Hnext; lia]]);
    rewrite (syncLog_update_last _ _ (syncLogs s) running) by done; reflexivity.
Qed.

(** A sync run of a connected tenant. *)
Lemma syncTypes_run (tenantId : string) (config : ShopifyConfig)
    (types : list SyncType) (s : Store) :
  logs_fresh s ->
  exists s' new,
    syncTypes api now tenantId config types s = (s', Ok tt)
    /\ syncLogs s' = syncLogs s ++ new
    /\ map l_type new = types
    /\ Forall (fun l => terminal now l /\ l_tenantId l = tenantId /\ l_startedAt l = now
                        /\ (nextId s <= l_id l)%N) new
    /\ tenants s' = tenants s
    /\ (nextId s <= nextId s')%N
    /\ logs_fresh s'.
Proof.
  revert s. induction types as [|type types IH]; intros s Hfresh.
  - exists s, []. cbn. rewrite app_nil_r. split_and!; try done.
  - cbn [syncTypes]. unfold bind at 1.
    destruct (syncType_run tenantId config type s Hfresh) as (Hrun & Htenants & Hnext).
    cbv zeta in Hrun, Htenants, Hnext. rewrite Hrun.
    set (running := {| l_id := nextId s; l_tenantId := tenantId; l_type := type;
                       l_status := "running"; l_itemCount := 0; l_error := None;
                       l_startedAt := now; l_completedAt := None |}) in *.
    set (body := match type with
                 | customers_t => syncCustomers tenantId now api config
                 | orders_t => syncOrders tenantId now api config
                 | products_t => syncProducts tenantId now api config
                 end _) in *.
    set (final := match snd body with
                  | Ok count => log_completed count now running
                  | Throw message => log_failed message now running
                  end) in *.
    assert (l_id final = nextId s /\ l_type final = type /\ terminal now final
            /\ l_tenantId final = tenantId /\ l_startedAt final = now)
      as (Hid & Htype & Hterminal & Htenant & Hstarted).
    { subst final. unfold terminal. destruct (snd body); cbn; split_and!; auto. }
    destruct (IH (with_syncLogs (syncLogs s ++ [final]) (fst body)))
      as (s' & new & Hrest & Hlogs & Htypes & Hnew & Htenants' & Hnext' & Hfresh').
    { unfold logs_fresh. cbn. apply Forall_app. split.
      - eapply Forall_impl; [exact Hfresh|]. cbn. intros l Hl. lia.
      - repeat constructor. lia. }
    exists s', (final :: new). rewrite Hrest. cbn in Hlogs, Htenants', Hnext'.
    split_and!; try done.
    + by rewrite Hlogs, <- app_assoc.
    + cbn. by rewrite Htype, Htypes.
    + constructor; [split_and!; try done; lia|].
      eapply Forall_impl; [exact Hnew|]. cbn. intros l (? & ? & ? & ?).
      split_and!; try done. lia.
    + congruence.
    + lia.
Qed.

(** With the API down every round fails at its request: the log row
    records the error and no record is written. *)
Lemma syncTypes_down (tenantId : string) (config : ShopifyConfig)
    (types : list SyncType) (e : string) (s : Store) :
  (forall endpoint params, api config endpoint params = Throw e) ->
  logs_fresh s ->
  exists s' new,
    syncTypes api now tenantId config types s = (s', Ok tt)
    /\ syncLogs s' = syncLogs s ++ new
    /\ map l_type new = types
    /\ Forall (fun l => l_status l = "failed" /\ l_error l = Some e
                        /\ l_itemCount l = 0 /\ l_completedAt l = Some now) new
    /\ same_records s s'
    /\ tenants s' = tenants s.
Proof.
  intros Hdown. revert s. induction types as [|type types IH]; intros s Hfresh.
  - exists s, []. cbn. rewrite app_nil_r. by split_and!.
  - cbn [syncTypes]. unfold bind at 1.
    destruct (syncType_run tenantId config type s Hfresh) as (Hrun & _ & _).
    cbv zeta in Hrun. rewrite Hrun. clear Hrun.
    set (running := {| l_id := nextId s; l_tenantId := tenantId; l_type := type;
                       l_status := "running"; l_itemCount := 0; l_error := None;
                       l_startedAt := now; l_completedAt := None |}).
    set (s1 := bump (with_syncLogs (syncLogs s ++ [running]) s)).
    assert (match type with
            | customers_t => syncCustomers tenantId now api config
            | orders_t => syncOrders tenantId now api config
            | products_t => syncProducts tenantId now api config
            end s1 = (s1, Throw e)) as ->.
    { destruct type;
        unfold syncCustomers, syncOrders, syncProducts, shopifyRequest, bind, lift;
        by rewrite Hdown. }
    cbn [fst snd].
    destruct (IH (with_syncLogs (syncLogs s ++ [log_failed e now running]) s1))
      as (s' & new & Hrest & Hlogs & Htypes & Hnew & Hrecords & Htenants).
    { unfold logs_fresh. cbn. apply Forall_app. split.
      - eapply Forall_impl; [exact Hfresh|]. cbn. intros l Hl. lia.
      - repeat constructor. cbn. lia. }
    exists s', (log_failed e now running :: new). rewrite Hrest.
    cbn in Hlogs, Htenants. split_and!; try done.
    + by rewrite Hlogs, <- app_assoc.
    + cbn. by rewrite Htypes.
    + constructor; [by cbn|exact Hnew].
Qed.

(** The loop over a page of customers that can all be read counts them. *)
Lemma for_of_syncCustomer_count (tenantId : string) (page : list jsval) (count : Z)
    (s : Store) :
  Forall (fun customer => Js.nullish customer = false) page ->
  snd (for_of (syncCustomer tenantId now) page count s)
  = Ok (count + Z.of_nat (length page)).
Proof.
  intros Hpage. revert count s.
  induction Hpage as [|customer page Hcustomer _ IH]; intros count s.
  - cbn. by rewrite Z.add_0_r.
  - cbn [for_of]. unfold bind at 1, syncCustomer at 1, bind at 1, deref at 1.
    rewrite Hcustomer. unfold ret at 1, bind at 1.
    destruct (customer_upsert _ _ _ s) as [s1 [row|e]] eqn:Hupsert.
    + unfold ret at 1. rewrite IH. f_equal. cbn [length]. lia.
    + unfold customer_upsert in Hupsert. by destruct (customers s !! _).
Qed.

(** The loop stops at the first customer it cannot read; the customers
    before it have been written and stay written. *)
Lemma for_of_syncCustomer_stops (tenantId : string) (good rest : list jsval)
    (bad : jsval) (count : Z) (s s' : Store) (r : Result Z) :
  Forall (fun customer => Js.nullish customer = false) good ->
  Js.nullish bad = true ->
  for_of (syncCustomer tenantId now) (good ++ bad :: rest) count s = (s', r) ->
  r = Throw ("Cannot read properties of " +:+ Js.String_ bad +:+ " (reading 'id')")
  /\ forall key,
       is_Some (customers s !! key)
       \/ key ∈ map (fun customer => (tenantId, Js.String_ (Js.get "id" customer))) good ->
       is_Some (customers s' !! key).
Proof.
  intros Hgood Hbad. revert count s.
  induction Hgood as [|customer good Hcustomer _ IH]; intros count s Hrun.
  - cbn [app for_of] in Hrun. unfold bind at 1, syncCustomer, bind at 1, deref in Hrun.
    rewrite Hbad in Hrun. cbn in Hrun. injection Hrun as <- <-.
    split; [reflexivity|].
    intros key [Hkey|Hkey]; [exact Hkey|by apply elem_of_nil in Hkey].
  - cbn [app for_of] in Hrun.
    unfold bind at 1, syncCustomer at 1, bind at 1, deref at 1 in Hrun.
    rewrite Hcustomer in Hrun. unfold ret at 1, bind at 1 in Hrun.
    destruct (customer_upsert _ _ _ s) as [s1 [row|e]] eqn:Hupsert.
    + unfold ret at 1 in Hrun. destruct (IH _ _ Hrun) as [Hthrow Hkeys].
      split; [exact Hthrow|]. intros key Hkey. apply Hkeys.
      unfold customer_upsert in Hupsert. cbn [map] in Hkey.
      rewrite elem_of_cons in Hkey.
      destruct (decide (key = (tenantId, Js.String_ (Js.get "id" customer)))) as [->|Hne].
      * left. destruct (customers s !! _); injection Hupsert as <- _; cbn;
          rewrite lookup_insert_eq; by eexists.
      * destruct Hkey as [Hkey|[Hkey|Hkey]]; [|done|by right].
        left. destruct (customers s !! (tenantId, _)); injection Hupsert as <- _; cbn;
          by rewrite lookup_insert_ne.
    + unfold customer_upsert in Hupsert. by destruct (customers s !! _).
Qed.

(** A run for a connected tenant: the rounds, then the time stamp on
    the tenant. *)
Lemma syncTenantData_connected (tenantId token : string) (tenant : Tenant)
    (types : list SyncType) (s : Store) :
  tenants s !! tenantId = Some tenant ->
  connected tenant = Some token ->
  logs_fresh s ->
  exists s' new,
    syncTenantData api now tenantId types s = (s', Ok tt)
    /\ syncLogs s' = syncLogs s ++ new
    /\ map l_type new = types
    /\ Forall (fun l => terminal now l /\ l_tenantId l = tenantId
                        /\ l_startedAt l = now) new
    /\ tenants s'
       = <[tenantId := {| tenant_id := tenant_id tenant;
                          tenant_name := tenant_name tenant;
                          shopifyDomain := shopifyDomain tenant;
                          accessToken := accessToken tenant;
                          isActive := isActive tenant;
                          lastSyncAt := Some now |}]> (tenants s)
    /\ logs_fresh s'.
Proof.
  intros Htenant Hconnected Hfresh.
  unfold syncTenantData, bind at 1, tenant_findUnique, read.
  rewrite Htenant, Hconnected. unfold bind.
  destruct (syncTypes_run tenantId
              {| domain := shopifyDomain tenant; config_accessToken := token |}
              types s Hfresh)
    as (s1 & new & -> & Hlogs & Htypes & Hnew & Htenants & Hnext & Hfresh1).
  unfold tenant_update_lastSyncAt. rewrite Htenants, Htenant.
  eexists _, new. split; [reflexivity|]. cbn.
  split_and!; try done.
  - eapply Forall_impl; [exact Hnew|]. cbn. tauto.
  - by rewrite Htenants.
Qed.

(** A run for a tenant that is missing or not connected throws before it
    writes. *)
Lemma syncTenantData_refused (tenantId : string) (types : list SyncType) (s : Store) :
  (forall tenant, tenants s !! tenantId = Some tenant -> connected tenant = None) ->
  syncTenantData api now tenantId types s
  = (s, Throw "Tenant not found or Shopify not connected").
Proof.
  intros Hrefused. unfold syncTenantData, bind, tenant_findUnique, read.
  destruct (tenants s !! tenantId) as [tenant|]; [|reflexivity].
  by rewrite (Hrefused tenant).
Qed.

#[local] Instance tenants_advance_refl : Reflexive (tenants_advance now).
Proof.
  intros s id. destruct (tenants s !! id); [|done].
  unfold synced_since. split_and!; auto.
Qed.

#[local] Instance tenants_advance_trans : Transitive (tenants_advance now).
Proof.
  intros s1 s2 s3 H12 H23 id. specialize (H12 id). specialize (H23 id).
  destruct (tenants s1 !! id), (tenants s2 !! id), (tenants s3 !! id); try done.
  unfold synced_since in *.
  destruct H12 as (? & ? & ? & ? & ? & Ha), H23 as (? & ? & ? & ? & ? & Hb).
  split_and!; try congruence.
  destruct Hb as [Hb|Hb]; [rewrite Hb; exact Ha|by right].
Qed.

(** The sweep goes through its whole list: a tenant whose run is refused
    or fails is passed over, and every connected tenant of the list ends
    with the time stamp of the sweep. *)
Lemma sweep_run (ts : list Tenant) (s : Store) :
  logs_fresh s ->
  exists s',
    sweep api now ts s = (s', Ok tt)
    /\ logs_fresh s'
    /\ tenants_advance now s s'
    /\ forall t t0,
         t ∈ ts -> tenants s !! tenant_id t = Some t0 -> connected t0 <> None ->
         exists t', tenants s' !! tenant_id t = Some t' /\ lastSyncAt t' = Some now.
Proof.
  revert s. induction ts as [|t ts IH]; intros s Hfresh.
  - exists s. split_and!; [done..|]. intros t t0 Ht. by apply elem_of_nil in Ht.
  - cbn [sweep]. unfold bind at 1, try_catch at 1.
    assert (exists s1,
              (let (s', r) :=
                 syncTenantData api now (tenant_id t)
                   [customers_t; orders_t; products_t] s in
               match r with
               | Ok a => (s', Ok a)
               | Throw e => ret tt s'
               end) = (s1, Ok tt)
              /\ logs_fresh s1
              /\ tenants_advance now s s1
              /\ forall t0, tenants s !! tenant_id t = Some t0 -> connected t0 <> None ->
                   exists t', tenants s1 !! tenant_id t = Some t'
                              /\ lastSyncAt t' = Some now)
      as (s1 & -> & Hfresh1 & Hadvance1 & Hstamp1).
    { destruct (tenants s !! tenant_id t) as [t0|] eqn:Ht0.
      - destruct (connected t0) as [token|] eqn:Hconnected.
        + destruct (syncTenantData_connected (tenant_id t) token t0
                      [customers_t; orders_t; products_t] s Ht0 Hconnected Hfresh)
            as (s1 & new & -> & _ & _ & _ & Htenants & Hfresh1).
          exists s1. split_and!; [done..| |].
          * intros id. rewrite Htenants.
            destruct (decide (id = tenant_id t)) as [->|Hne].
            -- rewrite lookup_insert_eq, Ht0. unfold synced_since. cbn.
               split_and!; auto.
            -- rewrite lookup_insert_ne by done.
               destruct (tenants s !! id); [|done].
               unfold synced_since. split_and!; auto.
          * intros ? _ _. rewrite Htenants, lookup_insert_eq. by eexists.
        + rewrite syncTenantData_refused
            by (intros ? Heq; rewrite Ht0 in Heq; by injection Heq as <-).
          exists s. split_and!; [done..|]. intros ? [= <-]. congruence.
      - rewrite syncTenantData_refused by (intros ? Heq; by rewrite Ht0 in Heq).
        exists s. split_and!; [done..|]. intros ? [=]. }
    destruct (IH s1 Hfresh1) as (s' & -> & Hfresh' & Hadvance' & Hstamp').
    exists s'. split_and!; [done..|by etransitivity|].
    intros u u0 Hu Hu0 Hconnected. apply elem_of_cons in Hu as [->|Hu].
    + destruct (Hstamp1 u0 Hu0 Hconnected) as (t1 & Ht1 & Hsynced).
      specialize (Hadvance' (tenant_id t)). rewrite Ht1 in Hadvance'.
      destruct (tenants s' !! tenant_id t) as [t'|]; [|done].
      exists t'. split; [done|].
      destruct Hadvance' as (_ & _ & _ & _ & _ & [Hsame|Hnow]); congruence.
    + specialize (Hadvance1 (tenant_id u)). rewrite Hu0 in Hadvance1.
      destruct (tenants s1 !! tenant_id u) as [u1|] eqn:Hu1; [|done].
      apply (Hstamp' u u1 Hu Hu1).
      destruct Hadvance1 as (_ & _ & _ & Htoken & _).
      unfold connected in *. by rewrite Htoken.
Qed.

End Audit.

(** X22: A sync run of a connected tenant does not throw, whatever the API
    answers.  It appends one log row per requested type, in order, each
    in a terminal state (completed or failed) and stamped with the time of
    the run; the log rows that were there are not touched; the tenant's
    [lastSyncAt] is set to the time of the run and no other tenant is
    changed. *)
Theorem sync_run_logged `{Builtins} (api : ShopifyService.ShopifyApi) (now : Z)
    (tenantId token : string) (tenant : Db.Tenant) (types : list Db.SyncType)
    (s : Db.Store) :
  Db.tenants s !! tenantId = Some tenant ->
  ShopifyService.connected tenant = Some token ->
  logs_fresh s ->
  exists s' new,
    ShopifyService.syncTenantData api now tenantId types s = (s', Ok tt)
    /\ Db.syncLogs s' = Db.syncLogs s ++ new
    /\ map Db.l_type new = types
    /\ Forall (fun l => terminal now l /\ Db.l_tenantId l = tenantId
                        /\ Db.l_startedAt l = now) new
    /\ (exists tenant',
          Db.tenants s' !! tenantId = Some tenant'
          /\ Db.lastSyncAt tenant' = Some now
          /\ Db.accessToken tenant' = Db.accessToken tenant
          /\ Db.isActive tenant' = Db.isActive tenant)
    /\ (forall other, other <> tenantId ->
          Db.tenants s' !! other = Db.tenants s !! other)
    /\ logs_fresh s'.
Proof.
  intros Htenant Hconnected Hfresh.
  destruct (syncTenantData_connected api now tenantId token tenant types s
              Htenant Hconnected Hfresh)
    as (s' & new & Hrun & Hlogs & Htypes & Hnew & Htenants & Hfresh').
  exists s', new. split_and!; try done.
  - rewrite Htenants, lookup_insert_eq. eexists. by split_and!.
  - intros other Hother. by rewrite Htenants, lookup_insert_ne.
Qed.

Lemma sync_run_logged_witness :
  exists s' new,
    @ShopifyService.syncTenantData Inputs.node (fun _ _ _ => Throw "Shopify API error: 500 - down")
      0 "tenant-a" [Db.customers_t; Db.orders_t] Inputs.store0 = (s', Ok tt)
    /\ Db.syncLogs s' = Db.syncLogs Inputs.store0 ++ new
    /\ map Db.l_type new = [Db.customers_t; Db.orders_t]
    /\ Forall (fun l => terminal 0 l /\ Db.l_tenantId l = "tenant-a"
                        /\ Db.l_startedAt l = 0) new
    /\ (exists tenant',
          Db.tenants s' !! "tenant-a" = Some tenant'
          /\ Db.lastSyncAt tenant' = Some 0
          /\ Db.accessToken tenant' = Db.accessToken Inputs.tenantA
          /\ Db.isActive tenant' = Db.isActive Inputs.tenantA)
    /\ (forall other, other <> "tenant-a" ->
          Db.tenants s' !! other = Db.tenants Inputs.store0 !! other)
    /\ logs_fresh s'.
Proof.
  apply (@sync_run_logged Inputs.node (fun _ _ _ => Throw "Shopify API error: 500 - down")
           0 "tenant-a" "shpat_a" Inputs.tenantA).
  - vm_compute. reflexivity.
  - reflexivity.
  - constructor.
Defined.

(** X23: When every request to the API fails, the run still ends normally:
    each requested type gets a log row in state failed that carries the
    error message and counts no item, and no customer, order, line item,
    product or event is written. *)
Theorem sync_api_down `{Builtins} (api : ShopifyService.ShopifyApi) (now : Z)
    (tenantId token e : string) (tenant : Db.Tenant) (types : list Db.SyncType)
    (s : Db.Store) :
  Db.tenants s !! tenantId = Some tenant ->
  ShopifyService.connected tenant = Some token ->
  logs_fresh s ->
  (forall endpoint params,
     api {| ShopifyService.domain := Db.shopifyDomain tenant;
            ShopifyService.config_accessToken := token |} endpoint params = Throw e) ->
  exists s' new,
    ShopifyService.syncTenantData api now tenantId types s = (s', Ok tt)
    /\ Db.syncLogs s' = Db.syncLogs s ++ new
    /\ map Db.l_type new = types
    /\ Forall (fun l => Db.l_status l = "failed" /\ Db.l_error l = Some e
                        /\ Db.l_itemCount l = 0 /\ Db.l_completedAt l = Some now) new
    /\ same_records s s'.
Proof.
  intros Htenant Hconnected Hfresh Hdown.
  unfold ShopifyService.syncTenantData, Db.bind at 1, Db.tenant_findUnique, Db.read.
  rewrite Htenant, Hconnected. unfold Db.bind.
  destruct (syncTypes_down api now tenantId _ types e s Hdown Hfresh)
    as (s1 & new & -> & Hlogs & Htypes & Hnew & Hrecords & Htenants).
  unfold Db.tenant_update_lastSyncAt. rewrite Htenants, Htenant.
  eexists _, new. split; [reflexivity|]. cbn. by split_and!.
Qed.

Lemma sync_api_down_witness :
  exists s' new,
    @ShopifyService.syncTenantData Inputs.node (fun _ _ _ => Throw "Shopify API error: 500 - down")
      0 "tenant-a" [Db.customers_t; Db.orders_t; Db.products_t] Inputs.store0 = (s', Ok tt)
    /\ Db.syncLogs s' = Db.syncLogs Inputs.store0 ++ new
    /\ map Db.l_type new = [Db.customers_t; Db.orders_t; Db.products_t]
    /\ Forall (fun l => Db.l_status l = "failed"
                        /\ Db.l_error l = Some "Shopify API error: 500 - down"
                        /\ Db.l_itemCount l = 0 /\ Db.l_completedAt l = Some 0) new
    /\ same_records Inputs.store0 s'.
Proof.
  apply (@sync_api_down Inputs.node (fun _ _ _ => Throw "Shopify API error: 500 - down")
           0 "tenant-a" "shpat_a" "Shopify API error: 500 - down" Inputs.tenantA).
  - vm_compute. reflexivity.
  - reflexivity.
  - constructor.
  - reflexivity.
Defined.

(** X24: A page of customers that can all be read completes the log row with
    the number of customers on the page; a response without the
    [customers] key counts as an empty page and completes with 0. *)
Theorem customers_page_counted `{Builtins} (api : ShopifyService.ShopifyApi) (now : Z)
    (tenantId token : string) (tenant : Db.Tenant) (response : jsval)
    (page : list jsval) (s : Db.Store) :
  Db.tenants s !! tenantId = Some tenant ->
  ShopifyService.connected tenant = Some token ->
  logs_fresh s ->
  api {| ShopifyService.domain := Db.shopifyDomain tenant;
         ShopifyService.config_accessToken := token |} "customers" [("limit", "250")]
  = Ok response ->
  Js.nullish response = false ->
  Js.or (Js.get "customers" response) (JArr []) = JArr page ->
  Forall (fun customer => Js.nullish customer = false) page ->
  exists s' l,
    ShopifyService.syncTenantData api now tenantId [Db.customers_t] s = (s', Ok tt)
    /\ Db.syncLogs s' = Db.syncLogs s ++ [l]
    /\ Db.l_status l = "completed"
    /\ Db.l_itemCount l = Z.of_nat (length page)
    /\ Db.l_error l = None
    /\ Db.l_completedAt l = Some now.
Proof.
  intros Htenant Hconnected Hfresh Hapi Hresponse Hpage Hreadable.
  unfold ShopifyService.syncTenantData, Db.bind at 1, Db.tenant_findUnique, Db.read.
  rewrite Htenant, Hconnected. cbn [ShopifyService.syncTypes]. unfold Db.bind at 1 2.
  destruct (syncType_run api now tenantId
              {| ShopifyService.domain := Db.shopifyDomain tenant;
                 ShopifyService.config_accessToken := token |} Db.customers_t s Hfresh)
    as (-> & Htenants & _).
  cbv zeta in Htenants. unfold Db.ret at 1.
  unfold Db.tenant_update_lastSyncAt.
  cbn [Db.tenants Db.with_syncLogs]. rewrite Htenants, Htenant.
  eexists _, _. split; [reflexivity|]. cbn [Db.syncLogs Db.with_tenants Db.with_syncLogs].
  split; [reflexivity|].
  set (s1 := Db.bump _).
  assert (ShopifyService.syncCustomers tenantId now api
            {| ShopifyService.domain := Db.shopifyDomain tenant;
               ShopifyService.config_accessToken := token |} s1
          = ShopifyService.for_of (ShopifyService.syncCustomer tenantId now) page 0 s1)
    as ->.
  { unfold ShopifyService.syncCustomers, ShopifyService.shopifyRequest, Db.bind at 1,
      Db.lift at 1.
    rewrite Hapi. unfold Db.bind at 1, ShopifyService.deref. rewrite Hresponse.
    unfold Db.ret at 1. unfold Db.bind at 1, Db.lift. by rewrite Hpage. }
  rewrite (for_of_syncCustomer_count now tenantId page 0 s1 Hreadable).
  by cbn.
Qed.

Lemma customers_page_counted_witness :
  exists s' l,
    @ShopifyService.syncTenantData Inputs.node
      (fun _ _ _ => Ok (JObj [("customers", JArr [Inputs.customer123])]))
      0 "tenant-a" [Db.customers_t] Inputs.store0 = (s', Ok tt)
    /\ Db.syncLogs s' = Db.syncLogs Inputs.store0 ++ [l]
    /\ Db.l_status l = "completed"
    /\ Db.l_itemCount l = Z.of_nat (length [Inputs.customer123])
    /\ Db.l_error l = None
    /\ Db.l_completedAt l = Some 0.
Proof.
  apply (@customers_page_counted Inputs.node
           (fun _ _ _ => Ok (JObj [("customers", JArr [Inputs.customer123])]))
           0 "tenant-a" "shpat_a" Inputs.tenantA
           (JObj [("customers", JArr [Inputs.customer123])])).
  - vm_compute. reflexivity.
  - reflexivity.
  - constructor.
  - reflexivity.
  - reflexivity.
  - reflexivity.
  - repeat constructor.
Defined.

(** X25: A sync is not atomic.  When the page holds an entry that cannot be
    read ([null], the only such entry JSON can hold, or [undefined]), the
    run ends normally with the log row failed, its error the message of
    the TypeError thrown at the read of [customer.id], and no item
    counted; the customers that came before that entry on the page are in
    the store all the same. *)
Theorem customers_page_partial `{Builtins} (api : ShopifyService.ShopifyApi) (now : Z)
    (tenantId token : string) (tenant : Db.Tenant) (response bad : jsval)
    (good rest : list jsval) (s : Db.Store) :
  Db.tenants s !! tenantId = Some tenant ->
  ShopifyService.connected tenant = Some token ->
  logs_fresh s ->
  api {| ShopifyService.domain := Db.shopifyDomain tenant;
         ShopifyService.config_accessToken := token |} "customers" [("limit", "250")]
  = Ok response ->
  Js.nullish response = false ->
  Js.or (Js.get "customers" response) (JArr []) = JArr (good ++ bad :: rest) ->
  Forall (fun customer => Js.nullish customer = false) good ->
  Js.nullish bad = true ->
  exists s' l,
    ShopifyService.syncTenantData api now tenantId [Db.customers_t] s = (s', Ok tt)
    /\ Db.syncLogs s' = Db.syncLogs s ++ [l]
    /\ Db.l_status l = "failed"
    /\ Db.l_error l
       = Some match bad with
              | JNull => "Cannot read properties of null (reading 'id')"
              | _ => "Cannot read properties of undefined (reading 'id')"
              end
    /\ Db.l_itemCount l = 0
    /\ Forall (fun customer =>
                 is_Some (Db.customers s'
                            !! (tenantId, Js.String_ (Js.get "id" customer)))) good.
Proof.
  intros Htenant Hconnected Hfresh Hapi Hresponse Hpage Hreadable Hbad.
  unfold ShopifyService.syncTenantData, Db.bind at 1, Db.tenant_findUnique, Db.read.
  rewrite Htenant, Hconnected. cbn [ShopifyService.syncTypes]. unfold Db.bind at 1 2.
  destruct (syncType_run api now tenantId
              {| ShopifyService.domain := Db.shopifyDomain tenant;
                 ShopifyService.config_accessToken := token |} Db.customers_t s Hfresh)
    as (-> & Htenants & _).
  cbv zeta in Htenants. unfold Db.ret at 1.
  unfold Db.tenant_update_lastSyncAt.
  cbn [Db.tenants Db.with_syncLogs]. rewrite Htenants, Htenant.
  eexists _, _. split; [reflexivity|].
  cbn [Db.syncLogs Db.customers Db.with_tenants Db.with_syncLogs].
  split; [reflexivity|].
  set (s1 := Db.bump _).
  assert (ShopifyService.syncCustomers tenantId now api
            {| ShopifyService.domain := Db.shopifyDomain tenant;
               ShopifyService.config_accessToken := token |} s1
          = ShopifyService.for_of (ShopifyService.syncCustomer tenantId now)
              (good ++ bad :: rest) 0 s1) as ->.
  { unfold ShopifyService.syncCustomers, ShopifyService.shopifyRequest, Db.bind at 1,
      Db.lift at 1.
    rewrite Hapi. unfold Db.bind at 1, ShopifyService.deref. rewrite Hresponse.
    unfold Db.ret at 1. unfold Db.bind at 1, Db.lift. by rewrite Hpage. }
  destruct (ShopifyService.for_of _ _ 0 s1) as [s2 r] eqn:Hrun.
  destruct (for_of_syncCustomer_stops now tenantId good rest bad 0 s1 s2 r
              Hreadable Hbad Hrun) as [-> Hkeys].
  cbn. split_and!; try done.
  { destruct bad; (discriminate Hbad || reflexivity). }
  apply Forall_forall. intros customer Hcustomer. apply Hkeys. right.
  change (map ?f good) with (f <$> good). apply list_elem_of_fmap. by exists customer.
Qed.

Lemma customers_page_partial_witness :
  exists s' l,
    @ShopifyService.syncTenantData Inputs.node
      (fun _ _ _ => Ok (JObj [("customers", JArr ([Inputs.customer123] ++ JNull :: []))]))
      0 "tenant-a" [Db.customers_t] Inputs.store0 = (s', Ok tt)
    /\ Db.syncLogs s' = Db.syncLogs Inputs.store0 ++ [l]
    /\ Db.l_status l = "failed"
    /\ Db.l_error l = Some "Cannot read properties of null (reading 'id')"
    /\ Db.l_itemCount l = 0
    /\ Forall (fun customer =>
                 is_Some (Db.customers s'
                            !! ("tenant-a", Js.String_ (Js.get "id" customer))))
         [Inputs.customer123].
Proof.
  apply (@customers_page_partial Inputs.node
           (fun _ _ _ => Ok (JObj [("customers", JArr ([Inputs.customer123] ++ JNull :: []))]))
           0 "tenant-a" "shpat_a" Inputs.tenantA
           (JObj [("customers", JArr ([Inputs.customer123] ++ JNull :: []))]) JNull
           [Inputs.customer123] []).
  - vm_compute. reflexivity.
  - reflexivity.
  - constructor.
  - reflexivity.
  - reflexivity.
  - reflexivity.
  - repeat constructor.
  - reflexivity.
Defined.

(** X26: The sweep over all tenants never throws, and the failure of one
    tenant does not keep it from the others: every tenant that is active
    and connected is synced and carries the time stamp of the sweep
    afterwards, whether or not the runs of other tenants were refused or
    failed.  No tenant is added, removed or changed otherwise. *)
Theorem sweep_reaches_every_tenant `{Builtins} (api : ShopifyService.ShopifyApi) (now : Z)
    (tenantId token : string) (tenant : Db.Tenant) (s : Db.Store) :
  logs_fresh s ->
  Db.tenants s !! tenantId = Some tenant ->
  Db.tenant_id tenant = tenantId ->
  Db.isActive tenant = true ->
  ShopifyService.connected tenant = Some token ->
  exists s' tenant',
    ShopifyService.syncAllTenants api now s = (s', Ok tt)
    /\ Db.tenants s' !! tenantId = Some tenant'
    /\ Db.lastSyncAt tenant' = Some now
    /\ tenants_advance now s s'.
Proof.
  intros Hfresh Htenant Hid Hactive Hconnected.
  unfold ShopifyService.syncAllTenants, Db.bind, Db.read.
  destruct (sweep_run api now (Db.tenant_findMany_active s) s Hfresh)
    as (s' & -> & _ & Hadvance & Hstamp).
  destruct (Hstamp tenant tenant) as (tenant' & Htenant' & Hsynced).
  - unfold Db.tenant_findMany_active. apply list_elem_of_filter. split.
    + split; [exact Hactive|]. unfold ShopifyService.connected in Hconnected.
      by destruct (Db.accessToken tenant).
    + apply list_elem_of_fmap. exists (tenantId, tenant). split; [reflexivity|].
      by apply elem_of_map_to_list.
  - by rewrite Hid.
  - by rewrite Hconnected.
  - rewrite Hid in Htenant'. by exists s', tenant'.
Qed.

Lemma sweep_reaches_every_tenant_witness :
  exists s' tenant',
    @ShopifyService.syncAllTenants Inputs.node
      (fun _ _ _ => Throw "Shopify API error: 500 - down") 5 Inputs.store0 = (s', Ok tt)
    /\ Db.tenants s' !! "tenant-a" = Some tenant'
    /\ Db.lastSyncAt tenant' = Some 5
    /\ tenants_advance 5 Inputs.store0 s'.
Proof.
  apply (@sweep_reaches_every_tenant Inputs.node
           (fun _ _ _ => Throw "Shopify API error: 500 - down") 5
           "tenant-a" "shpat_a" Inputs.tenantA).
  - constructor.
  - vm_compute. reflexivity.
  - reflexivity.
  - reflexivity.
  - reflexivity.
Defined.

(** ** Every store the service gets to *)

Section Reachable.
Import Db ShopifyService.
Context `{Builtins}.

Lemma triple_run {A : Type} (m : M A) (s : Store) :
  triple linked m (fun _ => linked) -> linked s -> linked (fst (m s)).
Proof. intros Hm Hs. specialize (Hm s Hs). by destruct (m s) as [s' [a|e]]. Qed.

Lemma initial_linked (registered : gmap string Tenant) :
  linked (with_tenants (fun _ => registered) empty).
Proof.
  split.
  { repeat split; intros key row Hrow; cbn in Hrow; by rewrite lookup_empty in Hrow. }
  repeat split; intros; cbn in *; by rewrite lookup_empty in *.
Qed.

Lemma cleanup_linked (cutoff : Z) (s : Store) :
  linked s -> linked (fst (Scheduler.syncLog_deleteMany_before cutoff s)).
Proof. intros Hs. exact Hs. Qed.

Lemma post_connect_linked (tenantId : string) (accessToken : option string) (s : Store) :
  linked s -> linked (fst (ShopifyAdmin.post_connect tenantId accessToken s)).
Proof.
  intros Hs. unfold ShopifyAdmin.post_connect.
  destruct accessToken as [token|]; [|exact Hs].
  destruct (String.eqb token ""); [exact Hs|].
  destruct (tenants s !! tenantId); exact Hs.
Qed.

Lemma post_connect_fresh (tenantId : string) (accessToken : option string) (s : Store) :
  logs_fresh s -> logs_fresh (fst (ShopifyAdmin.post_connect tenantId accessToken s)).
Proof.
  intros Hs. unfold ShopifyAdmin.post_connect.
  destruct accessToken as [token|]; [|exact Hs].
  destruct (String.eqb token ""); [exact Hs|].
  destruct (tenants s !! tenantId); exact Hs.
Qed.

Lemma post_sync_fresh (api : ShopifyApi) (now : Z) (tenantId : string)
    (type : option SyncType) (s : Store) :
  logs_fresh s -> logs_fresh (fst (ShopifyRoutes.post_sync api now tenantId type s)).
Proof.
  intros Hs. unfold ShopifyRoutes.post_sync.
  destruct (tenants s !! tenantId) as [tenant|] eqn:Htenant; [|exact Hs].
  destruct (connected tenant) as [token|] eqn:Hconnected; [|exact Hs].
  cbn [fst].
  destruct (syncTenantData_connected api now tenantId token tenant
              match type with
              | Some t => [t]
              | None => [customers_t; orders_t; products_t]
              end s Htenant Hconnected Hs)
    as (s' & new & -> & _ & _ & _ & _ & Hfresh).
  exact Hfresh.
Qed.

Lemma job_linked (api : ShopifyApi) (now : Z) (job : Scheduler.Job) (s : Store) :
  linked s -> linked (Scheduler.run api now job s).
Proof.
  intros Hs. destruct job; [|exact Hs].
  unfold Scheduler.run, try_catch.
  pose proof (triple_run _ s (syncAllTenants_linked api now) Hs) as Hsweep.
  by destruct (syncAllTenants api now s) as [s' [[]|e]].
Qed.

Lemma job_fresh (api : ShopifyApi) (now : Z) (job : Scheduler.Job) (s : Store) :
  logs_fresh s -> logs_fresh (Scheduler.run api now job s).
Proof.
  intros Hs. destruct job.
  - unfold Scheduler.run, try_catch, syncAllTenants, bind, read.
    destruct (sweep_run api now (tenant_findMany_active s) s Hs) as (s' & -> & Hfresh & _).
    exact Hfresh.
  - unfold logs_fresh in *.
    change (Scheduler.run api now Scheduler.DailyCleanup s)
      with (with_syncLogs
              (filter (fun l => ~ (l_startedAt l < Scheduler.sevenDaysAgo now))
                 (syncLogs s)) s).
    cbn [syncLogs with_syncLogs nextId].
    rewrite Forall_forall in *. intros l Hl.
    apply list_elem_of_filter in Hl as [_ Hl]. by apply Hs.
Qed.

Lemma post_shopify_linked (now : Z) (req : Webhooks.Request) (s : Store) :
  linked s -> linked (fst (Webhooks.post_shopify now req s)).
Proof.
  intros Hs. unfold Webhooks.post_shopify.
  pose proof (triple_run _ s (receive_linked now req) Hs) as Hreceive.
  by destruct (Webhooks.receive now req s) as [s' [response|e]].
Qed.

Lemma post_shopify_fresh (now : Z) (req : Webhooks.Request) (s : Store) :
  logs_fresh s -> logs_fresh (fst (Webhooks.post_shopify now req s)).
Proof.
  intros Hs. unfold Webhooks.post_shopify.
  pose proof (receive_audit now req s) as Haudit.
  destruct (Webhooks.receive now req s) as [s' [response|e]];
    exact (logs_fresh_audit _ _ Hs Haudit).
Qed.

Lemma reachable_linked_fresh (s : Store) : reachable s -> linked s /\ logs_fresh s.
Proof.
  induction 1 as [registered|api now job s _ [Hlinked Hfresh]
                 |api now tenantId type s _ [Hlinked Hfresh]
                 |tenantId accessToken s _ [Hlinked Hfresh]
                 |now req s _ [Hlinked Hfresh]].
  - split; [apply initial_linked|constructor].
  - split; [by apply job_linked|by apply job_fresh].
  - split; [|by apply post_sync_fresh].
    unfold ShopifyRoutes.post_sync.
    destruct (tenants s !! tenantId) as [tenant|]; [|exact Hlinked].
    destruct (connected tenant); [|exact Hlinked].
    cbn [fst]. apply triple_run; [apply syncTenantData_linked|exact Hlinked].
  - split; [by apply post_connect_linked|by apply post_connect_fresh].
  - split; [by apply post_shopify_linked|by apply post_shopify_fresh].
Qed.

End Reachable.

(** X27: In every store the service gets to, whatever the external API
    answered and whatever the webhooks delivered: each customer, order
    and product sits under the natural key (tenant, external id) of its
    own columns, so there is one row per tenant and external id; the ids
    of customers are pairwise distinct; the customer an order points to
    exists and belongs to the tenant of the order; and every sync log has
    an id of its own below the next generated id. *)
Theorem reachable_invariant `{Builtins} (s : Db.Store) :
  reachable s ->
  Db.keyed s
  /\ (forall key1 key2 c1 c2,
        Db.customers s !! key1 = Some c1 -> Db.customers s !! key2 = Some c2 ->
        Db.c_id c1 = Db.c_id c2 -> key1 = key2)
  /\ (forall key o,
        Db.orders s !! key = Some o ->
        Db.customer_ref (Db.o_tenantId o) (Db.o_customerId o) s)
  /\ logs_fresh s.
Proof.
  intros Hs. destruct (reachable_linked_fresh s Hs) as [(Hkeyed & _ & Huniq & Hrefs) Hfresh].
  by split_and!.
Qed.

Lemma reachable_invariant_witness :
  let s := fst (@Webhooks.post_shopify Inputs.node 0 Inputs.forgedRequest Inputs.store0) in
  Db.keyed s
  /\ (forall key1 key2 c1 c2,
        Db.customers s !! key1 = Some c1 -> Db.customers s !! key2 = Some c2 ->
        Db.c_id c1 = Db.c_id c2 -> key1 = key2)
  /\ (forall key o,
        Db.orders s !! key = Some o ->
        Db.customer_ref (Db.o_tenantId o) (Db.o_customerId o) s)
  /\ logs_fresh s.
Proof.
  apply (@reachable_invariant Inputs.node).
  apply (@reach_webhook Inputs.node 0 Inputs.forgedRequest).
  apply (@reach_initial Inputs.node
           (<[ "tenant-a" := Inputs.tenantA ]> {[ "tenant-b" := Inputs.tenantB ]})).
Defined.

(** X28: In every store the service gets to, the customers a tenant-scoped
    query returns are customers of that tenant, and the orders the RFM
    handler reaches through them are orders of that tenant too. *)
Theorem reachable_orders_same_tenant `{Builtins} (tenantId : string) (s : Db.Store)
    (c : Db.Customer) (o : Db.Order) :
  reachable s ->
  c ∈ Db.customer_findMany tenantId s ->
  o ∈ Db.customer_orders c s ->
  Db.c_tenantId c = tenantId /\ Db.o_tenantId o = tenantId.
Proof.
  intros Hs Hc Ho. destruct (reachable_linked_fresh s Hs) as [Hlinked _].
  split.
  - by apply customer_findMany_spec in Hc as [Ht _].
  - exact (customer_orders_same_tenant tenantId s c o Hlinked Hc Ho).
Qed.

Lemma reachable_orders_same_tenant_witness :
  Db.c_tenantId Scenario.eve = "tenant-a" /\ Db.o_tenantId Scenario.eveOrder = "tenant-a".
Proof.
  apply (@reachable_orders_same_tenant Inputs.node "tenant-a" Scenario.afterOrderSync
           Scenario.eve Scenario.eveOrder).
  - apply (@reach_sync Inputs.node Scenario.ordersApi 0 "tenant-a" (Some Db.orders_t)).
    apply (@reach_initial Inputs.node
             (<[ "tenant-a" := Inputs.tenantA ]> {[ "tenant-b" := Inputs.tenantB ]})).
  - vm_compute. constructor.
  - vm_compute. constructor.
Defined.
